(** * X-Timeline-Curator: classification, decision log, model lifecycle

    A shallow embedding of the curator extension's core:
    - [scripts/background.js]   (fallbackClassification, logLine, the
                                 orchestrator's message handlers),
    - [scripts/offscreen.js]    (recalcEmbeddings, classify, cosine),
    - [scripts/modelManager.js] (retryFetch, getMiniLMPipeline),
    - [scripts/content.js]      (checkIfTwitterFeed, getTweetId, start,
                                 stop),
    - [popup/popup.js]          (the save button, addActivityEntry).

    Conventions.  A JavaScript string is a [string]: one [ascii] per UTF-16
    code unit, so the model covers the strings whose code units are below
    256 (ASCII and Latin-1), where [length], [includes], [toLowerCase] and
    the whitespace class are exact.  JavaScript numbers are idealised in
    [Fallback] and [Offscreen]: the integer ratios of the fallback scorer
    are rationals ([Q]), the embedding arithmetic is over the reals ([R]);
    [Tier1] leaves the arithmetic open and instantiates it with binary64.
    Every handler is one
    event-loop turn: it maps the state and the answers of the host
    (chrome.* calls, fetch, the embedding pipeline) to the next state and
    the list of effects it issued, in program order. *)

From Stdlib Require Import String Ascii List Bool Arith ZArith Lia.
From Stdlib Require Import QArith Qround DecimalString.
From Stdlib Require Import Reals Lra.
From Stdlib Require PrimFloat.
Import ListNotations.

Close Scope Q_scope.
Close Scope R_scope.
Open Scope nat_scope.
Open Scope list_scope.
Open Scope string_scope.

(* ================================================================= *)
(** * Part I: definitions *)
(* ================================================================= *)

(** ** JavaScript values and string primitives *)

Module JS.

(** The values a message field can hold, as far as the classifiers
    distinguish them ([typeof text !== 'string']). *)
Inductive value : Type :=
| Undefined
| Null
| Boolean (b : bool)
| Number (z : Z)
| Str (s : string)
| Object.

Inductive error : Type :=
| TypeError (msg : string)
| Error (msg : string).

(** A completion: normal return or a thrown exception. *)
Inductive completion (A : Type) : Type :=
| Return (a : A)
| Throw (e : error).
Arguments Return {A} a.
Arguments Throw {A} e.

(** [String.prototype.toLowerCase] on code units below 256: A-Z and the
    Latin-1 capitals U+00C0-U+00DE (without the multiplication sign
    U+00D7) move up by 32. *)
Definition isUpperCode (n : nat) : bool :=
  (((65 <=? n) && (n <=? 90)) || ((192 <=? n) && (n <=? 222) && negb (n =? 215)))%nat.

Definition lowerChar (c : ascii) : ascii :=
  let n := nat_of_ascii c in
  if isUpperCode n then ascii_of_nat (n + 32) else c.

Fixpoint toLowerCase (s : string) : string :=
  match s with
  | EmptyString => EmptyString
  | String c s' => String (lowerChar c) (toLowerCase s')
  end.

(** [String.prototype.includes]: [sub] occurs in [s] at some offset. *)
Fixpoint includes (s sub : string) : bool :=
  if String.prefix sub s then true
  else match s with
       | EmptyString => false
       | String _ s' => includes s' sub
       end.

(** The regular-expression class [\s] on code units below 256. *)
Definition isSpace (c : ascii) : bool :=
  let n := nat_of_ascii c in
  (((9 <=? n) && (n <=? 13)) || (n =? 32) || (n =? 160))%nat.

(** [s.split(/\s+/)]: cut at every maximal run of white space.  A leading
    or trailing run yields an empty first or last piece; the empty string
    yields one empty piece. *)
Fixpoint splitFrom (cur : string) (inRun : bool) (s : string) : list string :=
  match s with
  | EmptyString => [cur]
  | String c s' =>
      if isSpace c then
        if inRun then splitFrom cur true s'
        else cur :: splitFrom EmptyString true s'
      else splitFrom (cur ++ String c EmptyString) false s'
  end.

Definition splitWhitespace (s : string) : list string :=
  splitFrom EmptyString false s.

(** Case folding of an ignore-case regular expression without the unicode
    flag, for a pattern made of ASCII characters: only a-z and A-Z fold
    together (a non-ASCII code unit never canonicalises to an ASCII one). *)
Definition canonicalize (c : ascii) : ascii :=
  let n := nat_of_ascii c in
  if ((97 <=? n) && (n <=? 122))%nat then ascii_of_nat (n - 32) else c.

(** [/^pat/i.test(s)] for a literal ASCII pattern [pat]. *)
Fixpoint startsWithIgnoreCase (pat s : string) : bool :=
  match pat, s with
  | EmptyString, _ => true
  | String _ _, EmptyString => false
  | String p pat', String c s' =>
      Ascii.eqb (canonicalize p) (canonicalize c) && startsWithIgnoreCase pat' s'
  end.

(** Decimal rendering of an integer inside a template literal. *)
Definition showZ (z : Z) : string := NilZero.string_of_int (Z.to_int z).
Definition showNat (n : nat) : string := showZ (Z.of_nat n).

End JS.

(** ** Classification results *)

(** [{ isUninteresting, reason }], the object both classifiers return. *)
Record ClassificationResult : Type := mkResult {
  isUninteresting : bool;
  reason : string
}.

(** ** Tier 2: [fallbackClassification] (background.js) *)

Module Fallback.
Import JS.

Definition spamKeywords : list string :=
  [ "sponsored"; "promoted"; "advertisement"; "buy now"; "click here";
    "limited time"; "act now"; "dm me"; "link in bio"; "follow back";
    "get rich"; "make money"; "work from home"; "crypto opportunity";
    "investment opportunity"; "f4f"; "l4l"; "check my bio"; "promo code" ].

Definition qualityIndicators : list string :=
  [ "research"; "study"; "analysis"; "breakthrough"; "discovered"; "published";
    "scientists"; "university"; "paper"; "findings"; "data shows" ].

(** The alternatives of [/^(rt if|retweet if|like if|agree or disagree)/i]. *)
Definition baitPrefixes : list string :=
  [ "rt if"; "retweet if"; "like if"; "agree or disagree" ].

Definition isEngagementBait (text : string) : bool :=
  existsb (fun p => startsWithIgnoreCase p text) baitPrefixes.

Definition b2n (b : bool) : nat := if b then 1 else 0.

(** The body of the two nested [for] loops: what one pair
    ([word], [iWord]) adds to [matchCount]. *)
Definition pairMatches (word iWord : string) : nat :=
  b2n ((3 <=? String.length word)%nat && (3 <=? String.length iWord)%nat
       && (includes word iWord || includes iWord word))
  + b2n (String.eqb word "ai"
         && (String.eqb iWord "artificial" || String.eqb iWord "intelligence"))
  + b2n (String.eqb word "ml"
         && (String.eqb iWord "machine" || String.eqb iWord "learning"))
  + b2n (String.eqb word "gpu" && String.eqb iWord "graphics")
  + b2n (String.eqb word "cpu" && String.eqb iWord "processor").

(** [for (const iWord of interestWords) ...] with the running count. *)
Fixpoint innerLoop (word : string) (interestWords : list string) (matchCount : nat) : nat :=
  match interestWords with
  | [] => matchCount
  | iWord :: rest => innerLoop word rest (matchCount + pairMatches word iWord)
  end.

(** [for (const word of words) ...] with the running count. *)
Fixpoint outerLoop (words interestWords : list string) (matchCount : nat) : nat :=
  match words with
  | [] => matchCount
  | word :: rest => outerLoop rest interestWords (innerLoop word interestWords matchCount)
  end.

(** [matchCount / interestWords.length]. *)
Definition ratio (matchCount len : nat) : Q :=
  (inject_Z (Z.of_nat matchCount) / inject_Z (Z.of_nat len))%Q.

Definition Qgtb (x y : Q) : bool := if Qlt_le_dec y x then true else false.

(** [for (const interest of interests)]: a direct match returns at once;
    otherwise the interest is scored and the best score kept. *)
Fixpoint interestLoop (lowerText : string) (interests : list string)
  (bestMatch : option string) (bestScore : Q)
  : ClassificationResult + (option string * Q) :=
  match interests with
  | [] => inr (bestMatch, bestScore)
  | interest :: rest =>
      let interestLower := toLowerCase interest in
      if includes lowerText interestLower then
        inl (mkResult false ("Direct match: " ++ interest))
      else
        let words := splitWhitespace lowerText in
        let interestWords := splitWhitespace interestLower in
        let matchCount := outerLoop words interestWords 0 in
        let score := ratio matchCount (List.length interestWords) in
        if Qgtb score bestScore
        then interestLoop lowerText rest (Some interest) score
        else interestLoop lowerText rest bestMatch bestScore
  end.

(** [for (const keyword of list) if (lowerText.includes(keyword)) return ...]:
    the first keyword of [list] that occurs in [lowerText]. *)
Fixpoint firstIncluded (lowerText : string) (list : list string) : option string :=
  match list with
  | [] => None
  | keyword :: rest =>
      if includes lowerText keyword then Some keyword
      else firstIncluded lowerText rest
  end.

(** [Math.round(bestScore * 100)], half rounding up, in exact arithmetic
    (binary64 can land on the other side of a half). *)
Definition percent (bestScore : Q) : Z := Qfloor (bestScore * 100 + (1 # 2))%Q.

(** [`${bestMatch}`]: the loop leaves [null] when nothing scored. *)
Definition showMatch (bestMatch : option string) : string :=
  match bestMatch with
  | Some interest => interest
  | None => "null"
  end.

Definition fallbackClassification (text : value) (interests : list string)
  : ClassificationResult :=
  match text with
  | Str text =>
      let lowerText := toLowerCase text in
      match firstIncluded lowerText spamKeywords with
      | Some keyword => mkResult true ("Spam keyword: " ++ keyword)
      | None =>
          match interestLoop lowerText interests None 0%Q with
          | inl direct => direct
          | inr (bestMatch, bestScore) =>
              if isEngagementBait text then
                mkResult true "Engagement bait pattern"
              else
                match firstIncluded lowerText qualityIndicators with
                | Some indicator => mkResult false ("Quality content: " ++ indicator)
                | None =>
                    if Qgtb bestScore (1 # 2)%Q then
                      mkResult false
                        ("Semantic match: " ++ showMatch bestMatch
                         ++ " (" ++ showZ (percent bestScore) ++ "%)")
                    else
                      mkResult true
                        "No matching interests (using fallback classification)"
                end
          end
      end
  | _ => mkResult true "Invalid text input"
  end.

End Fallback.

(** ** Tier 1: the offscreen document (offscreen.js) *)

Module Offscreen.
Import JS.

(** An embedding vector (a [Float32Array], read as reals). *)
Definition vec : Type := list R.

(** The feature-extraction pipeline, as [offscreen.js] reads it, a
    synchronous map from a text to its vector:
    [classifier(t, { pooling: 'mean', normalize: true })[0]].  The call
    either yields a vector or throws.  The pipeline the extension loads
    is asynchronous: [Tier1] has the expression with what it yields
    then. *)
Definition pipeline : Type := string -> completion vec.

(** One entry of [interestEmbeddings]: [{ t, emb }]. *)
Record InterestEmbedding : Type := mkInterestEmbedding {
  t : string;
  emb : vec
}.

(** The module-level variables of [offscreen.js]. *)
Record state : Type := mkState {
  classifier : option pipeline;
  interestEmbeddings : list InterestEmbedding;
  spamList : list string;
  threshold : R
}.

Definition defaultThreshold : R := (35 / 100)%R.

(** [let classifier; let interestEmbeddings = []; let spamList = [];
    let threshold = 0.35;] *)
Definition initial : state := mkState None [] [] defaultThreshold.

Definition Rltb (x y : R) : bool := if Rlt_dec x y then true else false.
Definition Rgtb (x y : R) : bool := if Rgt_dec x y then true else false.

(** One iteration of the loop of [cosine]:
    [dot += a[i] * b[i]; na += a[i] ** 2; nb += b[i] ** 2].  Reads past the
    end of a typed array ([undefined], hence [NaN]) have no real-number
    counterpart: the statements about [cosine] are for vectors of one
    dimension. *)
Definition cosineStep (a b : vec) (acc : R * R * R) (i : nat) : R * R * R :=
  let '(dot, na, nb) := acc in
  (dot + nth i a 0 * nth i b 0, na + nth i a 0 ^ 2, nb + nth i b 0 ^ 2)%R.

(** [for (let i = 0; i < a.length; ++i) ...;
    return dot / (Math.sqrt(na) * Math.sqrt(nb))].  Division is total on
    [R]: for a zero vector the quotient 0/0 is 0 here and [NaN] in
    JavaScript. *)
Definition cosine (a b : vec) : R :=
  let '(dot, na, nb) :=
    fold_left (cosineStep a b) (seq 0 (List.length a)) (0, 0, 0)%R in
  (dot / (sqrt na * sqrt nb))%R.

(** [interests.map(t => ({ t, emb: classifier(t, ...)[0] }))]: the calls
    run left to right and the first one that throws aborts the map. *)
Fixpoint embedAll (c : pipeline) (interests : list string)
  : completion (list InterestEmbedding) :=
  match interests with
  | [] => Return []
  | t :: rest =>
      match c t with
      | Throw e => Throw e
      | Return v =>
          match embedAll c rest with
          | Throw e => Throw e
          | Return l => Return (mkInterestEmbedding t v :: l)
          end
      end
  end.

Definition setInterestEmbeddings (st : state) (l : list InterestEmbedding) : state :=
  mkState (classifier st) l (spamList st) (threshold st).

(** [recalcEmbeddings]: nothing without a classifier; otherwise the
    mapped array is built first and assigned in one statement. *)
Definition recalcEmbeddings (interests : list string) (st : state) : completion state :=
  match classifier st with
  | None => Return st
  | Some c =>
      match embedAll c interests with
      | Throw e => Throw e
      | Return l => Return (setInterestEmbeddings st l)
      end
  end.

(** The payload of a [SET_INTERESTS] message; a field may be absent. *)
Record SetInterests : Type := mkSetInterests {
  msgInterests : option (list string);
  msgSpamKeywords : option (list string);
  msgThreshold : option R
}.

Definition orElse {A : Type} (o : option A) (d : A) : A :=
  match o with Some a => a | None => d end.

(** The [SET_INTERESTS] branch of the message listener. *)
Definition onSetInterests (msg : SetInterests) (st : state) : completion state :=
  match recalcEmbeddings (orElse (msgInterests msg) []) st with
  | Throw e => Throw e
  | Return st1 =>
      Return (mkState (classifier st1) (interestEmbeddings st1)
                (orElse (msgSpamKeywords msg) [])
                (orElse (msgThreshold msg) defaultThreshold))
  end.

(** [ensureModel], once [getMiniLMPipeline()] has resolved with [pipe]:
    [if (classifier) return; classifier = await getMiniLMPipeline()]. *)
Definition onModelLoaded (pipe : pipeline) (st : state) : state :=
  match classifier st with
  | Some _ => st
  | None => mkState (Some pipe) (interestEmbeddings st) (spamList st) (threshold st)
  end.

(** The loop of [classify] over [interestEmbeddings], from [maxSim = -1]. *)
Definition maxSimLoop (emb0 : vec) (l : list InterestEmbedding) (maxSim : R) : R :=
  fold_left
    (fun maxSim i =>
       let sim := cosine emb0 (emb i) in
       if Rgtb sim maxSim then sim else maxSim)
    l maxSim.

Section Classify.

(** [Number.prototype.toFixed(2)], the host's decimal formatting. *)
Variable toFixed2 : R -> string.

(** [classify(tweet)].  Next to the completion, the texts the pipeline
    was called with, in call order. *)
Definition classify (st : state) (tweet : value)
  : list string * completion ClassificationResult :=
  match tweet with
  | Str tweet =>
      let lower := toLowerCase tweet in
      if existsb (fun k => includes lower k) (spamList st) then
        ([], Return (mkResult true "Spam"))
      else
        match interestEmbeddings st with
        | [] => ([], Return (mkResult false "No interests"))
        | _ :: _ =>
            match classifier st with
            | None => ([], Throw (TypeError "classifier is not a function"))
            | Some c =>
                match c tweet with
                | Throw e => ([tweet], Throw e)
                | Return emb0 =>
                    let maxSim := maxSimLoop emb0 (interestEmbeddings st) (-1)%R in
                    ([tweet],
                     Return (mkResult (Rltb maxSim (threshold st))
                               ("sim=" ++ toFixed2 maxSim)))
                end
            end
        end
  | Undefined =>
      ([], Throw (TypeError "Cannot read properties of undefined (reading 'toLowerCase')"))
  | Null =>
      ([], Throw (TypeError "Cannot read properties of null (reading 'toLowerCase')"))
  | _ => ([], Throw (TypeError "tweet.toLowerCase is not a function"))
  end.

End Classify.

End Offscreen.

(** ** The decision log: [logLine] (background.js) *)

Module DecisionLog.
Import JS.

(** One element of the stored [curationLog] array. *)
Record LogEntry : Type := mkLogEntry {
  ts : N;
  id : string;
  decision : string;
  reason : string;
  text : string
}.

(** The bound of [if (curationLog.length > 2000)]. *)
Definition capacity : nat := 2000.

(** What the host answers during one call: the clock, and whether
    [chrome.storage.local.get] / [set] reject. *)
Record host : Type := mkHost {
  now : N;
  getFails : bool;
  setFails : bool
}.

(** The value stored under the key [curationLog]: [None] when the key is
    absent or does not hold an array (both read as the empty log). *)
Definition stored : Type := option (list LogEntry).

Definition contents (s : stored) : list LogEntry :=
  match s with
  | Some l => l
  | None => []
  end.

(** [!x] for a string argument: only the empty string is falsy. *)
Definition falsy (s : string) : bool := String.eqb s "".

(** [logLine({id, text, decision, reason})]: the stored value after the
    call.  [push] appends, [shift] drops the first element. *)
Definition logLine (h : host) (id text decision reason : string) (s : stored) : stored :=
  if falsy id || falsy decision || falsy reason then s
  else if getFails h then s
  else
    let curationLog := (contents s ++ [mkLogEntry (now h) id decision reason text])%list in
    let curationLog :=
      if (capacity <? List.length curationLog)%nat then tl curationLog else curationLog in
    if setFails h then s else Some curationLog.

(** A call of [logLine], with the host's answers during it. *)
Record call : Type := mkCall {
  callHost : host;
  callId : string;
  callText : string;
  callDecision : string;
  callReason : string
}.

Definition logCall (s : stored) (c : call) : stored :=
  logLine (callHost c) (callId c) (callText c) (callDecision c) (callReason c) s.

(** Successive calls, each reading what the previous one stored. *)
Definition logAll (calls : list call) (s : stored) : stored :=
  fold_left logCall calls s.

(** The entry a call appends when it goes through. *)
Definition entryOf (c : call) : LogEntry :=
  mkLogEntry (now (callHost c)) (callId c) (callDecision c) (callReason c) (callText c).

(** The call passes the parameter check and the storage answers. *)
Definition accepted (c : call) : bool :=
  negb (falsy (callId c) || falsy (callDecision c) || falsy (callReason c))
  && negb (getFails (callHost c)) && negb (setFails (callHost c)).

End DecisionLog.

(** ** Model acquisition: [retryFetch], [getMiniLMPipeline] (modelManager.js) *)

Module ModelManager.
Import JS.

(** How one [fetch] call ends: a response with [ok], a response with
    another status, or a rejection (network failure, or the abort of the
    30 s timeout signal). *)
Inductive fetchOutcome : Type :=
| FetchOk
| FetchStatus (status : nat) (statusText : string)
| FetchFailed (message : string).

(** What an attempt does to the outside, in program order. *)
Inductive io : Type :=
| Fetch (url : string) (timeoutMs : N)
| Sleep (ms : N)
| Progress (status : string) (progress : nat)
| ImportLibrary
| CreatePipeline (repo : string)
| StartTimer (ms : N)
| SendReady
| SendLoadFailed (payload : string).

Inductive response : Type := Response.

(** The [catch] of one attempt sees this message, if the attempt failed. *)
Definition failureOf (o : fetchOutcome) : option string :=
  match o with
  | FetchOk => None
  | FetchStatus status statusText =>
      Some ("HTTP " ++ showNat status ++ ": " ++ statusText)
  | FetchFailed message => Some message
  end.

(** [Math.pow(2, attempt - 1) * 1000] *)
Definition backoff (attempt : nat) : N := (2 ^ N.of_nat (attempt - 1) * 1000)%N.

(** The [for] loop of [retryFetch] from iteration [attempt], with
    [remaining] iterations left before [attempt <= maxRetries] fails.
    [net k] is how the fetch of attempt [k] ends.  Leaving the loop
    without a [return] yields [undefined] ([None]). *)
Fixpoint retryLoop (net : nat -> fetchOutcome) (url : string) (maxRetries : nat)
  (remaining attempt : nat) : list io * completion (option response) :=
  match remaining with
  | 0 => ([], Return None)
  | S remaining' =>
      match failureOf (net attempt) with
      | None => ([Fetch url 30000%N], Return (Some Response))
      | Some message =>
          if (attempt =? maxRetries)%nat then
            ([Fetch url 30000%N],
             Throw (Error ("Failed to fetch after " ++ showNat maxRetries
                           ++ " attempts: " ++ message)))
          else
            let '(trace, r) := retryLoop net url maxRetries remaining' (S attempt) in
            (Fetch url 30000%N :: Sleep (backoff attempt) :: trace, r)
      end
  end.

(** [retryFetch(url, options, maxRetries = 3)] *)
Definition retryFetch (net : nat -> fetchOutcome) (url : string) (maxRetries : nat)
  : list io * completion (option response) :=
  retryLoop net url maxRetries maxRetries 1.

Definition MODEL_REPO : string := "Xenova/all-MiniLM-L6-v2".

Definition probeUrl : string :=
  "https://huggingface.co/Xenova/all-MiniLM-L6-v2/resolve/main/config.json".

Definition messageOf (e : error) : string :=
  match e with
  | TypeError msg => msg
  | Error msg => msg
  end.

(** The [catch] block's rewriting of [err.message] into the payload of
    [AI_LOAD_FAILED]. *)
Definition errorMessage (message : string) : string :=
  if includes message "fetch" then
    "Network error: Check internet connection and try again"
  else if includes message "timeout" then
    "Download timeout: Model download took too long"
  else if includes message "HTTP" then
    "Server error: " ++ message
  else message.

(** How [Promise.race([pipelinePromise, timeoutPromise])] settles; the
    downloads the library issues through the patched [env.fetch] are part
    of this outcome. *)
Inductive pipelineOutcome : Type :=
| PipelineReady (pipe : Offscreen.pipeline)
| PipelineFailed (message : string)
| PipelineTimeout.

(** The host's answers during one load attempt. *)
Record loadHost : Type := mkLoadHost {
  net : nat -> fetchOutcome;
  importFails : option string;
  pipelineEnds : pipelineOutcome
}.

(** The [try] block of the async body: its effects and how it ends. *)
Definition tryLoad (h : loadHost) : list io * completion Offscreen.pipeline :=
  let start := [Progress "Initializing..." 5; Progress "Testing network..." 10] in
  match retryFetch (net h) probeUrl 3 with
  | (probe, Throw networkError) =>
      ((start ++ probe)%list,
       Throw (Error ("Network connectivity issue: " ++ messageOf networkError)))
  | (probe, Return _) =>
      let importing :=
        (start ++ probe ++ [Progress "Loading AI library..." 15; ImportLibrary])%list in
      match importFails h with
      | Some message => (importing, Throw (Error message))
      | None =>
          let downloading :=
            (importing ++ [Progress "Downloading model..." 20;
                           CreatePipeline MODEL_REPO; StartTimer 120000%N])%list in
          match pipelineEnds h with
          | PipelineFailed message => (downloading, Throw (Error message))
          | PipelineTimeout =>
              (downloading, Throw (Error "Model download timeout (2 minutes)"))
          | PipelineReady pipe =>
              ((downloading ++ [Progress "Model ready!" 100; SendReady])%list, Return pipe)
          end
      end
  end.

(** The whole async body: [try] and [catch]. *)
Definition loadBody (h : loadHost) : list io * completion Offscreen.pipeline :=
  match tryLoad h with
  | (trace, Return pipe) => (trace, Return pipe)
  | (trace, Throw err) =>
      ((trace ++ [SendLoadFailed (errorMessage (messageOf err))])%list, Throw err)
  end.

(** A promise returned by the async body. *)
Inductive promiseState : Type :=
| Pending
| Fulfilled (pipe : Offscreen.pipeline)
| Rejected (e : error).

(** The module variables [modelReady] and [_loadPromise].  A promise is
    named by its index in [attempts], which has one entry per started
    execution of the async body. *)
Record state : Type := mkState {
  modelReady : bool;
  loadPromise : option nat;
  attempts : list promiseState
}.

Definition initial : state := mkState false None [].

(** [getMiniLMPipeline()]: the promise handed to the caller and the state
    after the call. *)
Definition getMiniLMPipeline (st : state) : nat * state :=
  match loadPromise st with
  | Some p => (p, st)
  | None =>
      let p := List.length (attempts st) in
      (p, mkState (modelReady st) (Some p) (attempts st ++ [Pending])%list)
  end.

Fixpoint setNth {A : Type} (n : nat) (a : A) (l : list A) : list A :=
  match l, n with
  | [], _ => []
  | _ :: l', 0 => a :: l'
  | x :: l', S n' => x :: setNth n' a l'
  end.

Definition isPending (st : state) (p : nat) : bool :=
  match nth_error (attempts st) p with
  | Some Pending => true
  | _ => false
  end.

(** The attempt in flight runs to its end under the answers [h]: on
    success [modelReady = true] and the promise stays memoized; on failure
    [_loadPromise = null].  The effects of the attempt are listed as a
    whole.  Without an attempt in flight nothing happens. *)
Definition settle (h : loadHost) (st : state) : state * list io :=
  match loadPromise st with
  | Some p =>
      if isPending st p then
        match loadBody h with
        | (trace, Return pipe) =>
            (mkState true (Some p) (setNth p (Fulfilled pipe) (attempts st)), trace)
        | (trace, Throw err) =>
            (mkState (modelReady st) None (setNth p (Rejected err) (attempts st)), trace)
        end
      else (st, [])
  | None => (st, [])
  end.

(** The turns of the event loop that touch the module state. *)
Inductive event : Type :=
| Acquire
| Settle (h : loadHost).

Definition step (st : state) (e : event) : state :=
  match e with
  | Acquire => snd (getMiniLMPipeline st)
  | Settle h => fst (settle h st)
  end.

Definition run (es : list event) (st : state) : state := fold_left step es st.

Definition isAcquire (e : event) : bool :=
  match e with Acquire => true | Settle _ => false end.

(** A pending attempt is the memoized one: at most one attempt is in
    flight. *)
Definition singleFlight (st : state) : Prop :=
  forall q, isPending st q = true -> loadPromise st = Some q.

(** Number of executions of the async body started so far. *)
Definition loadAttempts (st : state) : nat := List.length (attempts st).

End ModelManager.

(** ** The orchestrator: background.js *)

Module Background.
Import JS.

(** The list the orchestrator sends to the offscreen document. *)
Definition spamKeywords : list string :=
  [ "promoted"; "sponsored"; "free crypto"; "giveaway" ].

Definition SIM_THRESHOLD : R := (35 / 100)%R.

(** What the content script is told ([chrome.tabs.sendMessage]). *)
Inductive directive : Type :=
| PING
| START
| STOP
| MARK_TWEET (id : string) (isUninteresting : bool).

(** What is sent with [chrome.runtime.sendMessage]. *)
Inductive message : Type :=
| SET_INTERESTS (m : Offscreen.SetInterests)
| STATUS_UPDATE (isRunning aiReady : bool) (aiStatus : string)
| ACTIVITY_LOG (tweetText : value) (decision reason : string)
| PRELOAD_MODEL
| OFFSCREEN_READY
| CLASSIFY (id : string) (text : value)
| LOAD_PROGRESS (status : string) (progress : nat)
| LOAD_FAILED (payload : string).

(** The argument of [sendResponse]. *)
Record response : Type := mkResponse {
  success : bool;
  error : option string
}.

Definition ok : response := mkResponse true None.
Definition failed (message : string) : response := mkResponse false (Some message).

(** The function handed to [setTimeout]. *)
Inductive callback : Type :=
| RetryInitializeAI.

(** Calls that leave the service worker, in program order (console
    output is not part of the model). *)
Inductive effect : Type :=
| SendMessage (m : message)
| TabsSendMessage (tabId : nat) (d : directive)
| ExecuteScript (tabId : nat)
| CreateOffscreenDocument
| SendResponse (r : response).

(** The module variables, and the host state this context owns: the
    stored keys, the keep-alive alarm and the pending timeouts. *)
Record state : Type := mkState {
  isRunning : bool;
  aiReady : bool;
  cachedInterests : list string;
  connectedTabs : list nat;
  modelManager : ModelManager.state;
  storedIsRunning : option bool;
  storedAiStatus : option string;
  curationLog : DecisionLog.stored;
  keepAlive : bool;
  timers : list (N * callback)
}.

(** The service worker's own instance of modelManager.js: nothing in
    background.js calls [getMiniLMPipeline]. *)
Definition initial : state :=
  mkState false false [] [] ModelManager.initial None None None false [].

Definition setIsRunning (b : bool) (st : state) : state :=
  mkState b (aiReady st) (cachedInterests st) (connectedTabs st) (modelManager st)
    (storedIsRunning st) (storedAiStatus st) (curationLog st) (keepAlive st) (timers st).

Definition setAiReady (b : bool) (st : state) : state :=
  mkState (isRunning st) b (cachedInterests st) (connectedTabs st) (modelManager st)
    (storedIsRunning st) (storedAiStatus st) (curationLog st) (keepAlive st) (timers st).

Definition setConnectedTabs (l : list nat) (st : state) : state :=
  mkState (isRunning st) (aiReady st) (cachedInterests st) l (modelManager st)
    (storedIsRunning st) (storedAiStatus st) (curationLog st) (keepAlive st) (timers st).

Definition setStoredIsRunning (b : bool) (st : state) : state :=
  mkState (isRunning st) (aiReady st) (cachedInterests st) (connectedTabs st) (modelManager st)
    (Some b) (storedAiStatus st) (curationLog st) (keepAlive st) (timers st).

Definition setStoredAiStatus (s : string) (st : state) : state :=
  mkState (isRunning st) (aiReady st) (cachedInterests st) (connectedTabs st) (modelManager st)
    (storedIsRunning st) (Some s) (curationLog st) (keepAlive st) (timers st).

Definition setCurationLog (l : DecisionLog.stored) (st : state) : state :=
  mkState (isRunning st) (aiReady st) (cachedInterests st) (connectedTabs st) (modelManager st)
    (storedIsRunning st) (storedAiStatus st) l (keepAlive st) (timers st).

Definition setKeepAlive (b : bool) (st : state) : state :=
  mkState (isRunning st) (aiReady st) (cachedInterests st) (connectedTabs st) (modelManager st)
    (storedIsRunning st) (storedAiStatus st) (curationLog st) b (timers st).

Definition setTimers (l : list (N * callback)) (st : state) : state :=
  mkState (isRunning st) (aiReady st) (cachedInterests st) (connectedTabs st) (modelManager st)
    (storedIsRunning st) (storedAiStatus st) (curationLog st) (keepAlive st) l.

(** A tab as [chrome.tabs.query] reports it. *)
Record tab : Type := mkTab {
  tabId : nat;
  url : option string;
  discarded : bool;
  complete : bool
}.

(** How the calls aimed at one tab end: the rejection message of the
    ping and of the first send, if any, and whether the injection and the
    second send go through. *)
Record tabAnswers : Type := mkTabAnswers {
  pingError : option string;
  sendError : option string;
  injectOk : bool;
  resendOk : bool
}.

(** The host's answers during one turn of the message listener. *)
Record host : Type := mkHost {
  activeTab : option tab;
  feedTabs : list tab;
  answers : nat -> tabAnswers;
  storageFails : bool;
  statusDelivered : bool;
  offscreenExists : bool;
  offscreenFails : bool;
  classifyReply : option ClassificationResult;
  logHost : DecisionLog.host
}.

(** [isModelReady()] as imported from modelManager.js. *)
Definition isModelReady (st : state) : bool :=
  ModelManager.modelReady (modelManager st).

Definition aiStatusOf (st : state) : string :=
  if aiReady st then "ready" else if isRunning st then "loading" else "stopped".

(** [broadcastStatus]: the stored status follows only when the message
    found a receiver; both failures are swallowed. *)
Definition broadcastStatus (h : host) (st : state) : state * list effect :=
  let aiStatus := aiStatusOf st in
  let sent := [SendMessage (STATUS_UPDATE (isRunning st) (aiReady st) aiStatus)] in
  if statusDelivered h && negb (storageFails h)
  then (setStoredAiStatus aiStatus st, sent)
  else (st, sent).

(** [setupOffscreenDocument] followed by the rest of [initializeAI]. *)
Definition initializeAI (h : host) (st : state) : state * list effect :=
  let '(st1, e1) := broadcastStatus h st in
  let setup :=
    if offscreenExists h then [SendMessage OFFSCREEN_READY]
    else [CreateOffscreenDocument] in
  if offscreenFails h then
    let '(st2, e2) := broadcastStatus h st1 in
    (st2, (e1 ++ setup ++ e2)%list)
  else
    let '(st2, e2) := broadcastStatus h st1 in
    (st2, (e1 ++ setup ++ [SendMessage PRELOAD_MODEL] ++ e2)%list).

Definition connectionError (message : string) : bool :=
  includes message "Could not establish connection"
  || includes message "Receiving end does not exist".

Definition addTab (id : nat) (l : list nat) : list nat :=
  if existsb (Nat.eqb id) l then l else (l ++ [id])%list.

Definition deleteTab (id : nat) (l : list nat) : list nat :=
  filter (fun x => negb (Nat.eqb id x)) l.

(** The body of [tabs.map(async (tab) => ...)] for one tab. *)
Definition forwardToTab (h : host) (d : directive) (t : tab) (st : state)
  : state * list effect :=
  let id := tabId t in
  if (id =? 0)%nat || discarded t || negb (complete t) then (st, [])
  else
    let a := answers h id in
    let afterError (message : string) (sent : list effect) :=
      if connectionError message then
        if injectOk a && resendOk a then
          (setConnectedTabs (addTab id (connectedTabs st)) st,
           (sent ++ [ExecuteScript id; TabsSendMessage id d])%list)
        else if injectOk a then
          (st, (sent ++ [ExecuteScript id; TabsSendMessage id d])%list)
        else (st, (sent ++ [ExecuteScript id])%list)
      else (setConnectedTabs (deleteTab id (connectedTabs st)) st, sent) in
    match pingError a with
    | Some message => afterError message [TabsSendMessage id PING]
    | None =>
        match sendError a with
        | Some message =>
            afterError message [TabsSendMessage id PING; TabsSendMessage id d]
        | None =>
            (setConnectedTabs (addTab id (connectedTabs st)) st,
             [TabsSendMessage id PING; TabsSendMessage id d])
        end
    end.

(** [forwardToContentScript]: the effects are listed tab by tab, in the
    order of the query result.  The code starts the body for all tabs at
    once ([Promise.all]), so the calls aimed at different tabs may
    interleave; what is stated of this list is by membership and by
    count. *)
Fixpoint forwardToTabs (h : host) (d : directive) (tabs : list tab) (st : state)
  : state * list effect :=
  match tabs with
  | [] => (st, [])
  | t :: rest =>
      let '(st1, e1) := forwardToTab h d t st in
      let '(st2, e2) := forwardToTabs h d rest st1 in
      (st2, (e1 ++ e2)%list)
  end.

Definition forwardToContentScript (h : host) (d : directive) (st : state)
  : state * list effect :=
  forwardToTabs h d (feedTabs h) st.

Definition startContentScript (h : host) (st : state) := forwardToContentScript h START st.
Definition stopContentScript (h : host) (st : state) := forwardToContentScript h STOP st.

(** [tab.url.includes('x.com') || tab.url.includes('twitter.com')] *)
Definition eligible (t : option tab) : bool :=
  match t with
  | Some t =>
      match url t with
      | Some u => negb (String.eqb u "") && (includes u "x.com" || includes u "twitter.com")
      | None => false
      end
  | None => false
  end.

Definition storageError : JS.error := JS.Error "storage.local.set failed".

(** [startCuration]: the state, the effects, and whether the returned
    promise fulfils or rejects.  The two early [return]s (wrong tab,
    failed injection) only write to the console. *)
Definition startCuration (h : host) (st : state)
  : state * list effect * completion unit :=
  if isRunning st then (st, [], Return tt)
  else if negb (eligible (activeTab h)) then
    (st, [], Return tt)
  else
    let id := match activeTab h with Some t => tabId t | None => 0 end in
    let a := answers h id in
    let ping := [TabsSendMessage id PING] in
    let injected :=
      match pingError a with
      | None => Some ping
      | Some _ =>
          if injectOk a
          then Some (ping ++ [ExecuteScript id])%list
          else None
      end in
    match injected with
    | None =>
        (st, (ping ++ [ExecuteScript id])%list, Return tt)
    | Some e0 =>
        let st1 := setIsRunning true st in
        if storageFails h then
          let st2 := setIsRunning false st1 in
          (st2, e0, Throw storageError)
        else
          let st2 := setKeepAlive true (setStoredIsRunning true st1) in
          let '(st3, e3) :=
            if aiReady st2 then startContentScript h st2 else initializeAI h st2 in
          let '(st4, e4) := broadcastStatus h st3 in
          (st4, (e0 ++ e3 ++ e4)%list, Return tt)
    end.

(** [stopCuration] *)
Definition stopCuration (h : host) (st : state) : state * list effect :=
  if negb (isRunning st) then (st, [])
  else
    let st1 := setIsRunning false st in
    if storageFails h then (st1, [])
    else
      let st2 := setKeepAlive false (setStoredIsRunning false st1) in
      let '(st3, e3) := stopContentScript h st2 in
      let '(st4, e4) := broadcastStatus h st3 in
      (st4, (e3 ++ e4)%list).

(** [x || d] for a string that may be missing. *)
Definition orString (x : option string) (d : string) : string :=
  match x with
  | Some s => if String.eqb s "" then d else s
  | None => d
  end.

Definition truthy (v : value) : bool :=
  match v with
  | Undefined | Null => false
  | Boolean b => b
  | Number z => negb (Z.eqb z 0)
  | Str s => negb (String.eqb s "")
  | Object => true
  end.

(** [String(v)] *)
Definition toString (v : value) : string :=
  match v with
  | Undefined => "undefined"
  | Null => "null"
  | Boolean true => "true"
  | Boolean false => "false"
  | Number z => showZ z
  | Str s => s
  | Object => "[object Object]"
  end.

(** [String(text || d)] *)
Definition textOr (text : value) (d : string) : string :=
  if truthy text then toString text else d.

(** Logging, the activity message and the hide directive, shared by the
    [EVALUATE_TWEET] and [CLASSIFICATION_RESULT] branches. *)
Definition report (h : host) (id : string) (text : value)
  (isUninteresting : bool) (reason : string) (st : state) : state * list effect :=
  let st1 :=
    setCurationLog
      (DecisionLog.logLine (logHost h) (orString (Some id) "unknown") (textOr text "")
         (if isUninteresting then "hide" else "keep") (orString (Some reason) "unknown")
         (curationLog st)) st in
  let activity :=
    [SendMessage (ACTIVITY_LOG (if truthy text then text else Str "No text available")
                    (if isUninteresting then "hidden" else "kept") reason)] in
  if isUninteresting then
    let '(st2, e2) := forwardToContentScript h (MARK_TWEET id true) st1 in
    (st2, (activity ++ e2)%list)
  else (st1, activity).

(** The classification the [EVALUATE_TWEET] branch settles on. *)
Definition classifyTweet (h : host) (id : string) (text : value) (st : state)
  : ClassificationResult * list effect :=
  if isModelReady st then
    match classifyReply h with
    | Some r => (r, [SendMessage (CLASSIFY id text)])
    | None =>
        (Fallback.fallbackClassification text (cachedInterests st),
         [SendMessage (CLASSIFY id text)])
    end
  else (Fallback.fallbackClassification text (cachedInterests st), []).

(** [message.payload.includes(...)] of the [AI_LOAD_FAILED] branch. *)
Definition isNetworkError (errorMessage : string) : bool :=
  includes errorMessage "Network" || includes errorMessage "fetch"
  || includes errorMessage "timeout" || includes errorMessage "connectivity".

(** The delay of the [setTimeout] of the [AI_LOAD_FAILED] branch, in
    milliseconds (announced as "will retry AI initialization in 15
    seconds"). *)
Definition retryDelay : N := 15000%N.

(** The messages the listener dispatches on. *)
Inductive incoming : Type :=
| START_CURATION
| STOP_CURATION
| OFFSCREEN_READY_IN
| EVALUATE_TWEET (id : string) (text : value)
| AI_READY
| CLASSIFICATION_RESULT (id : string) (isUninteresting : bool) (reason : string) (text : value)
| AI_LOAD_PROGRESS (status : string) (progress : nat)
| AI_LOAD_FAILED (payload : option string)
| RETRY_AI_LOAD
| UNKNOWN.

(** [handleMessage]: one branch of the [switch] per message type. *)
Definition handleMessage (h : host) (m : incoming) (st : state) : state * list effect :=
  match m with
  | START_CURATION =>
      match startCuration h st with
      | (st1, e1, Return _) => (st1, (e1 ++ [SendResponse ok])%list)
      | (st1, e1, Throw err) =>
          (st1, (e1 ++ [SendResponse (failed (ModelManager.messageOf err));
                        SendResponse ok])%list)
      end
  | STOP_CURATION =>
      let '(st1, e1) := stopCuration h st in
      (st1, (e1 ++ [SendResponse ok])%list)
  | OFFSCREEN_READY_IN => (st, [SendResponse ok])
  | EVALUATE_TWEET id text =>
      if isRunning st then
        let '(r, e1) := classifyTweet h id text st in
        let '(st2, e2) := report h id text (isUninteresting r) (reason r) st in
        (st2, (e1 ++ e2 ++ [SendResponse ok])%list)
      else (st, [SendResponse ok])
  | AI_READY =>
      let st1 := setAiReady true st in
      let interests :=
        [SendMessage
           (SET_INTERESTS
              (Offscreen.mkSetInterests (Some (cachedInterests st1))
                 (Some spamKeywords) (Some SIM_THRESHOLD)))] in
      let '(st2, e2) := broadcastStatus h st1 in
      let '(st3, e3) :=
        if isRunning st2 then startContentScript h st2 else (st2, []) in
      (st3, (interests ++ e2 ++ [SendResponse ok] ++ e3)%list)
  | CLASSIFICATION_RESULT id isUninteresting reason text =>
      if isRunning st then
        let '(st1, e1) := report h id text isUninteresting reason st in
        (st1, (e1 ++ [SendResponse ok])%list)
      else (st, [SendResponse ok])
  | AI_LOAD_PROGRESS status progress =>
      (st, [SendMessage (LOAD_PROGRESS status progress); SendResponse ok])
  | AI_LOAD_FAILED payload =>
      let errorPayload := orString payload "Unknown error" in
      let st1 := setAiReady false st in
      let forwarded := [SendMessage (LOAD_FAILED errorPayload)] in
      let errorMessage := orString payload "" in
      let st2 :=
        if isNetworkError errorMessage && isRunning st1
        then setTimers (timers st1 ++ [(retryDelay, RetryInitializeAI)])%list st1
        else st1 in
      let '(st3, e3) := broadcastStatus h st2 in
      (st3, (forwarded ++ e3 ++ [SendResponse ok])%list)
  | RETRY_AI_LOAD =>
      if isRunning st then
        let st1 := setAiReady false st in
        let '(st2, e2) := broadcastStatus h st1 in
        let '(st3, e3) := initializeAI h st2 in
        (st3, (e2 ++ [SendMessage (LOAD_PROGRESS "Manual retry..." 5)] ++ e3
               ++ [SendResponse ok])%list)
      else (st, [SendResponse (failed "Extension not running")])
  | UNKNOWN => (st, [SendResponse (failed "Unknown message type")])
  end.

(** The function given to [setTimeout] in the [AI_LOAD_FAILED] branch,
    when it runs. *)
Definition runCallback (h : host) (cb : callback) (st : state) : state * list effect :=
  match cb with
  | RetryInitializeAI =>
      if isRunning st && negb (aiReady st) then
        let '(st1, e1) := initializeAI h st in
        (st1, (SendMessage (LOAD_PROGRESS "Retrying download..." 5) :: e1)%list)
      else (st, [])
  end.

(** [chrome.storage.onChanged] for the key [interests]. *)
Definition onInterestsChanged (newValue : option (list string)) (st : state)
  : state * list effect :=
  let interests := Offscreen.orElse newValue [] in
  let st1 :=
    mkState (isRunning st) (aiReady st) interests (connectedTabs st) (modelManager st)
      (storedIsRunning st) (storedAiStatus st) (curationLog st) (keepAlive st) (timers st) in
  if aiReady st1 then
    (st1, [SendMessage (SET_INTERESTS (Offscreen.mkSetInterests (Some interests) None None))])
  else (st1, []).

(** The states the service worker goes through: turns of the message
    listener, timeouts that fire, and changes of the stored interests. *)
Inductive reachable : state -> Prop :=
| reach_initial : reachable initial
| reach_message : forall h m st,
    reachable st -> reachable (fst (handleMessage h m st))
| reach_timeout : forall h cb st,
    reachable st -> reachable (fst (runCallback h cb st))
| reach_interests : forall newValue st,
    reachable st -> reachable (fst (onInterestsChanged newValue st)).

(** The responses among the effects of a turn. *)
Definition responses (l : list effect) : list response :=
  flat_map (fun e => match e with SendResponse r => [r] | _ => [] end) l.

(** A response from which the caller can tell that the request was not
    carried out. *)
Definition declined (r : response) : bool := negb (success r).

End Background.

(** ** The rules as the specification words them *)

(** Tier 2 as an ordered list of rules, the first applicable one deciding. *)
Module Tier2Rules.
Import JS Fallback.

Definition hide (why : string) : ClassificationResult := mkResult true why.
Definition keep (why : string) : ClassificationResult := mkResult false why.

(** A rule looks at the text and the interests and either decides or
    passes. *)
Definition rule : Type := string -> list string -> option ClassificationResult.

(** Rule 1: a keyword of the fixed list occurs in the text, case ignored. *)
Definition spamRule : rule := fun text _ =>
  option_map (fun keyword => hide ("Spam keyword: " ++ keyword))
    (find (fun keyword => includes (toLowerCase text) keyword) spamKeywords).

(** Rule 2: an interest occurs in the text, case ignored. *)
Definition directRule : rule := fun text interests =>
  option_map (fun interest => keep ("Direct match: " ++ interest))
    (find (fun interest => includes (toLowerCase text) (toLowerCase interest)) interests).

(** Rule 3: the text begins with an engagement-bait phrase. *)
Definition baitRule : rule := fun text _ =>
  if isEngagementBait text then Some (hide "Engagement bait pattern") else None.

(** Rule 4: a quality indicator occurs in the text. *)
Definition qualityRule : rule := fun text _ =>
  option_map (fun indicator => keep ("Quality content: " ++ indicator))
    (find (fun indicator => includes (toLowerCase text) indicator) qualityIndicators).

(** Two tokens match: one contains the other and both have at least
    three characters, or the pair is in the abbreviation table. *)
Definition abbreviations : list (string * string) :=
  [ ("ai", "artificial"); ("ai", "intelligence"); ("ml", "machine");
    ("ml", "learning"); ("gpu", "graphics"); ("cpu", "processor") ].

Definition tokensMatch (word iWord : string) : bool :=
  ((3 <=? String.length word)%nat && (3 <=? String.length iWord)%nat
   && (includes word iWord || includes iWord word))
  || existsb (fun p => String.eqb word (fst p) && String.eqb iWord (snd p)) abbreviations.

(** Number of matching token pairs. *)
Definition overlap (words interestWords : list string) : nat :=
  list_sum (map (fun word => List.length (filter (tokensMatch word) interestWords)) words).

(** matches / interest-token-count *)
Definition score (text interest : string) : Q :=
  let interestWords := splitWhitespace (toLowerCase interest) in
  ratio (overlap (splitWhitespace (toLowerCase text)) interestWords)
    (List.length interestWords).

(** The best-scoring interest, the earlier one on a tie; nothing when no
    score is positive. *)
Definition better (text : string) (best : option string * Q) (interest : string)
  : option string * Q :=
  if Qgtb (score text interest) (snd best) then (Some interest, score text interest)
  else best.

Definition bestInterest (text : string) (interests : list string) : option string * Q :=
  fold_left (better text) interests (None, 0%Q).

(** Rule 5: the best score exceeds one half. *)
Definition weakRule : rule := fun text interests =>
  let '(bestMatch, bestScore) := bestInterest text interests in
  if Qgtb bestScore (1 # 2)%Q then
    Some (keep ("Semantic match: " ++ showMatch bestMatch
                ++ " (" ++ showZ (percent bestScore) ++ "%)"))
  else None.

Fixpoint firstMatch (rules : list rule) (otherwise : ClassificationResult)
  (text : string) (interests : list string) : ClassificationResult :=
  match rules with
  | [] => otherwise
  | r :: rest =>
      match r text interests with
      | Some decided => decided
      | None => firstMatch rest otherwise text interests
      end
  end.

(** Rules 1 to 5 in order, rule 6 otherwise. *)
Definition tier2 : string -> list string -> ClassificationResult :=
  firstMatch [spamRule; directRule; baitRule; qualityRule; weakRule]
    (hide "No matching interests (using fallback classification)").

End Tier2Rules.

(** Case-insensitive containment, as the specification words the spam
    check. *)
Module Matching.

(** Some piece of [text] equals [keyword] up to case. *)
Definition containsIgnoreCase (text keyword : string) : Prop :=
  exists before piece after,
    text = before ++ piece ++ after
    /\ JS.toLowerCase piece = JS.toLowerCase keyword.

End Matching.

(** Cosine similarity, as the specification words it. *)
Module Similarity.

(** dot(a, b) *)
Fixpoint dot (a b : list R) : R :=
  match a, b with
  | x :: a', y :: b' => (x * y + dot a' b')%R
  | _, _ => 0%R
  end.

(** The Euclidean norm. *)
Definition norm (a : list R) : R := sqrt (dot a a).

(** dot(a,b) / (norm a * norm b) *)
Definition cosineSimilarity (a b : list R) : R :=
  (dot a b / (norm a * norm b))%R.

End Similarity.

(** What the decision log is meant to hold: the last [capacity] entries. *)
Module RingBuffer.

Definition lastEntries {A : Type} (capacity : nat) (l : list A) : list A :=
  skipn (List.length l - capacity) l.

End RingBuffer.

(** ** Sample inputs *)

Module Samples.
Import JS.

(** A stand-in for the host's [toFixed(2)]. *)
Definition format : R -> string := fun _ => "0.00".

Definition unit2 : Offscreen.vec := [1; 0]%R.

(** A pipeline that embeds every text as [unit2]. *)
Definition pipe : Offscreen.pipeline := fun _ => Return unit2.

(** The offscreen document after the orchestrator's [SET_INTERESTS] came
    in with no interests. *)
Definition configured : Offscreen.state :=
  Offscreen.mkState (Some pipe) [] Background.spamKeywords Background.SIM_THRESHOLD.

(** The same with one cached interest. *)
Definition ready : Offscreen.state :=
  Offscreen.mkState (Some pipe) [Offscreen.mkInterestEmbedding "ai" unit2]
    Background.spamKeywords Background.SIM_THRESHOLD.

(** An offscreen document whose model has not been loaded. *)
Definition loading : Offscreen.state :=
  Offscreen.mkState None [Offscreen.mkInterestEmbedding "music" unit2] []
    Offscreen.defaultThreshold.

(** 2001 calls of [logLine], numbered by their time stamp, all of which
    go through. *)
Definition manyCalls : list DecisionLog.call :=
  map (fun n =>
         DecisionLog.mkCall (DecisionLog.mkHost (N.of_nat n) false false)
           "tweet-1" "What I had for breakfast" "hide"
           "No matching interests (using fallback classification)")
    (seq 0 2001).

(** A host without network: every fetch rejects. *)
Definition offline : ModelManager.loadHost :=
  ModelManager.mkLoadHost (fun _ => ModelManager.FetchFailed "Failed to fetch")
    None (ModelManager.PipelineReady pipe).

(** A host on which the whole load succeeds. *)
Definition online : ModelManager.loadHost :=
  ModelManager.mkLoadHost (fun _ => ModelManager.FetchOk)
    None (ModelManager.PipelineReady pipe).

(** A content script that answers every call. *)
Definition reachable : Background.tabAnswers :=
  Background.mkTabAnswers None None true true.

Definition newsTab : Background.tab :=
  Background.mkTab 7 (Some "https://news.example.org/today") false true.

Definition feedTab : Background.tab :=
  Background.mkTab 3 (Some "https://x.com/home") false true.

Definition hostWith (active : Background.tab) (feed : list Background.tab)
  : Background.host :=
  Background.mkHost (Some active) feed (fun _ => reachable) false true true false
    None (DecisionLog.mkHost 0 false false).

(** The popup is used while a news site is in front. *)
Definition awayFromFeed : Background.host := hostWith newsTab [].

(** The popup is used on the feed. *)
Definition onFeed : Background.host := hostWith feedTab [feedTab].

(** The orchestrator while curation runs and the model is loading. *)
Definition running : Background.state :=
  Background.setKeepAlive true (Background.setIsRunning true Background.initial).

End Samples.

(** ** Tier 1 with the host's numbers and the library's provider *)

(** [offscreen.js] once more, with two things left open that [Offscreen]
    fixes: the arithmetic (a browser computes in binary64, with [NaN]),
    and what the expression [classifier(t, options)[0]] evaluates to (the
    pipeline of transformers.js is an async function: README.md and the
    tests [await] the call and read [.data] of the tensor it resolves
    with). *)
Module Tier1.
Import JS.

(** The numbers of the host with the operations [cosine] and [classify]
    apply to them. *)
Record arithmetic : Type := mkArithmetic {
  number : Type;
  zero : number;
  minusOne : number;
  defaultThreshold : number;
  notANumber : number;
  add : number -> number -> number;
  mul : number -> number -> number;
  div : number -> number -> number;
  square : number -> number;
  root : number -> number;
  greater : number -> number -> bool;
  less : number -> number -> bool
}.

Section Classifier.

Variable A : arithmetic.

(** [Number.prototype.toFixed(2)], the host's decimal formatting. *)
Variable toFixed2 : number A -> string.

Definition vec : Type := list (number A).

(** The value of [classifier(t, { pooling: 'mean', normalize: true })[0]]
    for the provider that [ensureModel] stored: a vector, or [undefined]
    ([None]) when what the call yields has no property [0]; the
    expression may also throw. *)
Definition provider : Type := string -> completion (option vec).

(** The pipeline of transformers.js: the call yields a promise, whatever
    the text, and a promise has no property [0]. *)
Definition library : provider := fun _ => Return None.

(** One entry of [interestEmbeddings]: [{ t, emb }]. *)
Record InterestEmbedding : Type := mkInterestEmbedding {
  t : string;
  emb : option vec
}.

(** The module-level variables of [offscreen.js]. *)
Record state : Type := mkState {
  classifier : option provider;
  interestEmbeddings : list InterestEmbedding;
  spamList : list string;
  threshold : number A
}.

(** [let classifier; let interestEmbeddings = []; let spamList = [];
    let threshold = 0.35;] *)
Definition initial : state := mkState None [] [] (defaultThreshold A).

(** [interests.map(t => ({ t, emb: classifier(t, ...)[0] }))] *)
Fixpoint embedAll (c : provider) (interests : list string)
  : completion (list InterestEmbedding) :=
  match interests with
  | [] => Return []
  | t :: rest =>
      match c t with
      | Throw e => Throw e
      | Return v =>
          match embedAll c rest with
          | Throw e => Throw e
          | Return l => Return (mkInterestEmbedding t v :: l)
          end
      end
  end.

Definition setInterestEmbeddings (st : state) (l : list InterestEmbedding) : state :=
  mkState (classifier st) l (spamList st) (threshold st).

(** [recalcEmbeddings] *)
Definition recalcEmbeddings (interests : list string) (st : state) : completion state :=
  match classifier st with
  | None => Return st
  | Some c =>
      match embedAll c interests with
      | Throw e => Throw e
      | Return l => Return (setInterestEmbeddings st l)
      end
  end.

(** The payload of a [SET_INTERESTS] message; a field may be absent. *)
Record SetInterests : Type := mkSetInterests {
  msgInterests : option (list string);
  msgSpamKeywords : option (list string);
  msgThreshold : option (number A)
}.

(** The [SET_INTERESTS] branch of the message listener. *)
Definition onSetInterests (msg : SetInterests) (st : state) : completion state :=
  match recalcEmbeddings (Offscreen.orElse (msgInterests msg) []) st with
  | Throw e => Throw e
  | Return st1 =>
      Return (mkState (classifier st1) (interestEmbeddings st1)
                (Offscreen.orElse (msgSpamKeywords msg) [])
                (Offscreen.orElse (msgThreshold msg) (defaultThreshold A)))
  end.

(** [ensureModel], once [getMiniLMPipeline()] has resolved with [pipe]. *)
Definition onModelLoaded (pipe : provider) (st : state) : state :=
  match classifier st with
  | Some _ => st
  | None => mkState (Some pipe) (interestEmbeddings st) (spamList st) (threshold st)
  end.

(** One iteration of the loop of [cosine]; an index past the end of [b]
    reads [undefined], which the arithmetic takes as [NaN]. *)
Definition cosineStep (a b : vec) (acc : number A * number A * number A) (i : nat)
  : number A * number A * number A :=
  let '(dot, na, nb) := acc in
  (add A dot (mul A (nth i a (notANumber A)) (nth i b (notANumber A))),
   add A na (square A (nth i a (notANumber A))),
   add A nb (square A (nth i b (notANumber A)))).

(** The loop and the quotient of [cosine], for two arrays. *)
Definition cosineLoop (a b : vec) : number A :=
  let '(dot, na, nb) :=
    fold_left (cosineStep a b) (seq 0 (List.length a)) (zero A, zero A, zero A) in
  div A dot (mul A (root A na) (root A nb)).

(** [cosine(a, b)]: [a.length] throws when [a] is [undefined], and so
    does [b[i]] when [b] is [undefined] and the loop is entered. *)
Definition cosine (a b : option vec) : completion (number A) :=
  match a with
  | None => Throw (TypeError "Cannot read properties of undefined (reading 'length')")
  | Some va =>
      match b with
      | Some vb => Return (cosineLoop va vb)
      | None =>
          match va with
          | [] => Return (cosineLoop [] [])
          | _ :: _ => Throw (TypeError "Cannot read properties of undefined (reading '0')")
          end
      end
  end.

(** The loop of [classify] over [interestEmbeddings]. *)
Fixpoint maxSimLoop (emb0 : option vec) (l : list InterestEmbedding) (maxSim : number A)
  : completion (number A) :=
  match l with
  | [] => Return maxSim
  | i :: rest =>
      match cosine emb0 (emb i) with
      | Throw e => Throw e
      | Return sim => maxSimLoop emb0 rest (if greater A sim maxSim then sim else maxSim)
      end
  end.

(** [classify(tweet)].  Next to the completion, the texts the provider
    was called with, in call order. *)
Definition classify (st : state) (tweet : value)
  : list string * completion ClassificationResult :=
  match tweet with
  | Str tweet =>
      let lower := toLowerCase tweet in
      if existsb (fun k => includes lower k) (spamList st) then
        ([], Return (mkResult true "Spam"))
      else
        match interestEmbeddings st with
        | [] => ([], Return (mkResult false "No interests"))
        | _ :: _ =>
            match classifier st with
            | None => ([], Throw (TypeError "classifier is not a function"))
            | Some c =>
                match c tweet with
                | Throw e => ([tweet], Throw e)
                | Return emb0 =>
                    match maxSimLoop emb0 (interestEmbeddings st) (minusOne A) with
                    | Throw e => ([tweet], Throw e)
                    | Return maxSim =>
                        ([tweet],
                         Return (mkResult (less A maxSim (threshold st))
                                   ("sim=" ++ toFixed2 maxSim)))
                    end
                end
            end
        end
  | Undefined =>
      ([], Throw (TypeError "Cannot read properties of undefined (reading 'toLowerCase')"))
  | Null =>
      ([], Throw (TypeError "Cannot read properties of null (reading 'toLowerCase')"))
  | _ => ([], Throw (TypeError "tweet.toLowerCase is not a function"))
  end.

End Classifier.

Arguments library {A}.
Arguments mkInterestEmbedding {A} t emb.
Arguments t {A} i.
Arguments emb {A} i.
Arguments mkState {A} classifier interestEmbeddings spamList threshold.
Arguments classifier {A} s.
Arguments interestEmbeddings {A} s.
Arguments spamList {A} s.
Arguments threshold {A} s.
Arguments initial {A}.
Arguments setInterestEmbeddings {A} st l.
Arguments recalcEmbeddings {A} interests st.
Arguments mkSetInterests {A} msgInterests msgSpamKeywords msgThreshold.
Arguments onSetInterests {A} msg st.
Arguments onModelLoaded {A} pipe st.
Arguments classify {A} toFixed2 st tweet.

Import PrimFloat.

(** The arithmetic of a browser: binary64.  The literal [0.35] is the
    nearest binary64 value, [0x1.6666666666666p-2]; [x ** 2] is taken as
    [x * x]. *)
Definition binary64 : arithmetic :=
  mkArithmetic float 0%float (-1)%float 0x1.6666666666666p-2%float PrimFloat.nan
    PrimFloat.add PrimFloat.mul PrimFloat.div (fun x => PrimFloat.mul x x)
    PrimFloat.sqrt (fun x y => PrimFloat.ltb y x) PrimFloat.ltb.

(** The offscreen document after [ensureModel] stored the library's
    pipeline and the orchestrator's [SET_INTERESTS] came in with the
    interest "ai". *)
Definition deployed : state binary64 :=
  mkState (Some library) [mkInterestEmbedding "ai" None]
    Background.spamKeywords (defaultThreshold binary64).

End Tier1.

(** ** Further parts of the code *)

(** The score of one interest, as the loop of [fallbackClassification]
    computes it. *)
Module Scoring.
Import JS Fallback.

(** [matchCount / interestWords.length] for [interest], after the two
    nested loops. *)
Definition interestScore (lowerText interest : string) : Q :=
  let interestWords := splitWhitespace (toLowerCase interest) in
  ratio (outerLoop (splitWhitespace lowerText) interestWords 0)
    (List.length interestWords).

(** A pattern of code units below 128. *)
Definition asciiOnly (pat : string) : bool :=
  forallb (fun c => (nat_of_ascii c <? 128)%nat) (list_ascii_of_string pat).

End Scoring.

(** The effects of a probe that ends at attempt [k]. *)
Module Retry.
Import ModelManager.

(** [k] fetches with the sleeps between them. *)
Definition probeTrace (url : string) (k : nat) : list io :=
  (flat_map (fun attempt => [Fetch url 30000%N; Sleep (backoff attempt)]) (seq 1 (k - 1))
   ++ [Fetch url 30000%N])%list.

End Retry.

(** How the flag and the memo of modelManager.js hang together. *)
Module Memo.
Import ModelManager.

(** [modelReady] is set exactly when the memoized promise is fulfilled; a
    memoized promise is pending or fulfilled; every other promise has
    been rejected. *)
Definition consistent (st : state) : Prop :=
  (modelReady st = true <->
   exists p pipe, loadPromise st = Some p
                  /\ nth_error (attempts st) p = Some (Fulfilled pipe))
  /\ (forall p, loadPromise st = Some p ->
        nth_error (attempts st) p = Some Pending
        \/ exists pipe, nth_error (attempts st) p = Some (Fulfilled pipe))
  /\ (forall q, q < List.length (attempts st) -> loadPromise st <> Some q ->
        exists e, nth_error (attempts st) q = Some (Rejected e)).

End Memo.

(** Further sample inputs. *)
Module MoreSamples.

(** A host on which the download does not finish within two minutes. *)
Definition slow : ModelManager.loadHost :=
  ModelManager.mkLoadHost (fun _ => ModelManager.FetchOk) None
    ModelManager.PipelineTimeout.

End MoreSamples.


(** What the helpers of background.js leave alone. *)
Module Frame.
Import Background.

(** The state without the connected tabs, the stored status, the ready
    flag and the timers. *)
Definition core (st : state)
  : bool * option bool * DecisionLog.stored * bool * ModelManager.state * list string :=
  (isRunning st, storedIsRunning st, curationLog st, keepAlive st, modelManager st,
   cachedInterests st).

(** The log is within its bound, and while curation runs the keep-alive
    alarm is armed and the flag is stored. *)
Definition steady (st : state) : Prop :=
  List.length (DecisionLog.contents (curationLog st)) <= DecisionLog.capacity
  /\ (isRunning st = true -> keepAlive st = true /\ storedIsRunning st = Some true).

(** Equality of directives. *)
Definition directive_eqb (a b : directive) : bool :=
  match a, b with
  | PING, PING => true
  | START, START => true
  | STOP, STOP => true
  | MARK_TWEET i x, MARK_TWEET j y => String.eqb i j && Bool.eqb x y
  | _, _ => false
  end.

(** The calls aimed at the tab [id]: the pings, the sends of the
    directive [d], the injections of the content script. *)
Definition isPingTo (id : nat) (e : effect) : bool :=
  match e with
  | TabsSendMessage j PING => Nat.eqb j id
  | _ => false
  end.

Definition isDirectiveTo (d : directive) (id : nat) (e : effect) : bool :=
  match e with
  | TabsSendMessage j d' => Nat.eqb j id && directive_eqb d' d
  | _ => false
  end.

Definition isInjectionInto (id : nat) (e : effect) : bool :=
  match e with
  | ExecuteScript j => Nat.eqb j id
  | _ => false
  end.

(** A [MARK_TWEET] directive sent to some tab. *)
Definition isMark (e : effect) : bool :=
  match e with TabsSendMessage _ (MARK_TWEET _ _) => true | _ => false end.

(** A tab the forwarding loop does not skip. *)
Definition readyTab (t : tab) : bool :=
  negb ((tabId t =? 0)%nat || discarded t || negb (complete t)).

End Frame.

(** The other listeners of background.js. *)
Module Lifecycle.
Import JS Background.

(** [initializeCachedInterests]: [read] is what
    [chrome.storage.local.get('interests')] yields, [None] when the key
    is missing, holds no array, or the call rejects. *)
Definition initializeCachedInterests (read : option (list string)) (st : state) : state :=
  mkState (isRunning st) (aiReady st) (Offscreen.orElse read []) (connectedTabs st)
    (modelManager st) (storedIsRunning st) (storedAiStatus st) (curationLog st)
    (keepAlive st) (timers st).

(** The flags reset by [onStartup] and [onInstalled], and the keys they
    store. *)
Definition resetFlags (st : state) : state :=
  setAiReady false (setIsRunning false st).

Definition storeStopped (st : state) : state :=
  setStoredAiStatus "stopped" (setStoredIsRunning false st).

(** [chrome.runtime.onStartup]: a failing [storage.local.set] leaves the
    rest of the [try] block out. *)
Definition onStartup (h : host) (read : option (list string)) (st : state)
  : state * list effect :=
  let st1 := resetFlags st in
  if storageFails h then (st1, [])
  else broadcastStatus h (initializeCachedInterests read (storeStopped st1)).

(** [chrome.runtime.onInstalled]: the same, with the default interests
    stored along; the key [interests] is not part of the state and is
    read back through [read]. *)
Definition onInstalled (h : host) (read : option (list string)) (st : state)
  : state * list effect :=
  onStartup h read st.

(** [chrome.tabs.onRemoved] *)
Definition onTabRemoved (tabId : nat) (st : state) : state :=
  setConnectedTabs (deleteTab tabId (connectedTabs st)) st.

(** [chrome.tabs.onUpdated]: only a tab that starts loading is dropped. *)
Definition onTabUpdated (tabId : nat) (loading : bool) (st : state) : state :=
  if loading then setConnectedTabs (deleteTab tabId (connectedTabs st)) st else st.

(** Every way the state of the service worker changes. *)
Inductive reachable : state -> Prop :=
| reach_initial : reachable initial
| reach_message : forall h m st,
    reachable st -> reachable (fst (handleMessage h m st))
| reach_timeout : forall h cb st,
    reachable st -> reachable (fst (runCallback h cb st))
| reach_interests : forall newValue st,
    reachable st -> reachable (fst (onInterestsChanged newValue st))
| reach_startup : forall h read st,
    reachable st -> reachable (fst (onStartup h read st))
| reach_installed : forall h read st,
    reachable st -> reachable (fst (onInstalled h read st))
| reach_removed : forall tabId st,
    reachable st -> reachable (onTabRemoved tabId st)
| reach_updated : forall tabId loading st,
    reachable st -> reachable (onTabUpdated tabId loading st).

End Lifecycle.

(** ** The popup (popup/popup.js) *)

Module Popup.
Import JS.

(** [s.split(sep)] for a separator of one code unit: the pieces between
    the occurrences, the empty string giving one empty piece. *)
Fixpoint split (sep : ascii) (s : string) : list string :=
  match s with
  | EmptyString => [EmptyString]
  | String c s' =>
      if Ascii.eqb c sep then EmptyString :: split sep s'
      else
        match split sep s' with
        | piece :: rest => String c piece :: rest
        | [] => [String c EmptyString]
        end
  end.

(** [String.prototype.trim]: the white space of [isSpace] is dropped at
    both ends. *)
Fixpoint trimStart (s : string) : string :=
  match s with
  | EmptyString => EmptyString
  | String c s' => if isSpace c then trimStart s' else s
  end.

Fixpoint trimEnd (s : string) : string :=
  match s with
  | EmptyString => EmptyString
  | String c s' =>
      match trimEnd s' with
      | EmptyString => if isSpace c then EmptyString else String c EmptyString
      | rest => String c rest
      end
  end.

Definition trim (s : string) : string := trimEnd (trimStart s).

(** [l.join(sep)] *)
Definition join (sep : string) (l : list string) : string := String.concat sep l.

(** The click handler of the save button:
    [value.split(',').map(s => s.trim().toLowerCase())
          .filter(s => s && s.length > 0)]. *)
Definition parseInterests (value : string) : list string :=
  filter (fun s => negb (String.eqb s ""))
    (map (fun s => toLowerCase (trim s)) (split "," value)).

(** What the click hands to [chrome.storage.local.set]; [None] when the
    list is empty: nothing is written then, and the key keeps the value
    it had. *)
Definition save (value : string) : option (list string) :=
  match parseInterests value with
  | [] => None
  | interests => Some interests
  end.

(** [init]: [interests ? interests.join(', ') : ''], the text the popup
    shows for the stored list. *)
Definition showInterests (interests : option (list string)) : string :=
  match interests with
  | Some l => join ", " l
  | None => ""
  end.

(** A code unit other than the comma. *)
Definition noComma (s : string) : bool :=
  forallb (fun c => negb (Ascii.eqb c ",")) (list_ascii_of_string s).

(** The first code unit, if any, is no white space. *)
Definition startsClean (s : string) : bool :=
  match s with
  | EmptyString => true
  | String c _ => negb (isSpace c)
  end.

(** An entry with nothing left to normalise: not empty, no white space
    around it, no capital, no comma. *)
Definition normal (s : string) : Prop :=
  s <> "" /\ trim s = s /\ toLowerCase s = s /\ noComma s = true.

(** One item of the activity list: the text put into it and whether it
    carries the class [hidden]. *)
Record item : Type := mkItem {
  shown : string;
  markedHidden : bool
}.

(** [stats] and the items of the list, that is the elements
    [.activity-item:not(.placeholder)] below it, in document order.  The
    text of an entry goes into its item through [innerHTML]: as long as
    no text held the character "<", these elements are the item elements
    themselves ([Some]); after a text with "<" they depend on what the
    HTML parser made of it, and the list is not followed any more
    ([None]). *)
Record activity : Type := mkActivity {
  items : option (list item);
  processed : nat;
  hidden : nat;
  kept : nat
}.

Definition limit : nat := 50.

(** [tweetText.length > 40 ? tweetText.substring(0, 40) + '...' : tweetText] *)
Definition truncate (tweetText : string) : string :=
  if (40 <? String.length tweetText)%nat
  then substring 0 40 tweetText ++ "..."
  else tweetText.

Definition itemOf (tweetText decision : string) : item :=
  mkItem (truncate tweetText) (String.eqb decision "hidden").

(** [insertBefore(item, activityList.firstChild)] and
    [if (items.length > 50) items[items.length - 1].remove()] *)
Definition insertItem (new : item) (l : list item) : list item :=
  let inserted := new :: l in
  if (limit <? List.length inserted)%nat then removelast inserted else inserted.

(** [addActivityEntry]: the new item becomes the first child; beyond 50
    items the last one is removed; the counters follow. *)
Definition addActivityEntry (tweetText decision : string) (a : activity) : activity :=
  let items1 :=
    match items a with
    | Some l =>
        if includes tweetText "<" then None
        else Some (insertItem (itemOf tweetText decision) l)
    | None => None
    end in
  if String.eqb decision "hidden"
  then mkActivity items1 (S (processed a)) (S (hidden a)) (kept a)
  else mkActivity items1 (S (processed a)) (hidden a) (S (kept a)).

(** The payloads of successive [ACTIVITY_LOG] messages. *)
Definition addAll (entries : list (string * string)) (a : activity) : activity :=
  fold_left (fun a e => addActivityEntry (fst e) (snd e) a) entries a.

(** [let stats = { processed: 0, hidden: 0, kept: 0 }], with the items
    the page starts with. *)
Definition opened (initialItems : list item) : activity :=
  mkActivity (Some initialItems) 0 0 0.

End Popup.

(** ** The content script (scripts/content.js) *)

Module ContentScript.
Import JS.

(** [checkIfTwitterFeed], for [window.location.href = url]. *)
Definition checkIfTwitterFeed (url : string) : bool :=
  (includes url "x.com" || includes url "twitter.com")
  && (includes url "/home" || String.eqb url "https://x.com/"
      || String.eqb url "https://twitter.com/"
      || includes url "/timeline" || negb (includes url "/status/")).

(** [\d] *)
Definition isDigit (c : ascii) : bool :=
  let n := nat_of_ascii c in ((48 <=? n) && (n <=? 57))%nat.

(** The longest run of digits at the start of [s]. *)
Fixpoint digits (s : string) : string :=
  match s with
  | EmptyString => EmptyString
  | String c s' => if isDigit c then String c (digits s') else EmptyString
  end.

(** What follows [p] in [s], when [s] starts with [p]. *)
Fixpoint afterPrefix (p s : string) : option string :=
  match p, s with
  | EmptyString, _ => Some s
  | String _ _, EmptyString => None
  | String a p', String b s' => if Ascii.eqb a b then afterPrefix p' s' else None
  end.

(** [s.match(/\/status\/(\d+)/)]: group 1 of the leftmost match, that
    is the digits after the first [/status/] that is followed by a
    digit. *)
Fixpoint matchStatus (s : string) : option string :=
  let here :=
    match afterPrefix "/status/" s with
    | Some rest => digits rest
    | None => EmptyString
    end in
  if negb (String.eqb here "") then Some here
  else
    match s with
    | EmptyString => None
    | String _ s' => matchStatus s'
    end.

(** What [getTweetId] reads from the tweet element: the [href] of the
    link around its [time] element, if there is one, and the text of the
    first user-name span, if there is one. *)
Record tweetElement : Type := mkTweetElement {
  statusHref : option string;
  usernameText : option string
}.

(** [ToInt32]: the two's-complement reading of the low 32 bits. *)
Definition toInt32 (z : Z) : Z := ((z + 2 ^ 31) mod 2 ^ 32 - 2 ^ 31)%Z.

(** [hash = ((hash << 5) - hash) + char; hash |= 0] *)
Definition hashStep (hash : Z) (c : ascii) : Z :=
  toInt32 (toInt32 (Z.shiftl hash 5) - hash + Z.of_nat (nat_of_ascii c))%Z.

(** The loop over [stableContent], from [hash = 0]. *)
Definition hashLoop (stableContent : string) : Z :=
  fold_left hashStep (list_ascii_of_string stableContent) 0%Z.

(** [username + text.substring(0, 50) + imageUrls.join('')] *)
Definition stableContent (tweet : tweetElement) (text : string) (imageUrls : list string)
  : string :=
  Offscreen.orElse (usernameText tweet) "" ++ substring 0 50 text
  ++ String.concat "" imageUrls.

(** [getTweetId] *)
Definition getTweetId (tweet : tweetElement) (text : string) (imageUrls : list string)
  : string :=
  let fallback := "tweet-" ++ showZ (hashLoop (stableContent tweet text imageUrls)) in
  match statusHref tweet with
  | Some href =>
      match matchStatus href with
      | Some number => "tweet-" ++ number
      | None => fallback
      end
  | None => fallback
  end.

(** The value of a string read as a number in base 31, code unit by code
    unit. *)
Definition polynomial (s : string) : Z :=
  fold_left (fun h c => (31 * h + Z.of_nat (nat_of_ascii c))%Z) (list_ascii_of_string s) 0%Z.

(** The timers of the page: the module variable [mainLoopInterval], the
    intervals that are running, the next id [setInterval] hands out (ids
    are positive), the [load] listeners waiting, and the [lastUrl] of
    every [MutationObserver], oldest first. *)
Record state : Type := mkState {
  mainLoopInterval : option nat;
  intervals : list nat;
  nextInterval : nat;
  loadListeners : nat;
  observers : list string
}.

Definition initial : state := mkState None [] 1 0 [].

(** [mainLoopInterval = setInterval(processFeed, 5000)] *)
Definition setMainLoop (st : state) : state :=
  mkState (Some (nextInterval st)) (intervals st ++ [nextInterval st])%list
    (S (nextInterval st)) (loadListeners st) (observers st).

Definition addLoadListener (st : state) : state :=
  mkState (mainLoopInterval st) (intervals st) (nextInterval st) (S (loadListeners st))
    (observers st).

Definition addObserver (lastUrl : string) (st : state) : state :=
  mkState (mainLoopInterval st) (intervals st) (nextInterval st) (loadListeners st)
    (observers st ++ [lastUrl])%list.

Definition setObservers (l : list string) (st : state) : state :=
  mkState (mainLoopInterval st) (intervals st) (nextInterval st) (loadListeners st) l.

(** [stop] *)
Definition stop (st : state) : state :=
  match mainLoopInterval st with
  | Some id =>
      mkState None (filter (fun i => negb (Nat.eqb i id)) (intervals st))
        (nextInterval st) (loadListeners st) (observers st)
  | None => st
  end.

(** [start], on a page at [url] whose [readyState] is [complete] or
    not. *)
Definition start (url : string) (complete : bool) (st : state) : state :=
  match mainLoopInterval st with
  | Some _ => st
  | None =>
      if negb (checkIfTwitterFeed url) then st
      else
        let st1 := if complete then setMainLoop st else addLoadListener st in
        addObserver url st1
  end.

(** The [load] event: every waiting listener runs once. *)
Definition onLoad (url : string) (st : state) : state :=
  let st1 :=
    Nat.iter (loadListeners st)
      (fun st => if checkIfTwitterFeed url then setMainLoop st else st) st in
  mkState (mainLoopInterval st1) (intervals st1) (nextInterval st1) 0 (observers st1).

(** The callback of one observer whose [lastUrl] is [lastUrl], when the
    location is [url]. *)
Definition observe (url : string) (complete : bool) (lastUrl : string) (st : state)
  : string * state :=
  if String.eqb url lastUrl then (lastUrl, st)
  else
    let running := match mainLoopInterval st with Some _ => true | None => false end in
    if negb (checkIfTwitterFeed url) && running then (url, stop st)
    else if checkIfTwitterFeed url && negb running then (url, start url complete st)
    else (url, st).

(** The observers that exist when the document changes are notified in
    the order of their creation; those created meanwhile are not. *)
Fixpoint notify (url : string) (complete : bool) (existing : list string) (st : state)
  : list string * state :=
  match existing with
  | [] => ([], st)
  | lastUrl :: rest =>
      let '(lastUrl1, st1) := observe url complete lastUrl st in
      let '(rest1, st2) := notify url complete rest st1 in
      (lastUrl1 :: rest1, st2)
  end.

Definition onMutation (url : string) (complete : bool) (st : state) : state :=
  let '(existing, st1) := notify url complete (observers st) (setObservers [] st) in
  setObservers (existing ++ observers st1)%list st1.

(** What happens in the page: a message from the service worker, the
    [load] event, a change of the document. *)
Inductive event : Type :=
| Message (d : Background.directive)
| Load
| Mutation.

(** One event on a page at [url]; [complete] is the [readyState] at that
    moment. *)
Definition step (url : string) (complete : bool) (e : event) (st : state) : state :=
  match e with
  | Message Background.START => start url complete st
  | Message Background.STOP => stop st
  | Message _ => st
  | Load => onLoad url st
  | Mutation => onMutation url complete st
  end.

(** Successive events, each with the location at that moment, on a page
    that is [complete] or not throughout. *)
Definition run (complete : bool) (events : list (string * event)) (st : state) : state :=
  fold_left (fun st e => step (fst e) complete (snd e) st) events st.

(** At most the interval that [mainLoopInterval] names is running. *)
Definition tracked (st : state) : Prop :=
  intervals st = match mainLoopInterval st with Some id => [id] | None => [] end.

End ContentScript.

(* ================================================================= *)
(** * Part II: properties *)
(* ================================================================= *)

(** ** Strings *)

Section StringFacts.
Import JS.

Lemma prefix_app : forall p s, String.prefix p (p ++ s) = true.
Proof.
  induction p as [|c p IH]; intros s; simpl.
  - destruct s; reflexivity.
  - destruct (ascii_dec c c) as [_|n]; [apply IH | contradiction].
Qed.

Lemma prefix_inv : forall p s, String.prefix p s = true -> exists r, s = p ++ r.
Proof.
  induction p as [|c p IH]; intros s H.
  - exists s. reflexivity.
  - destruct s as [|d s]; simpl in H; [discriminate|].
    destruct (ascii_dec c d) as [->|_]; [|discriminate].
    destruct (IH s H) as [r ->]. exists r. reflexivity.
Qed.

Lemma includes_unfold : forall s sub,
  includes s sub =
  if String.prefix sub s then true
  else match s with
       | EmptyString => false
       | String _ s' => includes s' sub
       end.
Proof. destruct s; reflexivity. Qed.

Lemma includes_empty : forall s, includes s "" = true.
Proof. destruct s; reflexivity. Qed.

Lemma includes_app : forall a sub b, includes (a ++ sub ++ b) sub = true.
Proof.
  induction a as [|c a IH]; intros sub b; rewrite includes_unfold.
  - cbn [append]. rewrite prefix_app. reflexivity.
  - cbn [append]. rewrite IH.
    destruct (String.prefix sub (String c (a ++ sub ++ b))); reflexivity.
Qed.

Lemma includes_inv : forall s sub, includes s sub = true -> exists a b, s = a ++ sub ++ b.
Proof.
  induction s as [|c s IH]; intros sub H; rewrite includes_unfold in H.
  - destruct (String.prefix sub "") eqn:E; [|discriminate].
    destruct (prefix_inv _ _ E) as [r Hr]. exists "", r. exact Hr.
  - destruct (String.prefix sub (String c s)) eqn:E.
    + destruct (prefix_inv _ _ E) as [r Hr]. exists "", r. exact Hr.
    + destruct (IH sub H) as (a & b & Hs). exists (String c a), b.
      rewrite Hs. reflexivity.
Qed.

Lemma toLowerCase_app : forall a b,
  toLowerCase (a ++ b) = toLowerCase a ++ toLowerCase b.
Proof.
  induction a as [|c a IH]; intros b; simpl; [reflexivity|].
  rewrite IH. reflexivity.
Qed.

Lemma lowerChar_idempotent : forall c, lowerChar (lowerChar c) = lowerChar c.
Proof. intros c. destruct c as [[] [] [] [] [] [] [] []]; reflexivity. Qed.

Lemma toLowerCase_idempotent : forall s, toLowerCase (toLowerCase s) = toLowerCase s.
Proof.
  induction s as [|c s IH]; simpl; [reflexivity|].
  rewrite lowerChar_idempotent, IH. reflexivity.
Qed.

Lemma toLowerCase_length : forall s, String.length (toLowerCase s) = String.length s.
Proof. induction s as [|c s IH]; simpl; [reflexivity|]. rewrite IH. reflexivity. Qed.

Lemma append_inj_length : forall a a' b b' : string,
  a ++ b = a' ++ b' -> String.length a = String.length a' -> a = a' /\ b = b'.
Proof.
  induction a as [|c a IH]; intros [|c' a'] b b' H Hlen; try discriminate.
  - split; [reflexivity | exact H].
  - cbn in H, Hlen. injection H as -> H. injection Hlen as Hlen.
    destruct (IH a' b b' H Hlen) as [-> ->]. split; reflexivity.
Qed.

Lemma append_length : forall a b : string,
  String.length (a ++ b) = String.length a + String.length b.
Proof. induction a as [|c a IH]; intros b; [reflexivity|]. cbn. rewrite IH. reflexivity. Qed.

(** Whatever occurs in a lower-cased text is in lower case itself. *)
Lemma includes_lower_fixed : forall text keyword,
  includes (toLowerCase text) keyword = true -> toLowerCase keyword = keyword.
Proof.
  intros text keyword H.
  destruct (includes_inv _ _ H) as (a & b & Hab).
  pose proof (toLowerCase_idempotent text) as Hid.
  rewrite Hab in Hid. rewrite !toLowerCase_app in Hid.
  apply append_inj_length in Hid; [|apply toLowerCase_length].
  destruct Hid as [_ Hid].
  apply append_inj_length in Hid; [|apply toLowerCase_length].
  exact (proj1 Hid).
Qed.

(** For a keyword in lower case, containment up to case implies what
    [lower.includes(keyword)] tests. *)
Lemma containsIgnoreCase_lower : forall text keyword,
  toLowerCase keyword = keyword ->
  Matching.containsIgnoreCase text keyword ->
  includes (toLowerCase text) keyword = true.
Proof.
  intros text keyword Hlow (before & piece & after & Htext & Hpiece).
  rewrite Htext, !toLowerCase_app, Hpiece, Hlow. apply includes_app.
Qed.

Lemma string_app_nonempty : forall a b, a <> "" -> a ++ b <> "".
Proof. intros [|c a] b H; [contradiction | discriminate]. Qed.

Lemma splitFrom_nonempty : forall s cur inRun, splitFrom cur inRun s <> [].
Proof.
  induction s as [|c s IH]; intros cur inRun; simpl.
  - discriminate.
  - destruct (isSpace c); [destruct inRun; [apply IH | discriminate] | apply IH].
Qed.

End StringFacts.

(** ** Tier 2: the fallback classifier *)

Section FallbackFacts.
Import JS Fallback Tier2Rules.

Lemma firstIncluded_find : forall lowerText l,
  firstIncluded lowerText l = find (fun keyword => includes lowerText keyword) l.
Proof.
  induction l as [|k l IH]; simpl; [reflexivity|].
  destruct (includes lowerText k); [reflexivity | exact IH].
Qed.

(** A pair of tokens adds one to the count exactly when it matches: the
    containment test and the abbreviation table never fire together. *)
Lemma pairMatches_tokensMatch : forall word iWord,
  pairMatches word iWord = b2n (tokensMatch word iWord).
Proof.
  intros word iWord. unfold pairMatches, tokensMatch, abbreviations.
  cbn [existsb fst snd].
  destruct (String.eqb_spec word "ai") as [->|_].
  { cbn. destruct (String.eqb iWord "artificial"), (String.eqb iWord "intelligence");
      reflexivity. }
  destruct (String.eqb_spec word "ml") as [->|_].
  { cbn. destruct (String.eqb iWord "machine"), (String.eqb iWord "learning");
      reflexivity. }
  destruct (String.eqb_spec word "gpu") as [->|_].
  { destruct (String.eqb_spec iWord "graphics") as [->|_]; [reflexivity|].
    cbn [andb orb b2n]. rewrite !Nat.add_0_r, !orb_false_r. reflexivity. }
  destruct (String.eqb_spec word "cpu") as [->|_].
  { destruct (String.eqb_spec iWord "processor") as [->|_]; [reflexivity|].
    cbn [andb orb b2n]. rewrite !Nat.add_0_r, !orb_false_r. reflexivity. }
  cbn [andb orb b2n]. rewrite !Nat.add_0_r, !orb_false_r. reflexivity.
Qed.

Lemma innerLoop_count : forall word interestWords matchCount,
  innerLoop word interestWords matchCount
  = matchCount + List.length (filter (tokensMatch word) interestWords).
Proof.
  intros word interestWords.
  induction interestWords as [|iWord rest IH]; intros matchCount; simpl.
  - lia.
  - rewrite IH, pairMatches_tokensMatch.
    destruct (tokensMatch word iWord); simpl; lia.
Qed.

Lemma outerLoop_overlap : forall words interestWords matchCount,
  outerLoop words interestWords matchCount = matchCount + overlap words interestWords.
Proof.
  induction words as [|word rest IH]; intros interestWords matchCount.
  - unfold overlap. simpl. lia.
  - cbn [outerLoop]. rewrite IH, innerLoop_count. unfold overlap. simpl. lia.
Qed.

(** The loop over the interests returns at the first direct match and
    otherwise leaves the best-scoring interest. *)
Lemma interestLoop_rules : forall text interests best,
  interestLoop (toLowerCase text) interests (fst best) (snd best)
  = match find (fun interest => includes (toLowerCase text) (toLowerCase interest))
            interests with
    | Some interest => inl (keep ("Direct match: " ++ interest))
    | None => inr (fold_left (better text) interests best)
    end.
Proof.
  intros text interests.
  induction interests as [|interest rest IH]; intros best.
  - destruct best; reflexivity.
  - cbn [interestLoop find fold_left].
    destruct (includes (toLowerCase text) (toLowerCase interest)); [reflexivity|].
    rewrite outerLoop_overlap, Nat.add_0_l.
    change (ratio _ _) with (score text interest).
    unfold better at 2.
    destruct (Qgtb (score text interest) (snd best)).
    + apply (IH (Some interest, score text interest)).
    + apply IH.
Qed.

(** The code and the ordered rule list agree on every text. *)
Lemma fallback_tier2 : forall text interests,
  fallbackClassification (Str text) interests = tier2 text interests.
Proof.
  intros text interests.
  unfold fallbackClassification, tier2.
  cbn [firstMatch]. unfold spamRule, directRule, baitRule, qualityRule, weakRule.
  rewrite !firstIncluded_find.
  destruct (find _ spamKeywords); [reflexivity|].
  cbn [option_map].
  pose proof (interestLoop_rules text interests (None, 0%Q)) as Hloop.
  cbn [fst snd] in Hloop. rewrite Hloop. clear Hloop.
  destruct (find _ interests); [reflexivity|].
  cbn [option_map]. unfold bestInterest.
  destruct (fold_left (better text) interests (None, 0%Q)) as [bestMatch bestScore].
  destruct (isEngagementBait text); [reflexivity|].
  destruct (find _ qualityIndicators); [reflexivity|].
  cbn [option_map].
  destruct (Qgtb bestScore (1 # 2)); reflexivity.
Qed.

(** A spam keyword in the text decides, whatever the interests are. *)
Lemma fallback_spam_wins : forall text interests keyword,
  In keyword spamKeywords ->
  includes (toLowerCase text) keyword = true ->
  exists first,
    In first spamKeywords
    /\ includes (toLowerCase text) first = true
    /\ fallbackClassification (Str text) interests
       = mkResult true ("Spam keyword: " ++ first).
Proof.
  intros text interests keyword Hin Hinc.
  unfold fallbackClassification. rewrite firstIncluded_find.
  destruct (find (fun k => includes (toLowerCase text) k) spamKeywords) as [first|] eqn:E.
  - apply find_some in E. destruct E as [H1 H2]. exists first. auto.
  - exfalso. apply (find_none _ _ E) in Hin. congruence.
Qed.

(** The reason of a fallback result is never empty. *)
Lemma fallback_reason_nonempty : forall text interests,
  reason (fallbackClassification text interests) <> "".
Proof.
  intros text interests. destruct text; try discriminate.
  rewrite fallback_tier2. unfold tier2. cbn [firstMatch].
  unfold spamRule, directRule, baitRule, qualityRule, weakRule.
  destruct (find _ spamKeywords); [discriminate|]. cbn [option_map].
  destruct (find _ interests); [discriminate|]. cbn [option_map].
  destruct (isEngagementBait s); [discriminate|].
  destruct (find _ qualityIndicators); [discriminate|]. cbn [option_map].
  destruct (bestInterest s interests) as [bestMatch bestScore].
  destruct (Qgtb bestScore (1 # 2)); discriminate.
Qed.

End FallbackFacts.

(** C1.  For every string text and every interest list the fallback
    classifier decides by the ordered rules spam keyword, direct interest
    match, engagement bait, quality indicator, weak overlap above one
    half, and hides otherwise, the first applicable rule deciding; in
    particular a text with both a spam keyword and a direct interest
    match is hidden with a reason naming a spam keyword it contains. *)
Theorem fallback_rule_precedence : forall text interests,
  Fallback.fallbackClassification (JS.Str text) interests
  = Tier2Rules.tier2 text interests
  /\ (forall keyword interest,
        In keyword Fallback.spamKeywords ->
        JS.includes (JS.toLowerCase text) keyword = true ->
        In interest interests ->
        JS.includes (JS.toLowerCase text) (JS.toLowerCase interest) = true ->
        exists first,
          In first Fallback.spamKeywords
          /\ JS.includes (JS.toLowerCase text) first = true
          /\ Fallback.fallbackClassification (JS.Str text) interests
             = mkResult true ("Spam keyword: " ++ first)).
Proof.
  intros text interests. split.
  - apply fallback_tier2.
  - intros keyword interest Hk Hinc _ _.
    exact (fallback_spam_wins text interests keyword Hk Hinc).
Qed.

Lemma fallback_rule_precedence_witness :
  exists first,
    In first Fallback.spamKeywords
    /\ JS.includes (JS.toLowerCase "Buy now! great ai research") first = true
    /\ Fallback.fallbackClassification (JS.Str "Buy now! great ai research") ["ai"]
       = mkResult true ("Spam keyword: " ++ first).
Proof.
  apply (proj2 (fallback_rule_precedence "Buy now! great ai research" ["ai"])
           "buy now" "ai").
  - simpl. tauto.
  - reflexivity.
  - simpl. tauto.
  - reflexivity.
Defined.

(** The examples of the specification, evaluated. *)
Example fallback_spam_over_interest :
  Fallback.fallbackClassification (JS.Str "Buy now! great ai research") ["ai"]
  = mkResult true "Spam keyword: buy now".
Proof. reflexivity. Qed.

Example fallback_bait :
  Fallback.fallbackClassification (JS.Str "RT if you agree with this") []
  = mkResult true "Engagement bait pattern".
Proof. reflexivity. Qed.

Example fallback_quality :
  Fallback.fallbackClassification (JS.Str "Scientists published a breakthrough study") []
  = mkResult false "Quality content: study".
Proof. reflexivity. Qed.

Example fallback_no_match :
  Fallback.fallbackClassification (JS.Str "What I had for breakfast") ["finance"]
  = mkResult true "No matching interests (using fallback classification)".
Proof. reflexivity. Qed.

Example fallback_semantic :
  Fallback.fallbackClassification (JS.Str "Latest AI developments in healthcare")
    ["artificial intelligence"; "machine learning"]
  = mkResult false "Semantic match: artificial intelligence (100%)".
Proof. vm_compute. reflexivity. Qed.

Example fallback_invalid :
  Fallback.fallbackClassification JS.Null ["ai"] = mkResult true "Invalid text input".
Proof. reflexivity. Qed.

(** ** Tier 1: the offscreen classifier *)

Section RealFacts.
Import Similarity.
Local Open Scope R_scope.

Lemma dot_self_nonneg : forall a, 0 <= dot a a.
Proof.
  induction a as [|x a IH]; simpl; [lra|]. nra.
Qed.

(** The testable properties of the specification: a non-zero vector has
    similarity 1 with itself, orthogonal vectors have similarity 0. *)
Lemma cosineSimilarity_self : forall a, dot a a <> 0 -> cosineSimilarity a a = 1.
Proof.
  intros a Hnz. unfold cosineSimilarity, norm.
  rewrite sqrt_sqrt by apply dot_self_nonneg.
  apply Rinv_r. exact Hnz.
Qed.

End RealFacts.

Section OffscreenFacts.
Import JS Offscreen Similarity.

Lemma Rltb_true : forall x y, Rltb x y = true <-> (x < y)%R.
Proof.
  intros x y. unfold Rltb. destruct (Rlt_dec x y); split; intros H;
    try reflexivity; try assumption; try discriminate; contradiction.
Qed.

Lemma Rgtb_Rmax : forall sim maxSim,
  (if Rgtb sim maxSim then sim else maxSim) = Rmax maxSim sim.
Proof.
  intros sim maxSim. unfold Rgtb, Rmax.
  destruct (Rgt_dec sim maxSim) as [Hgt|Hngt];
    destruct (Rle_dec maxSim sim) as [Hle|Hnle]; try reflexivity;
    unfold Rgt in *; lra.
Qed.

(** The loop of [cosine] over the index range, started after a common
    prefix of the two vectors. *)
Lemma cosine_fold : forall (a b pa pb : vec) acc,
  List.length pa = List.length pb ->
  List.length a = List.length b ->
  fold_left (cosineStep (pa ++ a)%list (pb ++ b)%list)
    (seq (List.length pa) (List.length a)) acc
  = (fst (fst acc) + dot a b, snd (fst acc) + dot a a, snd acc + dot b b)%R.
Proof.
  induction a as [|x a IH]; intros [|y b] pa pb [[d na] nb] Hp Hlen;
    simpl in Hlen; try discriminate.
  - simpl. f_equal; [f_equal|]; lra.
  - injection Hlen as Hlen.
    cbn [List.length seq fold_left].
    assert (Hx : nth (List.length pa) (pa ++ x :: a)%list 0%R = x) by apply nth_middle.
    assert (Hy : nth (List.length pa) (pb ++ y :: b)%list 0%R = y)
      by (rewrite Hp; apply nth_middle).
    unfold cosineStep at 2. rewrite Hx, Hy.
    replace (pa ++ x :: a)%list with ((pa ++ [x]) ++ a)%list
      by (rewrite <- app_assoc; reflexivity).
    replace (pb ++ y :: b)%list with ((pb ++ [y]) ++ b)%list
      by (rewrite <- app_assoc; reflexivity).
    replace (S (List.length pa)) with (List.length (pa ++ [x])%list)
      by (rewrite length_app; simpl; lia).
    rewrite IH; [| rewrite !length_app; simpl; lia | exact Hlen].
    cbn [fst snd dot]. f_equal; [f_equal|]; simpl; ring.
Qed.

(** On vectors of one dimension the loop computes the normalised dot
    product. *)
Lemma cosine_cosineSimilarity : forall a b,
  List.length a = List.length b -> cosine a b = cosineSimilarity a b.
Proof.
  intros a b Hlen. unfold cosine, cosineSimilarity, norm.
  pose proof (cosine_fold a b [] [] (0, 0, 0)%R eq_refl Hlen) as H.
  cbn [app List.length fst snd] in H. rewrite H.
  rewrite !Rplus_0_l. reflexivity.
Qed.

Lemma maxSimLoop_fold : forall emb0 l maxSim,
  maxSimLoop emb0 l maxSim
  = fold_left Rmax (map (fun i => cosine emb0 (emb i)) l) maxSim.
Proof.
  intros emb0 l. unfold maxSimLoop.
  induction l as [|i l IH]; intros maxSim; simpl; [reflexivity|].
  rewrite Rgtb_Rmax. apply IH.
Qed.

Lemma existsb_includes_true : forall lower l k,
  In k l -> includes lower k = true -> existsb (fun k => includes lower k) l = true.
Proof.
  intros lower l k Hin Hinc. apply existsb_exists. exists k. split; assumption.
Qed.

(** [embedAll] yields one entry per interest, in order, each holding what
    the pipeline returned for it. *)
Lemma embedAll_return : forall c interests l,
  embedAll c interests = Return l ->
  map t l = interests /\ Forall (fun i => c (t i) = Return (emb i)) l.
Proof.
  intros c interests. induction interests as [|x rest IH]; intros l H; simpl in H.
  - injection H as <-. split; [reflexivity | constructor].
  - destruct (c x) as [v|e] eqn:Ec; [|discriminate].
    destruct (embedAll c rest) as [l'|e] eqn:El; [|discriminate].
    injection H as <-. destruct (IH l' eq_refl) as [Hmap Hall].
    split; [simpl; rewrite Hmap; reflexivity|].
    constructor; [exact Ec | exact Hall].
Qed.

End OffscreenFacts.

Section ReadyTransition.
Import JS.

(** The [AI_READY] branch first sends the current interests, the spam
    list and the threshold to the offscreen document. *)
Lemma ai_ready_sends_interests : forall h bg,
  exists rest,
    snd (Background.handleMessage h Background.AI_READY bg)
    = Background.SendMessage
        (Background.SET_INTERESTS
           (Offscreen.mkSetInterests (Some (Background.cachedInterests bg))
              (Some Background.spamKeywords) (Some Background.SIM_THRESHOLD)))
      :: rest.
Proof.
  intros h bg. unfold Background.handleMessage.
  destruct (Background.broadcastStatus h (Background.setAiReady true bg)) as [st2 e2].
  destruct (Background.isRunning st2).
  - destruct (Background.startContentScript h st2) as [st3 e3].
    eexists. reflexivity.
  - eexists. reflexivity.
Qed.

Lemma onSetInterests_not_ready : forall msg st,
  Offscreen.classifier st = None ->
  Offscreen.onSetInterests msg st
  = Return (Offscreen.mkState None (Offscreen.interestEmbeddings st)
              (Offscreen.orElse (Offscreen.msgSpamKeywords msg) [])
              (Offscreen.orElse (Offscreen.msgThreshold msg) Offscreen.defaultThreshold)).
Proof.
  intros msg st Hc. unfold Offscreen.onSetInterests, Offscreen.recalcEmbeddings.
  rewrite Hc. cbn [Offscreen.interestEmbeddings]. rewrite Hc. reflexivity.
Qed.

End ReadyTransition.

(** C2 (tier 1).  [classify] has no guard for a text that is not a string:
    on [null] the call [tweet.toLowerCase()] throws, in every state, and
    no result is produced. *)
Theorem classify_null_text_throws : forall toFixed2 st,
  Offscreen.classify toFixed2 st JS.Null
  = ([], JS.Throw
           (JS.TypeError "Cannot read properties of null (reading 'toLowerCase')")).
Proof. intros toFixed2 st. reflexivity. Qed.

(** Tier 1 also lets a failure of the pipeline escape. *)
Lemma classify_pipeline_failure_escapes : forall toFixed2 st c text e i0 rest,
  (forall k, In k (Offscreen.spamList st) -> JS.includes (JS.toLowerCase text) k = false) ->
  Offscreen.interestEmbeddings st = i0 :: rest ->
  Offscreen.classifier st = Some c ->
  c text = JS.Throw e ->
  Offscreen.classify toFixed2 st (JS.Str text) = ([text], JS.Throw e).
Proof.
  intros toFixed2 st c text e i0 rest Hspam Hemb Hc He.
  unfold Offscreen.classify.
  assert (Hno : existsb (fun k => JS.includes (JS.toLowerCase text) k)
                  (Offscreen.spamList st) = false).
  { destruct (existsb _ (Offscreen.spamList st)) eqn:E; [|reflexivity].
    apply existsb_exists in E. destruct E as (k & Hin & Hk).
    rewrite (Hspam k Hin) in Hk. discriminate. }
  rewrite Hno, Hemb, Hc, He. reflexivity.
Qed.

(** Tier 2 returns a result with a non-empty reason for every text value
    and every list of interest strings. *)
Lemma fallback_total : forall text interests,
  exists hidden why,
    Fallback.fallbackClassification text interests = mkResult hidden why /\ why <> "".
Proof.
  intros text interests.
  pose proof (fallback_reason_nonempty text interests) as H.
  destruct (Fallback.fallbackClassification text interests) as [hidden why].
  exists hidden, why. split; [reflexivity | exact H].
Qed.

(** C3.  With the provider the extension loads, tier 1 computes no
    similarity.  The pipeline of transformers.js is an async function, and
    [offscreen.js] reads element [0] of what the call yields without
    awaiting it: every cached embedding is [undefined], and for a text
    without a configured spam keyword and a non-empty cache [classify]
    calls the provider and then throws in [cosine], at [a.length].  So
    with this provider [classify] returns "Spam" or "No interests" or
    nothing, whatever the arithmetic and the threshold. *)
Theorem classify_similarity_not_computed :
  forall (A : Tier1.arithmetic) (toFixed2 : Tier1.number A -> string) (st : Tier1.state A),
  Tier1.classifier st = Some Tier1.library ->
  (forall interests,
     Tier1.recalcEmbeddings interests st
     = JS.Return (Tier1.setInterestEmbeddings st
                    (map (fun t => Tier1.mkInterestEmbedding t None) interests)))
  /\ (forall text,
        Tier1.interestEmbeddings st <> [] ->
        (forall k, In k (Tier1.spamList st) ->
           JS.includes (JS.toLowerCase text) k = false) ->
        Tier1.classify toFixed2 st (JS.Str text)
        = ([text],
           JS.Throw
             (JS.TypeError "Cannot read properties of undefined (reading 'length')")))
  /\ (forall tweet r,
        snd (Tier1.classify toFixed2 st tweet) = JS.Return r ->
        r = mkResult true "Spam" \/ r = mkResult false "No interests").
Proof.
  intros A toFixed2 st Hc. split; [|split].
  - intros interests. unfold Tier1.recalcEmbeddings. rewrite Hc.
    assert (H : Tier1.embedAll A Tier1.library interests
                = JS.Return (map (fun t => Tier1.mkInterestEmbedding t None) interests)).
    { induction interests as [|x rest IH]; [reflexivity|].
      cbn [Tier1.embedAll map]. unfold Tier1.library at 1. rewrite IH. reflexivity. }
    rewrite H. reflexivity.
  - intros text Hne Hspam. unfold Tier1.classify.
    assert (Hno : existsb (fun k => JS.includes (JS.toLowerCase text) k)
                    (Tier1.spamList st) = false).
    { destruct (existsb _ (Tier1.spamList st)) eqn:E; [|reflexivity].
      apply existsb_exists in E. destruct E as (k & Hin & Hk).
      rewrite (Hspam k Hin) in Hk. discriminate. }
    rewrite Hno, Hc.
    destruct (Tier1.interestEmbeddings st) as [|i0 rest]; [contradiction|].
    reflexivity.
  - intros tweet r Hr. unfold Tier1.classify in Hr.
    destruct tweet as [| | | |text|]; try discriminate.
    destruct (existsb _ (Tier1.spamList st)).
    + left. cbn in Hr. injection Hr as <-. reflexivity.
    + destruct (Tier1.interestEmbeddings st) as [|i0 rest].
      * right. cbn in Hr. injection Hr as <-. reflexivity.
      * rewrite Hc in Hr. cbn in Hr. discriminate.
Qed.

Lemma classify_similarity_not_computed_witness :
  Tier1.classify (fun _ => "0.00") Tier1.deployed (JS.Str "new chip announced")
  = (["new chip announced"],
     JS.Throw (JS.TypeError "Cannot read properties of undefined (reading 'length')")).
Proof.
  apply (proj1 (proj2 (classify_similarity_not_computed Tier1.binary64 (fun _ => "0.00")
                         Tier1.deployed eq_refl))).
  - discriminate.
  - intros k Hin. simpl in Hin.
    destruct Hin as [<-|[<-|[<-|[<-|[]]]]]; reflexivity.
Defined.

(** The cache of [Tier1.deployed] is what the handshake leaves: the
    model loaded, then [SET_INTERESTS] with the interest "ai". *)
Example deployed_by_handshake :
  Tier1.onSetInterests
    (Tier1.mkSetInterests (Some ["ai"]) (Some Background.spamKeywords) None)
    (Tier1.onModelLoaded Tier1.library Tier1.initial)
  = JS.Return Tier1.deployed.
Proof. reflexivity. Qed.

Section Binary64Facts.
Import PrimFloat.

(** In binary64 the quotient of [cosine] need not be 1 for a vector and
    itself, and a zero vector gives [NaN], which the loop of [classify]
    skips. *)
Example cosine_binary64 :
  Tier1.cosineLoop Tier1.binary64 [1; 1; 1]%float [1; 1; 1]%float
  = 0x1.0000000000001p+0%float
  /\ PrimFloat.eqb
       (Tier1.cosineLoop Tier1.binary64 [0; 0]%float [1; 0]%float)
       (Tier1.cosineLoop Tier1.binary64 [0; 0]%float [1; 0]%float) = false
  /\ Tier1.maxSimLoop Tier1.binary64 (Some [0; 0]%float)
       [@Tier1.mkInterestEmbedding Tier1.binary64 "ai" (Some [1; 0]%float)] (-1)%float
     = JS.Return (-1)%float.
Proof. repeat split; vm_compute; reflexivity. Qed.

End Binary64Facts.

(** With a spam keyword in the text an empty cache does not give "No
    interests": the spam check comes first. *)
Lemma classify_no_interests_spam :
  Offscreen.interestEmbeddings Samples.configured = []
  /\ Offscreen.classify Samples.format Samples.configured (JS.Str "Huge GIVEAWAY today")
     = ([], JS.Return (mkResult true "Spam"))
  /\ Offscreen.classify Samples.format Samples.configured (JS.Str "Huge GIVEAWAY today")
     <> ([], JS.Return (mkResult false "No interests")).
Proof.
  split; [reflexivity|]. split; [reflexivity|].
  intros H. discriminate H.
Qed.

(** The keywords the orchestrator configures are in lower case, so that
    ignoring the case of the text is ignoring case altogether. *)
Lemma orchestrator_keywords_lowercase :
  Forall (fun k => JS.toLowerCase k = k) Background.spamKeywords.
Proof. repeat constructor. Qed.

(** C10, as the code has it.  In [classify] the spam check runs before
    every other rule: a text whose lower-cased form contains a configured
    keyword, as it is stored, is hidden with reason "Spam" in every state
    (empty or non-empty embedding cache, model loaded or not), and the
    pipeline is not called.  For a keyword stored in lower case this is
    containment up to case, and the four keywords the orchestrator
    configures are stored in lower case; a keyword stored with a capital
    letter occurs in no lower-cased text. *)
Theorem classify_spam_first : forall toFixed2 st text,
  (forall keyword,
     In keyword (Offscreen.spamList st) ->
     JS.includes (JS.toLowerCase text) keyword = true ->
     Offscreen.classify toFixed2 st (JS.Str text)
     = ([], JS.Return (mkResult true "Spam")))
  /\ (forall keyword,
        In keyword (Offscreen.spamList st) ->
        JS.toLowerCase keyword = keyword ->
        Matching.containsIgnoreCase text keyword ->
        Offscreen.classify toFixed2 st (JS.Str text)
        = ([], JS.Return (mkResult true "Spam")))
  /\ (Offscreen.spamList st = Background.spamKeywords ->
      forall keyword,
        In keyword Background.spamKeywords ->
        Matching.containsIgnoreCase text keyword ->
        Offscreen.classify toFixed2 st (JS.Str text)
        = ([], JS.Return (mkResult true "Spam")))
  /\ (forall keyword,
        JS.toLowerCase keyword <> keyword ->
        JS.includes (JS.toLowerCase text) keyword = false).
Proof.
  intros toFixed2 st text.
  assert (Hspam : forall keyword,
            In keyword (Offscreen.spamList st) ->
            JS.includes (JS.toLowerCase text) keyword = true ->
            Offscreen.classify toFixed2 st (JS.Str text)
            = ([], JS.Return (mkResult true "Spam"))).
  { intros keyword Hin Hinc. unfold Offscreen.classify.
    rewrite (existsb_includes_true _ _ _ Hin Hinc). reflexivity. }
  assert (Hcase : forall keyword,
            In keyword (Offscreen.spamList st) ->
            JS.toLowerCase keyword = keyword ->
            Matching.containsIgnoreCase text keyword ->
            Offscreen.classify toFixed2 st (JS.Str text)
            = ([], JS.Return (mkResult true "Spam"))).
  { intros keyword Hin Hlow Hcontains. apply (Hspam keyword Hin).
    apply containsIgnoreCase_lower; assumption. }
  split; [exact Hspam|]. split; [exact Hcase|]. split.
  - intros Hlist keyword Hin Hcontains.
    apply (Hcase keyword); [rewrite Hlist; exact Hin | | exact Hcontains].
    pose proof orchestrator_keywords_lowercase as Hall.
    rewrite Forall_forall in Hall. apply Hall. exact Hin.
  - intros keyword Hcap.
    destruct (JS.includes (JS.toLowerCase text) keyword) eqn:E; [|reflexivity].
    exfalso. apply Hcap. exact (includes_lower_fixed text keyword E).
Qed.

Lemma classify_spam_first_witness :
  Offscreen.interestEmbeddings Samples.configured = []
  /\ Offscreen.classify Samples.format Samples.configured (JS.Str "FREE Crypto for all")
     = ([], JS.Return (mkResult true "Spam")).
Proof.
  split; [reflexivity|].
  apply (proj1 (proj2 (proj2 (classify_spam_first Samples.format Samples.configured
                                "FREE Crypto for all"))) eq_refl "free crypto").
  - simpl. tauto.
  - exists "", "FREE Crypto", " for all". split; reflexivity.
Defined.

(** A keyword that is not stored in lower case never matches: the
    [SET_INTERESTS] handler stores the list as it comes, and "Huge
    Giveaway today", which contains the keyword "Giveaway" letter for
    letter, is not hidden as spam. *)
Lemma classify_spam_keyword_as_stored :
  Offscreen.onSetInterests
    (Offscreen.mkSetInterests (Some []) (Some ["Giveaway"]) None) Offscreen.initial
  = JS.Return (Offscreen.mkState None [] ["Giveaway"] Offscreen.defaultThreshold)
  /\ Matching.containsIgnoreCase "Huge Giveaway today" "Giveaway"
  /\ Offscreen.classify Samples.format
       (Offscreen.mkState None [] ["Giveaway"] Offscreen.defaultThreshold)
       (JS.Str "Huge Giveaway today")
     = ([], JS.Return (mkResult false "No interests"))
  /\ Offscreen.classify Samples.format
       (Offscreen.mkState None [] ["Giveaway"] Offscreen.defaultThreshold)
       (JS.Str "Huge Giveaway today")
     <> ([], JS.Return (mkResult true "Spam")).
Proof.
  split; [reflexivity|]. split.
  - exists "Huge ", "Giveaway", " today". split; reflexivity.
  - split; [reflexivity|]. intros H. discriminate H.
Qed.

(** C7.  [recalcEmbeddings] without a loaded model returns the state as
    it is, and a [SET_INTERESTS] then leaves the cached embeddings
    untouched; the interests last stored by the orchestrator are sent
    again on [AI_READY] and, the model being loaded, become the cache;
    with a loaded model the call either throws and assigns nothing or
    replaces the cache by exactly one embedding per interest, in order,
    leaving the other variables alone. *)
Theorem recalcEmbeddings_frame_and_replace :
  (forall interests st,
     Offscreen.classifier st = None ->
     Offscreen.recalcEmbeddings interests st = JS.Return st)
  /\ (forall msg st,
        Offscreen.classifier st = None ->
        exists st',
          Offscreen.onSetInterests msg st = JS.Return st'
          /\ Offscreen.interestEmbeddings st' = Offscreen.interestEmbeddings st)
  /\ (forall h bg off pipe interests embs,
        Offscreen.classifier off = None ->
        Offscreen.embedAll pipe interests = JS.Return embs ->
        exists m rest off',
          snd (Background.handleMessage h Background.AI_READY
                 (fst (Background.onInterestsChanged (Some interests) bg)))
          = Background.SendMessage (Background.SET_INTERESTS m) :: rest
          /\ Offscreen.onSetInterests m (Offscreen.onModelLoaded pipe off) = JS.Return off'
          /\ Offscreen.interestEmbeddings off' = embs
          /\ map Offscreen.t embs = interests)
  /\ (forall c interests st,
        Offscreen.classifier st = Some c ->
        (exists e, Offscreen.recalcEmbeddings interests st = JS.Throw e)
        \/ (exists st',
              Offscreen.recalcEmbeddings interests st = JS.Return st'
              /\ map Offscreen.t (Offscreen.interestEmbeddings st') = interests
              /\ Forall (fun i => c (Offscreen.t i) = JS.Return (Offscreen.emb i))
                   (Offscreen.interestEmbeddings st')
              /\ Offscreen.classifier st' = Offscreen.classifier st
              /\ Offscreen.spamList st' = Offscreen.spamList st
              /\ Offscreen.threshold st' = Offscreen.threshold st)).
Proof.
  split; [|split; [|split]].
  - intros interests st Hc. unfold Offscreen.recalcEmbeddings. rewrite Hc. reflexivity.
  - intros msg st Hc. rewrite (onSetInterests_not_ready msg st Hc).
    eexists. split; reflexivity.
  - intros h bg off pipe interests embs Hc Hemb.
    destruct (ai_ready_sends_interests h
                (fst (Background.onInterestsChanged (Some interests) bg))) as [rest Hrest].
    assert (Hcached : Background.cachedInterests
                        (fst (Background.onInterestsChanged (Some interests) bg))
                      = interests).
    { unfold Background.onInterestsChanged. cbn.
      destruct (Background.aiReady bg); reflexivity. }
    rewrite Hcached in Hrest.
    eexists. exists rest. eexists. split; [exact Hrest|].
    unfold Offscreen.onSetInterests, Offscreen.recalcEmbeddings, Offscreen.onModelLoaded.
    rewrite Hc. cbn. rewrite Hemb. cbn.
    split; [reflexivity|]. split; [reflexivity|].
    apply (embedAll_return pipe interests embs Hemb).
  - intros c interests st Hc. unfold Offscreen.recalcEmbeddings. rewrite Hc.
    destruct (Offscreen.embedAll c interests) as [l|e] eqn:El.
    + right. eexists. split; [reflexivity|]. cbn.
      destruct (embedAll_return c interests l El) as [Hmap Hall].
      repeat split; assumption.
    + left. exists e. reflexivity.
Qed.

Lemma recalcEmbeddings_frame_and_replace_witness :
  Offscreen.recalcEmbeddings ["ai"; "music"] Samples.loading = JS.Return Samples.loading
  /\ (exists st',
        Offscreen.recalcEmbeddings ["ai"; "music"] Samples.configured = JS.Return st'
        /\ map Offscreen.t (Offscreen.interestEmbeddings st') = ["ai"; "music"]).
Proof.
  destruct recalcEmbeddings_frame_and_replace as (Hframe & _ & _ & Hreplace).
  split.
  - apply Hframe. reflexivity.
  - destruct (Hreplace Samples.pipe ["ai"; "music"] Samples.configured eq_refl)
      as [[e He]|(st' & Hret & Hmap & _)].
    + discriminate He.
    + exists st'. split; assumption.
Defined.

(** ** The decision log *)

Section DecisionLogFacts.
Import DecisionLog RingBuffer.

Lemma capacity_pos : 1 <= capacity.
Proof. unfold capacity. lia. Qed.

Lemma tl_skipn : forall (A : Type) (k : nat) (l : list A), tl (skipn k l) = skipn (S k) l.
Proof.
  intros A k. induction k as [|k IH]; intros [|x l]; try reflexivity.
  cbn [skipn]. apply IH.
Qed.

Lemma tl_length : forall (A : Type) (l : list A), List.length (tl l) = List.length l - 1.
Proof. intros A [|x l]; simpl; lia. Qed.

(** What an accepted call stores. *)
Lemma logCall_accepted : forall s c,
  accepted c = true ->
  logCall s c
  = Some (if (capacity <? List.length (contents s ++ [entryOf c]))%nat
          then tl (contents s ++ [entryOf c])%list
          else (contents s ++ [entryOf c])%list).
Proof.
  intros s c Hacc. unfold accepted in Hacc.
  apply andb_prop in Hacc. destruct Hacc as [Hacc Hset].
  apply andb_prop in Hacc. destruct Hacc as [Hargs Hget].
  apply negb_true_iff in Hargs, Hget, Hset.
  unfold logCall, logLine. rewrite Hargs, Hget, Hset. reflexivity.
Qed.

(** One call keeps the bound, whatever the host answers. *)
Lemma logLine_bound : forall h id text decision reason s,
  List.length (contents s) <= capacity ->
  List.length (contents (logLine h id text decision reason s)) <= capacity.
Proof.
  intros h id text decision reason s Hlen. unfold logLine.
  destruct (falsy id || falsy decision || falsy reason); [exact Hlen|].
  destruct (getFails h); [exact Hlen|].
  destruct (setFails h); [exact Hlen|].
  cbn [contents].
  destruct (Nat.ltb_spec capacity
              (List.length (contents s ++ [mkLogEntry (now h) id decision reason text]))) as [Hgt|Hle].
  - rewrite tl_length, length_app. simpl. lia.
  - exact Hle.
Qed.

Lemma logAll_bound : forall calls s,
  List.length (contents s) <= capacity ->
  List.length (contents (logAll calls s)) <= capacity.
Proof.
  induction calls as [|c calls IH]; intros s Hlen; simpl; [exact Hlen|].
  apply IH. apply logLine_bound. exact Hlen.
Qed.

Lemma logAll_snoc : forall calls c s, logAll (calls ++ [c]) s = logCall (logAll calls s) c.
Proof. intros calls c s. unfold logAll. rewrite fold_left_app. reflexivity. Qed.

(** After accepted calls on the empty log, the log holds the last
    [capacity] entries, oldest first. *)
Lemma logAll_lastEntries : forall calls,
  forallb accepted calls = true ->
  contents (logAll calls None) = lastEntries capacity (map entryOf calls).
Proof.
  induction calls as [|c calls IH] using rev_ind; intros Hacc; [reflexivity|].
  rewrite forallb_app in Hacc. apply andb_prop in Hacc. destruct Hacc as [Hcalls Hc].
  simpl in Hc. rewrite andb_true_r in Hc.
  rewrite logAll_snoc, (logCall_accepted _ c Hc). cbn [contents].
  rewrite (IH Hcalls). rewrite map_app. cbn [map].
  unfold lastEntries. set (es := map entryOf calls).
  pose proof capacity_pos as Hcap.
  rewrite !length_app, length_skipn. cbn [List.length].
  destruct (Nat.ltb_spec capacity (List.length es - (List.length es - capacity) + 1)) as [Hgt|Hle].
  - assert (Hn : capacity <= List.length es) by lia.
    rewrite skipn_app.
    replace (List.length es + 1 - capacity - List.length es) with 0 by lia.
    replace (List.length es + 1 - capacity) with (S (List.length es - capacity)) by lia.
    cbn [skipn].
    destruct (skipn (List.length es - capacity) es) as [|x l] eqn:E.
    + exfalso. assert (Hl : List.length (skipn (List.length es - capacity) es) = 0)
        by (rewrite E; reflexivity).
      rewrite length_skipn in Hl. lia.
    + cbn [app tl].
      pose proof (tl_skipn _ (List.length es - capacity) es) as Htl.
      rewrite E in Htl. cbn [tl] in Htl. rewrite Htl. reflexivity.
  - replace (List.length es - capacity) with 0 by lia.
    replace (List.length es + 1 - capacity) with 0 by lia.
    reflexivity.
Qed.

End DecisionLogFacts.

(** C4.  A stored log of at most 2000 entries, the empty one in
    particular, never grows beyond 2000, whatever is logged and whatever
    the storage answers; a call that goes through
    appends its entry at the end and drops the first entry when the length
    exceeds 2000; after calls that all go through the log holds the last
    2000 entries in order, so that 2001 calls on the empty log leave
    exactly 2000 entries, all but the oldest. *)
Theorem decision_log_ring_buffer :
  (forall calls s,
     List.length (DecisionLog.contents s) <= 2000 ->
     List.length (DecisionLog.contents (DecisionLog.logAll calls s)) <= 2000)
  /\ (forall s c,
        DecisionLog.accepted c = true ->
        DecisionLog.contents (DecisionLog.logCall s c)
        = if (2000 <? List.length (DecisionLog.contents s ++ [DecisionLog.entryOf c]))%nat
          then tl (DecisionLog.contents s ++ [DecisionLog.entryOf c])%list
          else (DecisionLog.contents s ++ [DecisionLog.entryOf c])%list)
  /\ (forall calls,
        forallb DecisionLog.accepted calls = true ->
        DecisionLog.contents (DecisionLog.logAll calls None)
        = RingBuffer.lastEntries 2000 (map DecisionLog.entryOf calls))
  /\ (forall calls,
        forallb DecisionLog.accepted calls = true ->
        List.length calls = 2001 ->
        DecisionLog.contents (DecisionLog.logAll calls None)
        = tl (map DecisionLog.entryOf calls)
        /\ List.length (DecisionLog.contents (DecisionLog.logAll calls None)) = 2000).
Proof.
  change 2000 with DecisionLog.capacity.
  split; [|split; [|split]].
  - intros calls s Hlen. apply logAll_bound. exact Hlen.
  - intros s c Hacc. rewrite (logCall_accepted s c Hacc). reflexivity.
  - apply logAll_lastEntries.
  - intros calls Hacc Hlen.
    rewrite (logAll_lastEntries calls Hacc). unfold RingBuffer.lastEntries.
    rewrite length_map, Hlen.
    replace (S DecisionLog.capacity - DecisionLog.capacity) with 1 by lia.
    destruct (map DecisionLog.entryOf calls) as [|e es] eqn:E.
    + apply (f_equal (@List.length _)) in E. rewrite length_map, Hlen in E. discriminate.
    + split; [reflexivity|].
      apply (f_equal (@List.length _)) in E. rewrite length_map, Hlen in E.
      simpl in E. cbn [skipn]. lia.
Qed.

Lemma decision_log_ring_buffer_witness :
  DecisionLog.contents (DecisionLog.logAll Samples.manyCalls None)
  = tl (map DecisionLog.entryOf Samples.manyCalls)
  /\ List.length (DecisionLog.contents (DecisionLog.logAll Samples.manyCalls None)) = 2000.
Proof.
  apply (proj2 (proj2 (proj2 decision_log_ring_buffer))).
  - vm_compute. reflexivity.
  - vm_compute. reflexivity.
Defined.

(** ** Model acquisition *)

Section ModelManagerFacts.
Import JS ModelManager.

Lemma backoff_1 : backoff 1 = 1000%N.
Proof. reflexivity. Qed.

Lemma backoff_2 : backoff 2 = 2000%N.
Proof. reflexivity. Qed.

(** Three failed fetches: two sleeps in between, then the error. *)
Lemma retryFetch_exhausted : forall net url m1 m2 m3,
  failureOf (net 1) = Some m1 ->
  failureOf (net 2) = Some m2 ->
  failureOf (net 3) = Some m3 ->
  retryFetch net url 3
  = ([Fetch url 30000; Sleep 1000; Fetch url 30000; Sleep 2000; Fetch url 30000],
     Throw (Error ("Failed to fetch after 3 attempts: " ++ m3))).
Proof.
  intros net url m1 m2 m3 H1 H2 H3.
  unfold retryFetch. cbn [retryLoop]. rewrite H1, H2, H3. reflexivity.
Qed.

(** Whatever the fetches do, the probe has one of three shapes. *)
Lemma retryFetch_shapes : forall net url,
  let trace := fst (retryFetch net url 3) in
  trace = [Fetch url 30000]
  \/ trace = [Fetch url 30000; Sleep 1000; Fetch url 30000]
  \/ trace = [Fetch url 30000; Sleep 1000; Fetch url 30000; Sleep 2000; Fetch url 30000].
Proof.
  intros net url. unfold retryFetch. cbn [retryLoop].
  destruct (failureOf (net 1)); [|left; reflexivity].
  cbn [Nat.eqb].
  destruct (failureOf (net 2)); [|right; left; reflexivity].
  cbn [Nat.eqb].
  destruct (failureOf (net 3)); right; right; reflexivity.
Qed.

(** The message of an exhausted probe is classified as a network error. *)
Lemma probe_failure_is_network_error : forall m,
  errorMessage ("Network connectivity issue: "
                ++ "Failed to fetch after 3 attempts: " ++ m)
  = "Network error: Check internet connection and try again".
Proof. intros m. reflexivity. Qed.

Lemma acquire_memoized : forall st p,
  loadPromise st = Some p -> getMiniLMPipeline st = (p, st).
Proof. intros st p H. unfold getMiniLMPipeline. rewrite H. reflexivity. Qed.

Lemma acquire_sets_memo : forall st,
  loadPromise (snd (getMiniLMPipeline st)) = Some (fst (getMiniLMPipeline st)).
Proof.
  intros st. unfold getMiniLMPipeline.
  destruct (loadPromise st) eqn:E; [exact E | reflexivity].
Qed.

Lemma run_acquires_memoized : forall between st p,
  forallb isAcquire between = true ->
  loadPromise st = Some p ->
  run between st = st.
Proof.
  induction between as [|e between IH]; intros st p Hacq Hmemo; [reflexivity|].
  simpl in Hacq. apply andb_prop in Hacq. destruct Hacq as [He Hrest].
  destruct e; [|discriminate].
  cbn [run fold_left step]. rewrite (acquire_memoized st p Hmemo). cbn [snd].
  apply (IH st p Hrest Hmemo).
Qed.

Lemma nth_error_setNth : forall (A : Type) (l : list A) p q a,
  nth_error (setNth p a l) q
  = if (q =? p)%nat then option_map (fun _ => a) (nth_error l q) else nth_error l q.
Proof.
  intros A l. induction l as [|x l IH]; intros p q a.
  - destruct p, q; simpl; try reflexivity. destruct (q =? p)%nat; reflexivity.
  - destruct p, q; simpl; try reflexivity. apply IH.
Qed.

Lemma length_setNth : forall (A : Type) (l : list A) p a,
  List.length (setNth p a l) = List.length l.
Proof.
  intros A l. induction l as [|x l IH]; intros [|p] a; simpl; try reflexivity.
  rewrite IH. reflexivity.
Qed.

Lemma isPending_lt : forall st p, isPending st p = true -> p < List.length (attempts st).
Proof.
  intros st p H. unfold isPending in H.
  destruct (nth_error (attempts st) p) eqn:E; [|discriminate].
  apply nth_error_Some. congruence.
Qed.

Lemma singleFlight_initial : singleFlight initial.
Proof. intros q H. unfold isPending in H. destruct q; discriminate. Qed.

Lemma singleFlight_acquire : forall st,
  singleFlight st -> singleFlight (snd (getMiniLMPipeline st)).
Proof.
  intros st Hsf. unfold getMiniLMPipeline.
  destruct (loadPromise st) as [p|] eqn:E; [exact Hsf|].
  intros q Hq. cbn [snd] in *. unfold isPending in Hq. cbn [attempts] in Hq.
  cbn [loadPromise]. f_equal.
  destruct (Nat.lt_ge_cases q (List.length (attempts st))) as [Hlt|Hge].
  - rewrite nth_error_app1 in Hq by exact Hlt.
    assert (Hp : isPending st q = true) by exact Hq.
    apply Hsf in Hp. congruence.
  - assert (Hlen : q < List.length (attempts st ++ [Pending])%list).
    { apply nth_error_Some. destruct (nth_error (attempts st ++ [Pending])%list q);
        [discriminate | discriminate Hq]. }
    rewrite length_app in Hlen. simpl in Hlen. lia.
Qed.

Lemma singleFlight_settle : forall h st,
  singleFlight st -> singleFlight (fst (settle h st)).
Proof.
  intros h st Hsf. unfold settle.
  destruct (loadPromise st) as [p|] eqn:E; [|exact Hsf].
  destruct (isPending st p) eqn:Hp; [|exact Hsf].
  assert (Hnone : forall a q,
            match nth_error (setNth p a (attempts st)) q with
            | Some Pending => true
            | _ => false
            end = true -> a <> Pending -> False).
  { intros a q Hq Ha. rewrite nth_error_setNth in Hq.
    destruct (Nat.eqb_spec q p) as [Heq|Hne].
    - destruct (nth_error (attempts st) q); cbn in Hq; [|discriminate].
      destruct a; try discriminate. apply Ha. reflexivity.
    - assert (Hq' : isPending st q = true) by exact Hq.
      apply Hsf in Hq'. congruence. }
  destruct (loadBody h) as [trace [pipe|err]]; intros q Hq; exfalso;
    unfold isPending in Hq; cbn [fst attempts] in Hq.
  - apply (Hnone _ q Hq). discriminate.
  - apply (Hnone _ q Hq). discriminate.
Qed.

Lemma singleFlight_run : forall es st, singleFlight st -> singleFlight (run es st).
Proof.
  induction es as [|e es IH]; intros st Hsf; [exact Hsf|].
  cbn [run fold_left]. apply IH. destruct e; cbn [step].
  - apply singleFlight_acquire. exact Hsf.
  - apply singleFlight_settle. exact Hsf.
Qed.

End ModelManagerFacts.

(** C5.  In any state the event loop reaches, two calls of
    [getMiniLMPipeline] with no settlement in between return the same
    promise; if it is pending after the first call it is still pending
    after the second and is the only pending attempt, and the second call
    starts no attempt (the two calls start exactly one when none was
    memoized).  When the attempt in flight fails, the memo is cleared and
    the next call starts a fresh attempt with a new pending promise. *)
Theorem acquire_single_flight : forall history,
  let st := ModelManager.run history ModelManager.initial in
  (forall between,
     forallb ModelManager.isAcquire between = true ->
     let first := ModelManager.getMiniLMPipeline st in
     let second :=
       ModelManager.getMiniLMPipeline (ModelManager.run between (snd first)) in
     ModelManager.isPending (snd first) (fst first) = true ->
     fst second = fst first
     /\ ModelManager.isPending (snd second) (fst second) = true
     /\ (forall q, ModelManager.isPending (snd second) q = true -> q = fst first)
     /\ ModelManager.loadAttempts (snd second) = ModelManager.loadAttempts (snd first)
     /\ (ModelManager.loadPromise st = None ->
         ModelManager.loadAttempts (snd second) = ModelManager.loadAttempts st + 1))
  /\ (forall h p trace err,
        ModelManager.loadPromise st = Some p ->
        ModelManager.isPending st p = true ->
        ModelManager.loadBody h = (trace, JS.Throw err) ->
        let failed := fst (ModelManager.settle h st) in
        let next := ModelManager.getMiniLMPipeline failed in
        ModelManager.loadPromise failed = None
        /\ fst next <> p
        /\ ModelManager.isPending (snd next) (fst next) = true
        /\ ModelManager.loadAttempts (snd next) = ModelManager.loadAttempts failed + 1).
Proof.
  intros history st.
  assert (Hsf : ModelManager.singleFlight st).
  { apply singleFlight_run. apply singleFlight_initial. }
  split.
  - intros between Hacq first second Hpending.
    pose proof (acquire_sets_memo st) as Hmemo. fold first in Hmemo.
    assert (Hrun : ModelManager.run between (snd first) = snd first).
    { apply (run_acquires_memoized between (snd first) (fst first) Hacq Hmemo). }
    assert (Hsecond : second = (fst first, snd first)).
    { unfold second. rewrite Hrun. apply acquire_memoized. exact Hmemo. }
    rewrite Hsecond. cbn [fst snd].
    split; [reflexivity|]. split; [exact Hpending|]. split; [|split; [reflexivity|]].
    + intros q Hq.
      assert (Hsf1 : ModelManager.singleFlight (snd first))
        by (apply singleFlight_acquire; exact Hsf).
      apply Hsf1 in Hq. congruence.
    + intros Hnone. unfold first, ModelManager.getMiniLMPipeline. rewrite Hnone.
      cbn [snd]. unfold ModelManager.loadAttempts. cbn [ModelManager.attempts].
      rewrite length_app. reflexivity.
  - intros h p trace err Hmemo Hpending Hbody failed next.
    assert (Hfailed : failed
                      = ModelManager.mkState (ModelManager.modelReady st) None
                          (ModelManager.setNth p (ModelManager.Rejected err)
                             (ModelManager.attempts st))).
    { unfold failed, ModelManager.settle. rewrite Hmemo, Hpending, Hbody. reflexivity. }
    pose proof (isPending_lt st p Hpending) as Hlt.
    unfold next. rewrite Hfailed.
    unfold ModelManager.getMiniLMPipeline, ModelManager.isPending,
      ModelManager.loadAttempts.
    cbn [ModelManager.loadPromise ModelManager.attempts fst snd].
    rewrite length_setNth.
    split; [reflexivity|]. split; [lia|]. split.
    + rewrite nth_error_app2 by (rewrite length_setNth; lia).
      rewrite length_setNth, Nat.sub_diag. reflexivity.
    + rewrite length_app, length_setNth. reflexivity.
Qed.

Lemma acquire_single_flight_witness :
  (fst (ModelManager.getMiniLMPipeline
          (ModelManager.run [ModelManager.Acquire]
             (snd (ModelManager.getMiniLMPipeline ModelManager.initial))))
   = fst (ModelManager.getMiniLMPipeline ModelManager.initial)
   /\ ModelManager.loadAttempts
        (snd (ModelManager.getMiniLMPipeline
                (ModelManager.run [ModelManager.Acquire]
                   (snd (ModelManager.getMiniLMPipeline ModelManager.initial)))))
      = 1)
  /\ ModelManager.loadPromise
       (fst (ModelManager.settle Samples.offline
               (ModelManager.run [ModelManager.Acquire] ModelManager.initial)))
     = None.
Proof.
  split.
  - destruct (acquire_single_flight []) as [Hsame _].
    destruct (Hsame [ModelManager.Acquire] eq_refl eq_refl) as (H1 & _ & _ & _ & H5).
    split; [exact H1 | exact (H5 eq_refl)].
  - destruct (acquire_single_flight [ModelManager.Acquire]) as [_ Hfail].
    destruct (Hfail Samples.offline 0
                (fst (ModelManager.loadBody Samples.offline))
                (JS.Error "Network connectivity issue: Failed to fetch after 3 attempts: Failed to fetch")
                eq_refl eq_refl eq_refl) as (H1 & _).
    exact H1.
Defined.

(** C6, as the code has it.  The probe is a loop of three attempts, each
    fetch with a 30 s abort signal, sleeping 1 s after the first failure
    and 2 s after the second; after the third failure it throws without
    sleeping, the load attempt reports the payload "Network error: ...",
    and the orchestrator classifies that payload as a network error. *)
Theorem network_probe_bounded_retry :
  (forall net url,
     let trace := fst (ModelManager.retryFetch net url 3) in
     trace = [ModelManager.Fetch url 30000]
     \/ trace = [ModelManager.Fetch url 30000; ModelManager.Sleep 1000;
                 ModelManager.Fetch url 30000]
     \/ trace = [ModelManager.Fetch url 30000; ModelManager.Sleep 1000;
                 ModelManager.Fetch url 30000; ModelManager.Sleep 2000;
                 ModelManager.Fetch url 30000])
  /\ (forall h m1 m2 m3,
        ModelManager.failureOf (ModelManager.net h 1) = Some m1 ->
        ModelManager.failureOf (ModelManager.net h 2) = Some m2 ->
        ModelManager.failureOf (ModelManager.net h 3) = Some m3 ->
        ModelManager.retryFetch (ModelManager.net h) ModelManager.probeUrl 3
        = ([ModelManager.Fetch ModelManager.probeUrl 30000; ModelManager.Sleep 1000;
            ModelManager.Fetch ModelManager.probeUrl 30000; ModelManager.Sleep 2000;
            ModelManager.Fetch ModelManager.probeUrl 30000],
           JS.Throw (JS.Error ("Failed to fetch after 3 attempts: " ++ m3)))
        /\ ModelManager.loadBody h
           = ([ModelManager.Progress "Initializing..." 5;
               ModelManager.Progress "Testing network..." 10;
               ModelManager.Fetch ModelManager.probeUrl 30000; ModelManager.Sleep 1000;
               ModelManager.Fetch ModelManager.probeUrl 30000; ModelManager.Sleep 2000;
               ModelManager.Fetch ModelManager.probeUrl 30000;
               ModelManager.SendLoadFailed
                 "Network error: Check internet connection and try again"],
              JS.Throw (JS.Error ("Network connectivity issue: "
                                  ++ "Failed to fetch after 3 attempts: " ++ m3)))
        /\ Background.isNetworkError
             "Network error: Check internet connection and try again" = true).
Proof.
  split; [exact retryFetch_shapes|].
  intros h m1 m2 m3 H1 H2 H3.
  pose proof (retryFetch_exhausted (ModelManager.net h) ModelManager.probeUrl
                m1 m2 m3 H1 H2 H3) as Hprobe.
  split; [exact Hprobe|]. split; [|reflexivity].
  unfold ModelManager.loadBody, ModelManager.tryLoad. rewrite Hprobe.
  cbn [ModelManager.messageOf app].
  rewrite probe_failure_is_network_error. reflexivity.
Qed.

Lemma network_probe_bounded_retry_witness :
  ModelManager.loadBody Samples.offline
  = ([ModelManager.Progress "Initializing..." 5;
      ModelManager.Progress "Testing network..." 10;
      ModelManager.Fetch ModelManager.probeUrl 30000; ModelManager.Sleep 1000;
      ModelManager.Fetch ModelManager.probeUrl 30000; ModelManager.Sleep 2000;
      ModelManager.Fetch ModelManager.probeUrl 30000;
      ModelManager.SendLoadFailed
        "Network error: Check internet connection and try again"],
     JS.Throw (JS.Error ("Network connectivity issue: "
                         ++ "Failed to fetch after 3 attempts: " ++ "Failed to fetch"))).
Proof.
  destruct network_probe_bounded_retry as [_ Hfail].
  destruct (Hfail Samples.offline "Failed to fetch" "Failed to fetch" "Failed to fetch"
              eq_refl eq_refl eq_refl) as (_ & Hbody & _).
  exact Hbody.
Defined.

(** With three failing fetches the probe sleeps twice, 1 s and 2 s: no
    4 s sleep happens. *)
Lemma network_probe_no_third_sleep :
  filter (fun e => match e with ModelManager.Sleep _ => true | _ => false end)
    (fst (ModelManager.retryFetch (ModelManager.net Samples.offline)
            ModelManager.probeUrl 3))
  = [ModelManager.Sleep 1000; ModelManager.Sleep 2000]
  /\ ~ In (ModelManager.Sleep 4000)
        (fst (ModelManager.retryFetch (ModelManager.net Samples.offline)
                ModelManager.probeUrl 3)).
Proof.
  split; [reflexivity|].
  intros H. cbn in H.
  repeat (destruct H as [H|H]; [discriminate H|]). exact H.
Qed.

(** ** The orchestrator *)

Section BackgroundFacts.
Import JS Background.

(** [broadcastStatus] only touches the stored status. *)
Lemma broadcastStatus_frame : forall h st,
  let st' := fst (broadcastStatus h st) in
  isRunning st' = isRunning st
  /\ aiReady st' = aiReady st
  /\ cachedInterests st' = cachedInterests st
  /\ modelManager st' = modelManager st
  /\ timers st' = timers st
  /\ keepAlive st' = keepAlive st.
Proof.
  intros h st. unfold broadcastStatus.
  destruct (statusDelivered h && negb (storageFails h)); cbn; repeat split; reflexivity.
Qed.

Lemma initializeAI_preload : forall h st,
  offscreenFails h = false ->
  In (SendMessage PRELOAD_MODEL) (snd (initializeAI h st)).
Proof.
  intros h st Hok. unfold initializeAI.
  destruct (broadcastStatus h st) as [st1 e1]. rewrite Hok.
  destruct (broadcastStatus h st1) as [st2 e2]. cbn [snd].
  apply in_or_app. right. apply in_or_app. right. left. reflexivity.
Qed.

(** No function of background.js assigns to the module state of its
    modelManager.js instance. *)
Lemma initializeAI_modelManager : forall h st,
  modelManager (fst (initializeAI h st)) = modelManager st.
Proof.
  intros h st. unfold initializeAI.
  pose proof (broadcastStatus_frame h st) as H1.
  destruct (broadcastStatus h st) as [st1 e1]. cbn [fst] in H1.
  pose proof (broadcastStatus_frame h st1) as H2.
  destruct (broadcastStatus h st1) as [st2 e2]. cbn [fst] in H2.
  destruct (offscreenFails h); cbn [fst];
    destruct H1 as (_ & _ & _ & H1 & _), H2 as (_ & _ & _ & H2 & _); congruence.
Qed.

Lemma forwardToTab_modelManager : forall h d t st,
  modelManager (fst (forwardToTab h d t st)) = modelManager st.
Proof.
  intros h d t st. unfold forwardToTab.
  destruct ((tabId t =? 0)%nat || discarded t || negb (complete t)); [reflexivity|].
  destruct (pingError (answers h (tabId t))) as [m|];
    [|destruct (sendError (answers h (tabId t))) as [m|]; [|reflexivity]];
    destruct (connectionError m); try reflexivity;
    destruct (injectOk (answers h (tabId t)) && resendOk (answers h (tabId t)));
    try reflexivity;
    destruct (injectOk (answers h (tabId t))); reflexivity.
Qed.

Lemma forwardToTabs_modelManager : forall h d tabs st,
  modelManager (fst (forwardToTabs h d tabs st)) = modelManager st.
Proof.
  intros h d tabs. induction tabs as [|t rest IH]; intros st; [reflexivity|].
  cbn [forwardToTabs].
  pose proof (forwardToTab_modelManager h d t st) as H1.
  destruct (forwardToTab h d t st) as [st1 e1]. cbn [fst] in H1.
  pose proof (IH st1) as H2.
  destruct (forwardToTabs h d rest st1) as [st2 e2]. cbn [fst] in *. congruence.
Qed.

Lemma startCuration_modelManager : forall h st,
  modelManager (fst (fst (startCuration h st))) = modelManager st.
Proof.
  intros h st. unfold startCuration.
  destruct (isRunning st); [reflexivity|].
  destruct (negb (eligible (activeTab h))); [reflexivity|].
  set (id := match activeTab h with Some t => tabId t | None => 0 end).
  destruct (pingError (answers h id)); [destruct (injectOk (answers h id))|];
    try reflexivity;
    (destruct (storageFails h); [reflexivity|];
     set (st2 := setKeepAlive true (setStoredIsRunning true (setIsRunning true st)));
     assert (H3 : modelManager
                    (fst (if aiReady st2 then startContentScript h st2
                          else initializeAI h st2)) = modelManager st)
       by (destruct (aiReady st2);
           [apply (forwardToTabs_modelManager h START (feedTabs h) st2)
           | apply (initializeAI_modelManager h st2)]);
     destruct (if aiReady st2 then startContentScript h st2 else initializeAI h st2)
       as [st3 e3]; cbn [fst] in H3;
     pose proof (broadcastStatus_frame h st3) as H4;
     destruct (broadcastStatus h st3) as [st4 e4]; cbn [fst] in *;
     destruct H4 as (_ & _ & _ & H4 & _); congruence).
Qed.

Lemma stopCuration_modelManager : forall h st,
  modelManager (fst (stopCuration h st)) = modelManager st.
Proof.
  intros h st. unfold stopCuration.
  destruct (negb (isRunning st)); [reflexivity|].
  destruct (storageFails h); [reflexivity|].
  set (st2 := setKeepAlive false (setStoredIsRunning false (setIsRunning false st))).
  pose proof (forwardToTabs_modelManager h STOP (feedTabs h) st2) as H3.
  change (modelManager st2) with (modelManager st) in H3.
  unfold stopContentScript, forwardToContentScript.
  destruct (forwardToTabs h STOP (feedTabs h) st2) as [st3 e3]. cbn [fst] in H3.
  pose proof (broadcastStatus_frame h st3) as H4.
  destruct (broadcastStatus h st3) as [st4 e4]. cbn [fst] in *.
  destruct H4 as (_ & _ & _ & H4 & _). congruence.
Qed.

Lemma report_modelManager : forall h id text hidden why st,
  modelManager (fst (report h id text hidden why st)) = modelManager st.
Proof.
  intros h id text hidden why st. unfold report.
  destruct hidden; [|reflexivity].
  unfold forwardToContentScript.
  match goal with
  | |- context [forwardToTabs h ?d ?tabs ?s] =>
      pose proof (forwardToTabs_modelManager h d tabs s) as H;
      destruct (forwardToTabs h d tabs s) as [st2 e2]
  end.
  cbn [fst] in *. exact H.
Qed.

Lemma handleMessage_modelManager : forall h m st,
  modelManager (fst (handleMessage h m st)) = modelManager st.
Proof.
  intros h m st. destruct m; cbn [handleMessage].
  - pose proof (startCuration_modelManager h st) as H.
    destruct (startCuration h st) as [[st1 e1] [u|err]]; exact H.
  - pose proof (stopCuration_modelManager h st) as H.
    destruct (stopCuration h st) as [st1 e1]. exact H.
  - reflexivity.
  - destruct (isRunning st); [|reflexivity].
    destruct (classifyTweet h id text st) as [r e1].
    pose proof (report_modelManager h id text (isUninteresting r) (reason r) st) as H.
    destruct (report h id text (isUninteresting r) (reason r) st) as [st2 e2]. exact H.
  - pose proof (broadcastStatus_frame h (setAiReady true st)) as H2.
    destruct (broadcastStatus h (setAiReady true st)) as [st2 e2]. cbn [fst] in H2.
    destruct H2 as (_ & _ & _ & H2 & _).
    change (modelManager (setAiReady true st)) with (modelManager st) in H2.
    destruct (isRunning st2); [|exact H2].
    pose proof (forwardToTabs_modelManager h START (feedTabs h) st2) as H3.
    unfold startContentScript, forwardToContentScript.
    destruct (forwardToTabs h START (feedTabs h) st2) as [st3 e3].
    cbn [fst] in *. congruence.
  - destruct (isRunning st); [|reflexivity].
    pose proof (report_modelManager h id text isUninteresting0 reason0 st) as H.
    destruct (report h id text isUninteresting0 reason0 st) as [st1 e1]. exact H.
  - reflexivity.
  - set (st2 := if isNetworkError (orString payload "") && isRunning (setAiReady false st)
                then _ else _).
    assert (H2 : modelManager st2 = modelManager st)
      by (unfold st2; destruct (isNetworkError _ && _); reflexivity).
    pose proof (broadcastStatus_frame h st2) as H3.
    destruct (broadcastStatus h st2) as [st3 e3]. cbn [fst] in *.
    destruct H3 as (_ & _ & _ & H3 & _). congruence.
  - destruct (isRunning st); [|reflexivity].
    pose proof (broadcastStatus_frame h (setAiReady false st)) as H2.
    destruct (broadcastStatus h (setAiReady false st)) as [st2 e2]. cbn [fst] in H2.
    destruct H2 as (_ & _ & _ & H2 & _).
    change (modelManager (setAiReady false st)) with (modelManager st) in H2.
    pose proof (initializeAI_modelManager h st2) as H3.
    destruct (initializeAI h st2) as [st3 e3]. cbn [fst] in *. congruence.
  - reflexivity.
Qed.

(** In the service worker [isModelReady()] is never true: the
    [EVALUATE_TWEET] branch always classifies with the fallback. *)
Lemma background_model_never_ready : forall st,
  reachable st -> isModelReady st = false.
Proof.
  intros st Hreach. unfold isModelReady.
  induction Hreach as [|h m st Hreach IH|h cb st Hreach IH|v st Hreach IH].
  - reflexivity.
  - rewrite handleMessage_modelManager. exact IH.
  - destruct cb. unfold runCallback.
    destruct (isRunning st && negb (aiReady st)); [|exact IH].
    pose proof (initializeAI_modelManager h st) as H.
    destruct (initializeAI h st) as [st1 e1]. cbn [fst] in *. congruence.
  - unfold onInterestsChanged. cbn.
    destruct (aiReady st); exact IH.
Qed.

(** The state after the [AI_LOAD_FAILED] branch, up to the stored status. *)
Lemma load_failed_state : forall h st payload,
  let st' := fst (handleMessage h (AI_LOAD_FAILED payload) st) in
  isRunning st' = isRunning st
  /\ aiReady st' = false
  /\ cachedInterests st' = cachedInterests st
  /\ modelManager st' = modelManager st
  /\ timers st'
     = if isNetworkError (orString payload "") && isRunning st
       then (timers st ++ [(retryDelay, RetryInitializeAI)])%list
       else timers st.
Proof.
  intros h st payload. unfold handleMessage.
  set (st2 := if isNetworkError (orString payload "") && isRunning (setAiReady false st)
              then _ else _).
  pose proof (broadcastStatus_frame h st2) as Hframe.
  destruct (broadcastStatus h st2) as [st3 e3]. cbn [fst] in *.
  destruct Hframe as (H1 & H2 & H3 & H4 & H5 & _).
  rewrite H1, H2, H3, H4, H5. unfold st2. cbn [isRunning setAiReady].
  destruct (isNetworkError (orString payload "") && isRunning st);
    cbn; repeat split; reflexivity.
Qed.

End BackgroundFacts.

(** C8, as the code has it.  The [AI_LOAD_FAILED] branch never changes
    [isRunning]; when the payload is network-classified and curation runs
    it adds exactly one timeout, of 15 seconds, whose callback
    re-initialises the model while curation still runs and the model is
    not ready; otherwise it adds none; and a tweet is then classified by
    the fallback classifier whenever [isModelReady()] is false (as it is
    in every state the service worker reaches) or the provider gives no
    answer. *)
Theorem load_failure_schedules_retry : forall h st payload,
  let st' := fst (Background.handleMessage h (Background.AI_LOAD_FAILED payload) st) in
  Background.isRunning st' = Background.isRunning st
  /\ Background.aiReady st' = false
  /\ (Background.isNetworkError (Background.orString payload "") = true ->
      Background.isRunning st = true ->
      Background.timers st'
      = (Background.timers st ++ [(15000%N, Background.RetryInitializeAI)])%list)
  /\ (Background.isNetworkError (Background.orString payload "")
      && Background.isRunning st = false ->
      Background.timers st' = Background.timers st)
  /\ (forall h' id text,
        Background.isModelReady st = false \/ Background.classifyReply h' = None ->
        fst (Background.classifyTweet h' id text st')
        = Fallback.fallbackClassification text (Background.cachedInterests st))
  /\ (forall h',
        Background.isRunning st = true ->
        Background.offscreenFails h' = false ->
        In (Background.SendMessage Background.PRELOAD_MODEL)
          (snd (Background.runCallback h' Background.RetryInitializeAI st'))).
Proof.
  intros h st payload st'.
  destruct (load_failed_state h st payload) as (Hrun & Hready & Hint & Hmm & Htimers).
  fold st' in Hrun, Hready, Hint, Hmm, Htimers.
  split; [exact Hrun|]. split; [exact Hready|]. split; [|split; [|split]].
  - intros Hnet Hrunning. rewrite Htimers, Hnet, Hrunning. reflexivity.
  - intros Hno. rewrite Htimers, Hno. reflexivity.
  - intros h' id text Hprovider. unfold Background.classifyTweet, Background.isModelReady.
    rewrite Hmm, Hint. fold (Background.isModelReady st).
    destruct Hprovider as [Hflag|Hreply].
    + rewrite Hflag. reflexivity.
    + rewrite Hreply. destruct (Background.isModelReady st); reflexivity.
  - intros h' Hrunning Hok. unfold Background.runCallback.
    rewrite Hrun, Hrunning, Hready. cbn [andb negb].
    pose proof (initializeAI_preload h' st' Hok) as Hin.
    destruct (Background.initializeAI h' st') as [st1 e1]. cbn [snd] in *.
    right. exact Hin.
Qed.

Lemma load_failure_schedules_retry_witness :
  Background.timers
    (fst (Background.handleMessage Samples.onFeed
            (Background.AI_LOAD_FAILED
               (Some "Network error: Check internet connection and try again"))
            Samples.running))
  = [(15000%N, Background.RetryInitializeAI)].
Proof.
  destruct (load_failure_schedules_retry Samples.onFeed Samples.running
              (Some "Network error: Check internet connection and try again"))
    as (_ & _ & Htimers & _).
  exact (Htimers eq_refl eq_refl).
Defined.

(** The retry is due after 15 seconds, not after two minutes. *)
Lemma load_failure_retry_not_two_minutes :
  Background.timers
    (fst (Background.handleMessage Samples.onFeed
            (Background.AI_LOAD_FAILED
               (Some "Network error: Check internet connection and try again"))
            Samples.running))
  = [(15000%N, Background.RetryInitializeAI)]
  /\ ~ In (120000%N, Background.RetryInitializeAI)
        (Background.timers
           (fst (Background.handleMessage Samples.onFeed
                   (Background.AI_LOAD_FAILED
                      (Some "Network error: Check internet connection and try again"))
                   Samples.running))).
Proof.
  split; [reflexivity|].
  intros [H|[]]. discriminate H.
Qed.

(** C9, as the code has it.  [START_CURATION] while curation runs, or
    while the active tab is not an x.com or twitter.com page, changes
    nothing (no flag, no stored key, no alarm, no timer), sends nothing to
    any tab, and answers with the success response. *)
Theorem start_noop_or_silent_refusal : forall h st,
  (Background.isRunning st = true ->
   Background.handleMessage h Background.START_CURATION st
   = (st, [Background.SendResponse (Background.mkResponse true None)]))
  /\ (Background.isRunning st = false ->
      Background.eligible (Background.activeTab h) = false ->
      Background.handleMessage h Background.START_CURATION st
      = (st, [Background.SendResponse (Background.mkResponse true None)])).
Proof.
  intros h st. split.
  - intros Hrun. unfold Background.handleMessage, Background.startCuration.
    rewrite Hrun. reflexivity.
  - intros Hrun Hel. unfold Background.handleMessage, Background.startCuration.
    rewrite Hrun, Hel. reflexivity.
Qed.

Lemma start_noop_or_silent_refusal_witness :
  Background.handleMessage Samples.onFeed Background.START_CURATION Samples.running
  = (Samples.running, [Background.SendResponse (Background.mkResponse true None)])
  /\ Background.handleMessage Samples.awayFromFeed Background.START_CURATION
       Background.initial
     = (Background.initial, [Background.SendResponse (Background.mkResponse true None)]).
Proof.
  split.
  - apply (proj1 (start_noop_or_silent_refusal Samples.onFeed Samples.running)).
    reflexivity.
  - apply (proj2 (start_noop_or_silent_refusal Samples.awayFromFeed Background.initial));
      reflexivity.
Defined.

(** Away from the feed the caller is answered exactly as after a start
    that went through: no response marks the refusal. *)
Lemma start_refusal_not_reported :
  Background.eligible (Background.activeTab Samples.awayFromFeed) = false
  /\ Background.isRunning
       (fst (Background.handleMessage Samples.awayFromFeed Background.START_CURATION
               Background.initial)) = false
  /\ Background.isRunning
       (fst (Background.handleMessage Samples.onFeed Background.START_CURATION
               Background.initial)) = true
  /\ Background.responses
       (snd (Background.handleMessage Samples.awayFromFeed Background.START_CURATION
               Background.initial))
     = Background.responses
         (snd (Background.handleMessage Samples.onFeed Background.START_CURATION
                 Background.initial))
  /\ forallb (fun r => negb (Background.declined r))
       (Background.responses
          (snd (Background.handleMessage Samples.awayFromFeed Background.START_CURATION
                  Background.initial))) = true.
Proof. repeat split; reflexivity. Qed.

(** ** Further properties of the fallback classifier *)

Section FallbackMore.
Import JS Fallback Scoring.

(** Lower-casing either keeps the folded character or moves between two
    characters outside ASCII. *)
Lemma canonicalize_lowerChar : forall c,
  canonicalize (lowerChar c) = canonicalize c
  \/ (128 <= nat_of_ascii (canonicalize (lowerChar c))
      /\ 128 <= nat_of_ascii (canonicalize c)).
Proof.
  intros c. destruct c as [[] [] [] [] [] [] [] []];
    first [left; reflexivity | right; cbv; split; lia].
Qed.

Lemma canonicalize_ascii : forall p,
  nat_of_ascii p < 128 -> nat_of_ascii (canonicalize p) < 128.
Proof.
  intros p. destruct p as [[] [] [] [] [] [] [] []]; cbv; lia.
Qed.

Lemma eqb_canonicalize_lowerChar : forall p c,
  nat_of_ascii p < 128 ->
  Ascii.eqb (canonicalize p) (canonicalize (lowerChar c))
  = Ascii.eqb (canonicalize p) (canonicalize c).
Proof.
  intros p c Hp. apply canonicalize_ascii in Hp.
  destruct (canonicalize_lowerChar c) as [->|[H1 H2]]; [reflexivity|].
  destruct (Ascii.eqb_spec (canonicalize p) (canonicalize (lowerChar c))) as [E1|_];
    [rewrite E1 in Hp; lia|].
  destruct (Ascii.eqb_spec (canonicalize p) (canonicalize c)) as [E2|_];
    [rewrite E2 in Hp; lia | reflexivity].
Qed.

Lemma startsWithIgnoreCase_lower : forall pat s,
  asciiOnly pat = true ->
  startsWithIgnoreCase pat (toLowerCase s) = startsWithIgnoreCase pat s.
Proof.
  induction pat as [|p pat IH]; intros s Hpat.
  - destruct s; reflexivity.
  - unfold asciiOnly in Hpat. cbn [list_ascii_of_string forallb] in Hpat.
    apply andb_prop in Hpat. destruct Hpat as [Hp Hrest].
    apply Nat.ltb_lt in Hp.
    destruct s as [|c s]; [reflexivity|].
    cbn [toLowerCase startsWithIgnoreCase].
    rewrite (eqb_canonicalize_lowerChar p c Hp), (IH s Hrest). reflexivity.
Qed.

Lemma isEngagementBait_lower : forall text,
  isEngagementBait (toLowerCase text) = isEngagementBait text.
Proof.
  intros text. unfold isEngagementBait, baitPrefixes. cbn [existsb].
  rewrite !startsWithIgnoreCase_lower by reflexivity. reflexivity.
Qed.

End FallbackMore.

(** X1.  For a text of code units below 256 (the strings of this
    development: ASCII and Latin-1) the fallback classification does not
    depend on the case of the text: the text and its lower-cased form get
    the same result.  Beyond Latin-1 this fails: the bait pattern is
    matched with [/i] on the original text, and U+212A lower-cases to "k"
    without being matched by it. *)
Theorem fallback_ignores_text_case : forall text interests,
  Fallback.fallbackClassification (JS.Str (JS.toLowerCase text)) interests
  = Fallback.fallbackClassification (JS.Str text) interests.
Proof.
  intros text interests. unfold Fallback.fallbackClassification.
  rewrite toLowerCase_idempotent, isEngagementBait_lower. reflexivity.
Qed.

Section BestInterest.
Import JS Fallback Scoring.

Lemma Qgtb_true : forall x y, Qgtb x y = true <-> (y < x)%Q.
Proof.
  intros x y. unfold Qgtb. destruct (Qlt_le_dec y x) as [Hlt|Hle]; split; intros H;
    try reflexivity; try assumption; try discriminate.
  exfalso. apply (Qlt_irrefl x). apply (Qle_lt_trans _ y); assumption.
Qed.

Lemma Qgtb_false : forall x y, Qgtb x y = false <-> (x <= y)%Q.
Proof.
  intros x y. unfold Qgtb. destruct (Qlt_le_dec y x) as [Hlt|Hle]; split; intros H;
    try reflexivity; try assumption; try discriminate.
  exfalso. apply (Qlt_irrefl x). apply (Qle_lt_trans _ y); assumption.
Qed.

(** The loop invariant: the best score bounds the scores seen so far and,
    when positive, belongs to the interest kept with it. *)
Lemma interestLoop_invariant : forall lowerText interests seen bestMatch bestScore m s,
  (forall j, In j seen -> (interestScore lowerText j <= bestScore)%Q) ->
  (0 <= bestScore)%Q ->
  ((0 < bestScore)%Q ->
   exists i, bestMatch = Some i /\ In i seen /\ bestScore = interestScore lowerText i) ->
  interestLoop lowerText interests bestMatch bestScore = inr (m, s) ->
  (forall j, In j (seen ++ interests)%list -> (interestScore lowerText j <= s)%Q)
  /\ (0 <= s)%Q
  /\ ((0 < s)%Q ->
      exists i, m = Some i /\ In i (seen ++ interests)%list
                /\ s = interestScore lowerText i).
Proof.
  intros lowerText interests.
  induction interests as [|interest rest IH];
    intros seen bestMatch bestScore m s Hmax Hpos Hbest Hloop.
  - cbn in Hloop. injection Hloop as <- <-. rewrite app_nil_r. auto.
  - cbn [interestLoop] in Hloop.
    destruct (includes lowerText (toLowerCase interest)); [discriminate|].
    fold (interestScore lowerText interest) in Hloop.
    replace (seen ++ interest :: rest)%list with ((seen ++ [interest]) ++ rest)%list
      by (rewrite <- app_assoc; reflexivity).
    destruct (Qgtb (interestScore lowerText interest) bestScore) eqn:Hgt.
    + apply Qgtb_true in Hgt.
      apply (IH (seen ++ [interest])%list (Some interest)
                (interestScore lowerText interest) m s); [| |  |exact Hloop].
      * intros j Hj. apply in_app_or in Hj. destruct Hj as [Hj|[<-|[]]].
        -- apply Qle_trans with bestScore; [apply Hmax; exact Hj|].
           apply Qlt_le_weak. exact Hgt.
        -- apply Qle_refl.
      * apply Qle_trans with bestScore; [exact Hpos | apply Qlt_le_weak; exact Hgt].
      * intros _. exists interest. split; [reflexivity|]. split; [|reflexivity].
        apply in_or_app. right. left. reflexivity.
    + apply Qgtb_false in Hgt.
      apply (IH (seen ++ [interest])%list bestMatch bestScore m s); [| | |exact Hloop].
      * intros j Hj. apply in_app_or in Hj. destruct Hj as [Hj|[<-|[]]].
        -- apply Hmax. exact Hj.
        -- exact Hgt.
      * exact Hpos.
      * intros H0. destruct (Hbest H0) as (i & Hi & Hin & Hs).
        exists i. split; [exact Hi|]. split; [|exact Hs].
        apply in_or_app. left. exact Hin.
Qed.

End BestInterest.

(** X2.  When the loop over the interests finds no direct match, the
    score it leaves is the greatest score of the list, and a positive
    score comes with an interest of the list that has this score: the
    "Semantic match" reason never names [null]. *)
Theorem interestLoop_best : forall text interests bestMatch bestScore,
  Fallback.interestLoop (JS.toLowerCase text) interests None 0%Q
  = inr (bestMatch, bestScore) ->
  (forall j, In j interests ->
     (Scoring.interestScore (JS.toLowerCase text) j <= bestScore)%Q)
  /\ ((0 < bestScore)%Q ->
      exists i, bestMatch = Some i /\ In i interests
                /\ bestScore = Scoring.interestScore (JS.toLowerCase text) i).
Proof.
  intros text interests bestMatch bestScore Hloop.
  destruct (interestLoop_invariant (JS.toLowerCase text) interests [] None 0%Q
              bestMatch bestScore) as (Hmax & _ & Hbest).
  - intros j [].
  - apply Qle_refl.
  - intros H. exfalso. apply (Qlt_irrefl 0%Q). exact H.
  - exact Hloop.
  - split; assumption.
Qed.

Lemma interestLoop_best_witness :
  (Scoring.interestScore (JS.toLowerCase "Latest AI news") "machine learning" <= 2 # 2)%Q.
Proof.
  apply (proj1 (interestLoop_best "Latest AI news"
                  ["machine learning"; "artificial intelligence"]
                  (Some "artificial intelligence") (2 # 2)%Q eq_refl)).
  left. reflexivity.
Defined.

(** X3.  An empty string among the interests matches every text: unless
    a spam keyword decides, the item is kept as a direct match. *)
Theorem fallback_empty_interest_keeps_all : forall text interests,
  In "" interests ->
  (forall keyword, In keyword Fallback.spamKeywords ->
     JS.includes (JS.toLowerCase text) keyword = false) ->
  exists interest,
    In interest interests
    /\ Fallback.fallbackClassification (JS.Str text) interests
       = mkResult false ("Direct match: " ++ interest).
Proof.
  intros text interests Hin Hspam.
  rewrite fallback_tier2. unfold Tier2Rules.tier2. cbn [Tier2Rules.firstMatch].
  unfold Tier2Rules.spamRule.
  destruct (find (fun keyword => JS.includes (JS.toLowerCase text) keyword)
              Fallback.spamKeywords) as [k|] eqn:Ek.
  { apply find_some in Ek. destruct Ek as [Hk Hinc].
    rewrite (Hspam k Hk) in Hinc. discriminate. }
  cbn [option_map]. unfold Tier2Rules.directRule.
  destruct (find (fun interest => JS.includes (JS.toLowerCase text) (JS.toLowerCase interest))
              interests) as [i|] eqn:Ei.
  - apply find_some in Ei. exists i. split; [apply Ei | reflexivity].
  - exfalso. apply (find_none _ _ Ei) in Hin. cbn in Hin.
    rewrite includes_empty in Hin. discriminate.
Qed.

Lemma fallback_empty_interest_keeps_all_witness :
  exists interest,
    In interest ["finance"; ""]
    /\ Fallback.fallbackClassification (JS.Str "What I had for breakfast") ["finance"; ""]
       = mkResult false ("Direct match: " ++ interest).
Proof.
  apply fallback_empty_interest_keeps_all.
  - simpl. tauto.
  - intros keyword Hk. simpl in Hk.
    repeat (destruct Hk as [<-|Hk]; [reflexivity|]). destruct Hk.
Defined.

(** ** Further properties of the similarity classifier *)

Section SimilarityMore.
Import JS Offscreen Similarity.
Local Open Scope R_scope.

Lemma dot_comm : forall a b, dot a b = dot b a.
Proof.
  induction a as [|x a IH]; intros [|y b]; simpl; try reflexivity.
  rewrite IH. ring.
Qed.

Lemma embedAll_app : forall c l1 l2 e1 e2,
  embedAll c l1 = Return e1 ->
  embedAll c l2 = Return e2 ->
  embedAll c (l1 ++ l2)%list = Return (e1 ++ e2)%list.
Proof.
  intros c. induction l1 as [|x l1 IH]; intros l2 e1 e2 H1 H2; simpl in *.
  - injection H1 as <-. exact H2.
  - destruct (c x) as [v|e]; [|discriminate].
    destruct (embedAll c l1) as [l|e] eqn:El; [|discriminate].
    injection H1 as <-. rewrite (IH l2 l e2 eq_refl H2). reflexivity.
Qed.

Lemma embedAll_app_inv : forall c l1 l2 e,
  embedAll c (l1 ++ l2)%list = Return e ->
  exists e1 e2, embedAll c l1 = Return e1 /\ embedAll c l2 = Return e2
                /\ e = (e1 ++ e2)%list.
Proof.
  intros c. induction l1 as [|x l1 IH]; intros l2 e H; simpl in *.
  - exists [], e. auto.
  - destruct (c x) as [v|err]; [|discriminate].
    destruct (embedAll c (l1 ++ l2)%list) as [l|err] eqn:El; [|discriminate].
    injection H as <-. destruct (IH l2 l El) as (e1 & e2 & H1 & H2 & ->).
    rewrite H1. exists (mkInterestEmbedding x v :: e1), e2. auto.
Qed.

Lemma maxSimLoop_app : forall emb0 l i maxSim,
  maxSimLoop emb0 (l ++ [i])%list maxSim
  = Rmax (maxSimLoop emb0 l maxSim) (cosine emb0 (emb i)).
Proof.
  intros emb0 l i maxSim. unfold maxSimLoop. rewrite fold_left_app. cbn [fold_left].
  apply Rgtb_Rmax.
Qed.

Lemma Rltb_false : forall x y, Rltb x y = false <-> ~ (x < y).
Proof.
  intros x y. unfold Rltb. destruct (Rlt_dec x y); split; intros H;
    try reflexivity; try assumption; try discriminate; contradiction.
Qed.

End SimilarityMore.

(** X6.  [cosine] is symmetric on vectors of one dimension. *)
Theorem cosine_symmetric : forall a b,
  List.length a = List.length b ->
  Offscreen.cosine a b = Offscreen.cosine b a.
Proof.
  intros a b Hlen.
  rewrite (cosine_cosineSimilarity a b Hlen).
  rewrite (cosine_cosineSimilarity b a (eq_sym Hlen)).
  unfold Similarity.cosineSimilarity. rewrite (dot_comm a b).
  rewrite (Rmult_comm (Similarity.norm a)). reflexivity.
Qed.

Lemma cosine_symmetric_witness :
  Offscreen.cosine Samples.unit2 [3; 4]%R = Offscreen.cosine [3; 4]%R Samples.unit2.
Proof. apply cosine_symmetric. reflexivity. Defined.

(** X8.  Adding an interest term to a non-empty interest list never hides
    a tweet that was kept: with the cache recomputed for the longer list,
    a text classified "keep" before is classified "keep" again. *)
Theorem more_interests_never_hide : forall toFixed2 st interests extra text st1 st2 r1 r2,
  interests <> [] ->
  Offscreen.recalcEmbeddings interests st = JS.Return st1 ->
  Offscreen.recalcEmbeddings (interests ++ [extra])%list st = JS.Return st2 ->
  snd (Offscreen.classify toFixed2 st1 text) = JS.Return r1 ->
  snd (Offscreen.classify toFixed2 st2 text) = JS.Return r2 ->
  isUninteresting r1 = false ->
  isUninteresting r2 = false.
Proof.
  intros toFixed2 st interests extra text st1 st2 r1 r2 Hne H1 H2 Hr1 Hr2 Hkeep.
  unfold Offscreen.recalcEmbeddings in H1, H2.
  destruct (Offscreen.classifier st) as [c|] eqn:Hc.
  2:{ injection H1 as <-. injection H2 as <-. congruence. }
  destruct (Offscreen.embedAll c (interests ++ [extra])%list) as [l2|] eqn:E2;
    [|discriminate].
  destruct (embedAll_app_inv c interests [extra] l2 E2) as (e1 & e2 & Ha & Hb & ->).
  rewrite Ha in H1. injection H1 as <-. injection H2 as <-.
  cbn in Hb. destruct (c extra) as [v|]; [|discriminate]. injection Hb as <-.
  assert (He1 : e1 <> []).
  { destruct interests as [|x xs]; [contradiction|]. cbn in Ha.
    destruct (c x); [|discriminate]. destruct (Offscreen.embedAll c xs); [|discriminate].
    injection Ha as <-. discriminate. }
  unfold Offscreen.classify, Offscreen.setInterestEmbeddings in Hr1, Hr2.
  cbn [Offscreen.spamList Offscreen.interestEmbeddings Offscreen.classifier
       Offscreen.threshold] in Hr1, Hr2.
  destruct text as [| | | |s|]; try discriminate.
  destruct (existsb (fun k => JS.includes (JS.toLowerCase s) k) (Offscreen.spamList st)).
  { cbn in Hr1. injection Hr1 as <-. discriminate. }
  destruct e1 as [|i0 rest]; [contradiction|].
  cbn [app] in Hr2. rewrite Hc in Hr1, Hr2.
  destruct (c s) as [emb0|]; [|discriminate].
  cbn [snd] in Hr1, Hr2. injection Hr1 as <-. injection Hr2 as <-.
  cbn [isUninteresting] in *.
  apply Rltb_false in Hkeep. apply Rltb_false.
  change (i0 :: (rest ++ [Offscreen.mkInterestEmbedding extra v]))%list
    with ((i0 :: rest) ++ [Offscreen.mkInterestEmbedding extra v])%list.
  rewrite maxSimLoop_app. intros Hlt. apply Hkeep.
  eapply Rle_lt_trans; [apply Rmax_l | exact Hlt].
Qed.

Lemma more_interests_never_hide_witness :
  isUninteresting
    (mkResult
       (Offscreen.Rltb
          (Offscreen.maxSimLoop Samples.unit2
             [Offscreen.mkInterestEmbedding "ai" Samples.unit2;
              Offscreen.mkInterestEmbedding "music" Samples.unit2] (-1)%R)
          Background.SIM_THRESHOLD)
       "sim=0.00") = false.
Proof.
  apply (more_interests_never_hide Samples.format Samples.configured ["ai"] "music"
           (JS.Str "new chip announced")
           (Offscreen.setInterestEmbeddings Samples.configured
              [Offscreen.mkInterestEmbedding "ai" Samples.unit2])
           (Offscreen.setInterestEmbeddings Samples.configured
              [Offscreen.mkInterestEmbedding "ai" Samples.unit2;
               Offscreen.mkInterestEmbedding "music" Samples.unit2])
           (mkResult
              (Offscreen.Rltb
                 (Offscreen.maxSimLoop Samples.unit2
                    [Offscreen.mkInterestEmbedding "ai" Samples.unit2] (-1)%R)
                 Background.SIM_THRESHOLD)
              "sim=0.00")).
  - discriminate.
  - reflexivity.
  - reflexivity.
  - reflexivity.
  - reflexivity.
  - cbn [isUninteresting]. apply Rltb_false.
    rewrite maxSimLoop_fold. cbn [map fold_left Offscreen.emb].
    rewrite (cosine_cosineSimilarity Samples.unit2 Samples.unit2 eq_refl).
    rewrite cosineSimilarity_self
      by (unfold Samples.unit2; simpl; lra).
    unfold Background.SIM_THRESHOLD, Rmax.
    destruct (Rle_dec (-1) 1); lra.
Defined.

(** ** Further properties of the model manager *)

Section RetryMore.
Import JS ModelManager Retry.

(** The loop from attempt [a] when the first success is at attempt [k]. *)
Lemma retryLoop_success : forall net url n k d a r,
  a + d = k ->
  a + r = n + 1 ->
  1 <= a ->
  k <= n ->
  (forall j, a <= j < k -> failureOf (net j) <> None) ->
  failureOf (net k) = None ->
  retryLoop net url n r a
  = ((flat_map (fun attempt => [Fetch url 30000%N; Sleep (backoff attempt)]) (seq a d)
      ++ [Fetch url 30000%N])%list,
     Return (Some Response)).
Proof.
  intros net url n k d. induction d as [|d IH]; intros a r Had Har Ha Hkn Hfail Hok.
  - assert (a = k) by lia. subst a.
    destruct r as [|r]; [lia|]. cbn [retryLoop]. rewrite Hok. reflexivity.
  - destruct r as [|r]; [lia|]. cbn [retryLoop].
    destruct (failureOf (net a)) as [m|] eqn:Ea; [|exfalso; apply (Hfail a); [lia|exact Ea]].
    destruct (Nat.eqb_spec a n) as [->|_]; [lia|].
    rewrite (IH (S a) r); try lia; [reflexivity | | exact Hok].
    intros j Hj. apply Hfail. lia.
Qed.

(** The loop from attempt [a] when every attempt up to [n] fails. *)
Lemma retryLoop_exhausted : forall net url n m d a r,
  a + d = n ->
  a + r = n + 1 ->
  1 <= a ->
  (forall j, a <= j < n -> failureOf (net j) <> None) ->
  failureOf (net n) = Some m ->
  retryLoop net url n r a
  = ((flat_map (fun attempt => [Fetch url 30000%N; Sleep (backoff attempt)]) (seq a d)
      ++ [Fetch url 30000%N])%list,
     Throw (Error ("Failed to fetch after " ++ showNat n ++ " attempts: " ++ m))).
Proof.
  intros net url n m d. induction d as [|d IH]; intros a r Had Har Ha Hfail Hlast.
  - assert (a = n) by lia. subst a.
    destruct r as [|r]; [lia|]. cbn [retryLoop]. rewrite Hlast, Nat.eqb_refl. reflexivity.
  - destruct r as [|r]; [lia|]. cbn [retryLoop].
    destruct (failureOf (net a)) as [m'|] eqn:Ea; [|exfalso; apply (Hfail a); [lia|exact Ea]].
    destruct (Nat.eqb_spec a n) as [->|_]; [lia|].
    rewrite (IH (S a) r); try lia; [reflexivity | | exact Hlast].
    intros j Hj. apply Hfail. lia.
Qed.

End RetryMore.

(** X9.  For every bound [maxRetries]: [retryFetch] returns the response
    of the first attempt that succeeds, after one fetch per attempt and a
    sleep of 2^(attempt-1) seconds after each failed one; when all
    [maxRetries] attempts fail it throws the message of the last failure
    without a final sleep; and with [maxRetries = 0] it fetches nothing
    and resolves with [undefined]. *)
Theorem retryFetch_first_success : forall net url maxRetries,
  (forall k,
     1 <= k <= maxRetries ->
     (forall j, 1 <= j < k -> ModelManager.failureOf (net j) <> None) ->
     ModelManager.failureOf (net k) = None ->
     ModelManager.retryFetch net url maxRetries
     = (Retry.probeTrace url k, JS.Return (Some ModelManager.Response)))
  /\ (forall m,
        1 <= maxRetries ->
        (forall j, 1 <= j < maxRetries -> ModelManager.failureOf (net j) <> None) ->
        ModelManager.failureOf (net maxRetries) = Some m ->
        ModelManager.retryFetch net url maxRetries
        = (Retry.probeTrace url maxRetries,
           JS.Throw (JS.Error ("Failed to fetch after " ++ JS.showNat maxRetries
                               ++ " attempts: " ++ m))))
  /\ (maxRetries = 0 ->
      ModelManager.retryFetch net url maxRetries = ([], JS.Return None)).
Proof.
  intros net url maxRetries. split; [|split].
  - intros k Hk Hfail Hok. unfold ModelManager.retryFetch, Retry.probeTrace.
    apply (retryLoop_success net url maxRetries k (k - 1) 1 maxRetries);
      try lia; assumption.
  - intros m Hn Hfail Hlast. unfold ModelManager.retryFetch, Retry.probeTrace.
    apply (retryLoop_exhausted net url maxRetries m (maxRetries - 1) 1 maxRetries);
      try lia; assumption.
  - intros ->. reflexivity.
Qed.

Lemma retryFetch_first_success_witness :
  ModelManager.retryFetch
    (fun attempt => if (attempt <? 4)%nat
                    then ModelManager.FetchStatus 503 "Service Unavailable"
                    else ModelManager.FetchOk)
    ModelManager.probeUrl 5
  = (Retry.probeTrace ModelManager.probeUrl 4, JS.Return (Some ModelManager.Response)).
Proof.
  apply (proj1 (retryFetch_first_success _ ModelManager.probeUrl 5) 4).
  - lia.
  - intros j Hj.
    assert (Hlt : (j <? 4)%nat = true) by (apply Nat.ltb_lt; lia).
    rewrite Hlt. discriminate.
  - reflexivity.
Defined.

Section MemoMore.
Import JS ModelManager.

Lemma settle_not_pending : forall h st p,
  loadPromise st = Some p -> isPending st p = false -> settle h st = (st, []).
Proof. intros h st p Hmemo Hp. unfold settle. rewrite Hmemo, Hp. reflexivity. Qed.

Lemma fulfilled_not_pending : forall st p pipe,
  nth_error (attempts st) p = Some (Fulfilled pipe) -> isPending st p = false.
Proof. intros st p pipe H. unfold isPending. rewrite H. reflexivity. Qed.

Lemma consistent_initial : Memo.consistent initial.
Proof.
  split; [|split].
  - split; [discriminate|]. intros (p & pipe & H & _). discriminate.
  - intros p H. discriminate.
  - intros q H. cbn in H. lia.
Qed.

Lemma consistent_acquire : forall st,
  Memo.consistent st -> Memo.consistent (snd (getMiniLMPipeline st)).
Proof.
  intros st Hc. pose proof Hc as (Hflag & Hmemo & Hrest). unfold getMiniLMPipeline.
  destruct (loadPromise st) as [p|] eqn:E; [exact Hc|].
  cbn [snd]. split; [|split]; cbn [modelReady loadPromise attempts].
  - split.
    + intros H. apply Hflag in H. destruct H as (p & pipe & H & _). discriminate.
    + intros (p & pipe & Hp & Hnth). injection Hp as <-.
      rewrite nth_error_app2, Nat.sub_diag in Hnth by lia. discriminate.
  - intros p Hp. injection Hp as <-. left.
    rewrite nth_error_app2, Nat.sub_diag by lia. reflexivity.
  - intros q Hq Hne. rewrite length_app in Hq. cbn in Hq.
    assert (Hlt : q < List.length (attempts st)).
    { destruct (Nat.eq_dec q (List.length (attempts st))) as [->|]; [|lia].
      exfalso. apply Hne. reflexivity. }
    rewrite nth_error_app1 by exact Hlt. apply Hrest; [exact Hlt | discriminate].
Qed.

Lemma consistent_settle : forall h st,
  Memo.consistent st -> Memo.consistent (fst (settle h st)).
Proof.
  intros h st Hc. pose proof Hc as (Hflag & Hmemo & Hrest). unfold settle.
  destruct (loadPromise st) as [p|] eqn:E; [|exact Hc].
  destruct (isPending st p) eqn:Hp; [|exact Hc].
  pose proof (isPending_lt st p Hp) as Hlt.
  assert (Hold : forall a q, q <> p -> q < List.length (attempts st) ->
            exists e, nth_error (setNth p a (attempts st)) q = Some (Rejected e)).
  { intros a q Hne Hq. rewrite nth_error_setNth.
    destruct (Nat.eqb_spec q p) as [Heq|_]; [contradiction|].
    apply Hrest; [exact Hq | congruence]. }
  assert (Hnew : forall a, nth_error (setNth p a (attempts st)) p = Some a).
  { intros a. rewrite nth_error_setNth, Nat.eqb_refl.
    destruct (nth_error (attempts st) p) eqn:En; [reflexivity|].
    apply nth_error_None in En. lia. }
  destruct (loadBody h) as [trace [pipe|err]]; cbn [fst];
    (split; [|split]); cbn [modelReady loadPromise attempts].
  - split; [|reflexivity]. intros _. exists p, pipe. split; [reflexivity | apply Hnew].
  - intros p' Hp'. injection Hp' as <-. right. exists pipe. apply Hnew.
  - intros q Hq Hne. rewrite length_setNth in Hq. apply Hold; [congruence | exact Hq].
  - split.
    + intros Hready. apply Hflag in Hready. destruct Hready as (p' & pipe & Hp' & Hnth).
      injection Hp' as <-. unfold isPending in Hp. rewrite Hnth in Hp. discriminate.
    + intros (p' & pipe & Hp' & _). discriminate.
  - intros p' Hp'. discriminate.
  - intros q Hq _. rewrite length_setNth in Hq.
    destruct (Nat.eq_dec q p) as [->|Hne].
    + exists err. apply Hnew.
    + apply Hold; assumption.
Qed.

Lemma loadBody_failure_reported : forall h trace err,
  loadBody h = (trace, Throw err) ->
  exists before,
    trace = (before ++ [SendLoadFailed (errorMessage (messageOf err))])%list.
Proof.
  intros h trace err H. unfold loadBody in H.
  destruct (tryLoad h) as [tr [pipe|e]]; [discriminate|].
  injection H as <- <-. exists tr. reflexivity.
Qed.

Lemma errorMessage_nonempty_network : forall m,
  includes m "fetch" = true \/ includes m "timeout" = true ->
  Background.orString (Some (errorMessage m)) "" = errorMessage m
  /\ Background.isNetworkError (errorMessage m) = true.
Proof.
  intros m H. unfold errorMessage.
  destruct (includes m "fetch"); [split; reflexivity|].
  destruct H as [H|H]; [discriminate|]. rewrite H. split; reflexivity.
Qed.

End MemoMore.

(** X10.  In every state the event loop reaches, [modelReady] is true
    exactly when the memoized promise is fulfilled, the memoized promise
    is pending or fulfilled, and every promise that is not memoized has
    been rejected: no failed attempt stays memoized and no successful one
    is dropped. *)
Theorem memo_consistent : forall history,
  Memo.consistent (ModelManager.run history ModelManager.initial).
Proof.
  intros history.
  assert (H : forall es st, Memo.consistent st -> Memo.consistent (ModelManager.run es st)).
  { induction es as [|e es IH]; intros st Hc; [exact Hc|].
    cbn [ModelManager.run fold_left]. apply IH. destruct e; cbn [ModelManager.step].
    - apply consistent_acquire. exact Hc.
    - apply consistent_settle. exact Hc. }
  apply H. apply consistent_initial.
Qed.

(** X11.  A successful load is never repeated: once the memoized promise
    is fulfilled, no later call or settlement changes the state, and every
    call returns that promise. *)
Theorem loaded_model_is_kept : forall st p pipe,
  ModelManager.loadPromise st = Some p ->
  nth_error (ModelManager.attempts st) p = Some (ModelManager.Fulfilled pipe) ->
  forall later,
    ModelManager.run later st = st
    /\ ModelManager.getMiniLMPipeline (ModelManager.run later st) = (p, st).
Proof.
  intros st p pipe Hmemo Hnth later.
  assert (Hrun : ModelManager.run later st = st).
  { induction later as [|e later IH]; [reflexivity|].
    cbn [ModelManager.run fold_left]. destruct e; cbn [ModelManager.step].
    - rewrite (acquire_memoized st p Hmemo). exact IH.
    - rewrite (settle_not_pending h st p Hmemo (fulfilled_not_pending st p pipe Hnth)).
      exact IH. }
  split; [exact Hrun|]. rewrite Hrun. apply acquire_memoized. exact Hmemo.
Qed.

Lemma loaded_model_is_kept_witness :
  ModelManager.run [ModelManager.Acquire; ModelManager.Settle Samples.offline;
                    ModelManager.Acquire]
    (ModelManager.run [ModelManager.Acquire; ModelManager.Settle Samples.online]
       ModelManager.initial)
  = ModelManager.run [ModelManager.Acquire; ModelManager.Settle Samples.online]
      ModelManager.initial.
Proof.
  apply (loaded_model_is_kept
           (ModelManager.run [ModelManager.Acquire; ModelManager.Settle Samples.online]
              ModelManager.initial) 0 Samples.pipe eq_refl eq_refl).
Defined.

(** X12.  A load attempt that fails with a message mentioning "fetch" or
    "timeout" (an exhausted probe, the two-minute download timeout) ends
    by sending an [AI_LOAD_FAILED] payload that makes the orchestrator,
    while curation runs, schedule the deferred retry. *)
Theorem network_failures_are_retried : forall h trace err hb st,
  ModelManager.loadBody h = (trace, JS.Throw err) ->
  JS.includes (ModelManager.messageOf err) "fetch" = true
  \/ JS.includes (ModelManager.messageOf err) "timeout" = true ->
  Background.isRunning st = true ->
  exists before payload,
    trace = (before ++ [ModelManager.SendLoadFailed payload])%list
    /\ Background.timers
         (fst (Background.handleMessage hb (Background.AI_LOAD_FAILED (Some payload)) st))
       = (Background.timers st
          ++ [(Background.retryDelay, Background.RetryInitializeAI)])%list.
Proof.
  intros h trace err hb st Hbody Hmsg Hrun.
  destruct (loadBody_failure_reported h trace err Hbody) as [before Htrace].
  destruct (errorMessage_nonempty_network (ModelManager.messageOf err) Hmsg)
    as [Hpayload Hnet].
  exists before, (ModelManager.errorMessage (ModelManager.messageOf err)).
  split; [exact Htrace|].
  destruct (load_failed_state hb st
              (Some (ModelManager.errorMessage (ModelManager.messageOf err))))
    as (_ & _ & _ & _ & Htimers).
  rewrite Htimers, Hpayload, Hnet, Hrun. reflexivity.
Qed.

Lemma network_failures_are_retried_witness :
  exists before payload,
    fst (ModelManager.loadBody MoreSamples.slow)
    = (before ++ [ModelManager.SendLoadFailed payload])%list
    /\ Background.timers
         (fst (Background.handleMessage Samples.onFeed
                 (Background.AI_LOAD_FAILED (Some payload)) Samples.running))
       = (Background.timers Samples.running
          ++ [(Background.retryDelay, Background.RetryInitializeAI)])%list.
Proof.
  apply (network_failures_are_retried MoreSamples.slow
           (fst (ModelManager.loadBody MoreSamples.slow))
           (JS.Error "Model download timeout (2 minutes)")
           Samples.onFeed Samples.running).
  - reflexivity.
  - right. reflexivity.
  - reflexivity.
Defined.

(** ** Further properties of the orchestrator *)

Section FrameFacts.
Import JS Background Frame.

Lemma broadcastStatus_core : forall h st, core (fst (broadcastStatus h st)) = core st.
Proof.
  intros h st. unfold broadcastStatus.
  destruct (statusDelivered h && negb (storageFails h)); reflexivity.
Qed.

Lemma initializeAI_core : forall h st, core (fst (initializeAI h st)) = core st.
Proof.
  intros h st. unfold initializeAI.
  pose proof (broadcastStatus_core h st) as H1.
  destruct (broadcastStatus h st) as [st1 e1]. cbn [fst] in H1.
  pose proof (broadcastStatus_core h st1) as H2.
  destruct (broadcastStatus h st1) as [st2 e2]. cbn [fst] in H2.
  destruct (offscreenFails h); cbn [fst]; congruence.
Qed.

Lemma forwardToTab_core : forall h d t st, core (fst (forwardToTab h d t st)) = core st.
Proof.
  intros h d t st. unfold forwardToTab.
  destruct ((tabId t =? 0)%nat || discarded t || negb (complete t)); [reflexivity|].
  destruct (pingError (answers h (tabId t))) as [m|];
    [|destruct (sendError (answers h (tabId t))) as [m|]; [|reflexivity]];
    destruct (connectionError m); try reflexivity;
    destruct (injectOk (answers h (tabId t)) && resendOk (answers h (tabId t)));
    try reflexivity;
    destruct (injectOk (answers h (tabId t))); reflexivity.
Qed.

Lemma forwardToTabs_core : forall h d tabs st,
  core (fst (forwardToTabs h d tabs st)) = core st.
Proof.
  intros h d tabs. induction tabs as [|t rest IH]; intros st; [reflexivity|].
  cbn [forwardToTabs].
  pose proof (forwardToTab_core h d t st) as H1.
  destruct (forwardToTab h d t st) as [st1 e1]. cbn [fst] in H1.
  pose proof (IH st1) as H2.
  destruct (forwardToTabs h d rest st1) as [st2 e2]. cbn [fst] in *. congruence.
Qed.

Lemma steady_core : forall st st', core st' = core st -> steady st -> steady st'.
Proof.
  intros st st' H [Hlog Hrun]. unfold core in H.
  injection H as H1 H2 H3 H4 H5 H6. unfold steady.
  rewrite H1, H2, H3, H4. split; assumption.
Qed.

Lemma steady_stopped : forall st st',
  isRunning st' = false -> curationLog st' = curationLog st -> steady st -> steady st'.
Proof.
  intros st st' Hrun Hlog [Hbound _]. unfold steady. rewrite Hrun, Hlog.
  split; [exact Hbound | discriminate].
Qed.

Lemma startCuration_steady : forall h st,
  steady st -> steady (fst (fst (startCuration h st))).
Proof.
  intros h st Hst. unfold startCuration.
  destruct (isRunning st) eqn:Hrun; [exact Hst|].
  destruct (negb (eligible (activeTab h))); [exact Hst|].
  set (id := match activeTab h with Some t => tabId t | None => 0 end).
  assert (Hgo : forall e0,
            steady (fst (fst
              (let st1 := setIsRunning true st in
               if storageFails h
               then (setIsRunning false st1, e0, @Throw unit storageError)
               else
                 let st2 := setKeepAlive true (setStoredIsRunning true st1) in
                 let '(st3, e3) :=
                   if aiReady st2 then startContentScript h st2 else initializeAI h st2 in
                 let '(st4, e4) := broadcastStatus h st3 in
                 (st4, (e0 ++ e3 ++ e4)%list, Return tt))))).
  { intros e0. cbv zeta. destruct (storageFails h).
    - cbn [fst]. apply (steady_stopped st); [reflexivity | reflexivity | exact Hst].
    - set (st2 := setKeepAlive true (setStoredIsRunning true (setIsRunning true st))).
      assert (H3 : core (fst (if aiReady st2 then startContentScript h st2
                              else initializeAI h st2)) = core st2).
      { destruct (aiReady st2);
          [apply (forwardToTabs_core h START (feedTabs h) st2)
          | apply (initializeAI_core h st2)]. }
      destruct (if aiReady st2 then startContentScript h st2 else initializeAI h st2)
        as [st3 e3]. cbn [fst] in H3.
      pose proof (broadcastStatus_core h st3) as H4.
      destruct (broadcastStatus h st3) as [st4 e4]. cbn [fst] in *.
      apply (steady_core st2); [congruence|].
      destruct Hst as [Hlog _]. split; [exact Hlog|]. intros _. split; reflexivity. }
  destruct (pingError (answers h id)); [destruct (injectOk (answers h id))|];
    [apply Hgo | exact Hst | apply Hgo].
Qed.

Lemma stopCuration_steady : forall h st,
  steady st -> steady (fst (stopCuration h st)).
Proof.
  intros h st Hst. unfold stopCuration.
  destruct (negb (isRunning st)); [exact Hst|].
  destruct (storageFails h).
  - cbn [fst]. apply (steady_stopped st); [reflexivity | reflexivity | exact Hst].
  - set (st2 := setKeepAlive false (setStoredIsRunning false (setIsRunning false st))).
    pose proof (forwardToTabs_core h STOP (feedTabs h) st2) as H3.
    unfold stopContentScript, forwardToContentScript.
    destruct (forwardToTabs h STOP (feedTabs h) st2) as [st3 e3]. cbn [fst] in H3.
    pose proof (broadcastStatus_core h st3) as H4.
    destruct (broadcastStatus h st3) as [st4 e4]. cbn [fst] in *.
    apply (steady_core st2); [congruence|].
    apply (steady_stopped st); [reflexivity | reflexivity | exact Hst].
Qed.

Lemma report_steady : forall h id text hidden why st,
  steady st -> steady (fst (report h id text hidden why st)).
Proof.
  intros h id text hidden why st [Hlog Hrun]. unfold report.
  set (st1 := setCurationLog _ st).
  assert (H1 : steady st1).
  { split; [|exact Hrun]. unfold st1. cbn [curationLog setCurationLog].
    apply logLine_bound. exact Hlog. }
  destruct hidden; [|exact H1].
  unfold forwardToContentScript.
  pose proof (forwardToTabs_core h (MARK_TWEET id true) (feedTabs h) st1) as H2.
  destruct (forwardToTabs h (MARK_TWEET id true) (feedTabs h) st1) as [st2 e2].
  cbn [fst] in *. apply (steady_core st1); assumption.
Qed.

Lemma handleMessage_steady : forall h m st,
  steady st -> steady (fst (handleMessage h m st)).
Proof.
  intros h m st Hst. destruct m; cbn [handleMessage].
  - pose proof (startCuration_steady h st Hst) as H.
    destruct (startCuration h st) as [[st1 e1] [u|err]]; exact H.
  - pose proof (stopCuration_steady h st Hst) as H.
    destruct (stopCuration h st) as [st1 e1]. exact H.
  - exact Hst.
  - destruct (isRunning st); [|exact Hst].
    destruct (classifyTweet h id text st) as [r e1].
    pose proof (report_steady h id text (isUninteresting r) (reason r) st Hst) as H.
    destruct (report h id text (isUninteresting r) (reason r) st) as [st2 e2]. exact H.
  - pose proof (broadcastStatus_core h (setAiReady true st)) as H2.
    destruct (broadcastStatus h (setAiReady true st)) as [st2 e2]. cbn [fst] in H2.
    change (core (setAiReady true st)) with (core st) in H2.
    destruct (isRunning st2).
    + pose proof (forwardToTabs_core h START (feedTabs h) st2) as H3.
      unfold startContentScript, forwardToContentScript.
      destruct (forwardToTabs h START (feedTabs h) st2) as [st3 e3].
      cbn [fst] in *. apply (steady_core st); [congruence | exact Hst].
    + cbn [fst]. apply (steady_core st); assumption.
  - destruct (isRunning st); [|exact Hst].
    pose proof (report_steady h id text isUninteresting0 reason0 st Hst) as H.
    destruct (report h id text isUninteresting0 reason0 st) as [st1 e1]. exact H.
  - exact Hst.
  - set (st2 := if isNetworkError (orString payload "") && isRunning (setAiReady false st)
                then _ else _).
    assert (H2 : core st2 = core st)
      by (unfold st2; destruct (isNetworkError _ && _); reflexivity).
    pose proof (broadcastStatus_core h st2) as H3.
    destruct (broadcastStatus h st2) as [st3 e3]. cbn [fst] in *.
    apply (steady_core st); [congruence | exact Hst].
  - destruct (isRunning st); [|exact Hst].
    pose proof (broadcastStatus_core h (setAiReady false st)) as H2.
    destruct (broadcastStatus h (setAiReady false st)) as [st2 e2]. cbn [fst] in H2.
    change (core (setAiReady false st)) with (core st) in H2.
    pose proof (initializeAI_core h st2) as H3.
    destruct (initializeAI h st2) as [st3 e3]. cbn [fst] in *.
    apply (steady_core st); [congruence | exact Hst].
  - exact Hst.
Qed.

End FrameFacts.

(** X13.  In every state the service worker reaches, through messages,
    timeouts, storage changes, startup, installation and tab events, the
    stored decision log holds at most 2000 entries, and while curation
    runs the keep-alive alarm is armed and the running flag is stored. *)
Theorem orchestrator_steady : forall st,
  Lifecycle.reachable st ->
  List.length (DecisionLog.contents (Background.curationLog st)) <= 2000
  /\ (Background.isRunning st = true ->
      Background.keepAlive st = true /\ Background.storedIsRunning st = Some true).
Proof.
  intros st Hreach. change 2000 with DecisionLog.capacity.
  change (Frame.steady st).
  assert (Hstart : forall h read st0,
            Frame.steady st0 -> Frame.steady (fst (Lifecycle.onStartup h read st0))).
  { intros h read st0 H0. unfold Lifecycle.onStartup.
    destruct (Background.storageFails h).
    - cbn [fst]. apply (steady_stopped st0); [reflexivity | reflexivity | exact H0].
    - pose proof (broadcastStatus_core h
                    (Lifecycle.initializeCachedInterests read
                       (Lifecycle.storeStopped (Lifecycle.resetFlags st0)))) as Hb.
      destruct (Background.broadcastStatus h _) as [st1 e1]. cbn [fst] in *.
      apply (steady_stopped st0); [| |exact H0].
      + apply (f_equal (fun c => fst (fst (fst (fst (fst c)))))) in Hb. exact Hb.
      + apply (f_equal (fun c => snd (fst (fst (fst c))))) in Hb. exact Hb. }
  induction Hreach as [|h m st Hreach IH|h cb st Hreach IH|v st Hreach IH
                       |h read st Hreach IH|h read st Hreach IH
                       |tabId st Hreach IH|tabId loading st Hreach IH].
  - split; [cbn; lia | discriminate].
  - apply handleMessage_steady. exact IH.
  - destruct cb. unfold Background.runCallback.
    destruct (Background.isRunning st && negb (Background.aiReady st)); [|exact IH].
    pose proof (initializeAI_core h st) as H.
    destruct (Background.initializeAI h st) as [st1 e1]. cbn [fst] in *.
    apply (steady_core st); assumption.
  - unfold Background.onInterestsChanged.
    destruct (Background.aiReady _); cbn [fst]; exact IH.
  - apply Hstart. exact IH.
  - apply Hstart. exact IH.
  - exact IH.
  - unfold Lifecycle.onTabUpdated. destruct loading; exact IH.
Qed.

Lemma orchestrator_steady_witness :
  Background.keepAlive
    (fst (Background.handleMessage Samples.onFeed Background.START_CURATION
            Background.initial)) = true
  /\ Background.storedIsRunning
       (fst (Background.handleMessage Samples.onFeed Background.START_CURATION
               Background.initial)) = Some true.
Proof.
  apply (proj2 (orchestrator_steady _
                  (Lifecycle.reach_message Samples.onFeed Background.START_CURATION
                     Background.initial Lifecycle.reach_initial))).
  reflexivity.
Defined.

Section EffectFacts.
Import JS Background Frame.

Lemma responses_app : forall l1 l2,
  responses (l1 ++ l2)%list = (responses l1 ++ responses l2)%list.
Proof. intros l1 l2. unfold responses. apply flat_map_app. Qed.

Lemma broadcastStatus_responses : forall h st,
  responses (snd (broadcastStatus h st)) = [].
Proof.
  intros h st. unfold broadcastStatus.
  destruct (statusDelivered h && negb (storageFails h)); reflexivity.
Qed.

Lemma initializeAI_responses : forall h st, responses (snd (initializeAI h st)) = [].
Proof.
  intros h st. unfold initializeAI.
  pose proof (broadcastStatus_responses h st) as H1.
  destruct (broadcastStatus h st) as [st1 e1]. cbn [snd] in H1.
  pose proof (broadcastStatus_responses h st1) as H2.
  destruct (broadcastStatus h st1) as [st2 e2]. cbn [snd] in H2.
  destruct (offscreenFails h), (offscreenExists h); cbn [snd];
    rewrite !responses_app, H1, H2; reflexivity.
Qed.

(** What one tab can be sent: pings, the directive, and only if the tab
    is ready. *)
Lemma forwardToTab_effects : forall h d t st e,
  In e (snd (forwardToTab h d t st)) ->
  readyTab t = true
  /\ (e = TabsSendMessage (tabId t) PING \/ e = TabsSendMessage (tabId t) d
      \/ e = ExecuteScript (tabId t)).
Proof.
  intros h d t st e. unfold forwardToTab, readyTab.
  destruct ((tabId t =? 0)%nat || discarded t || negb (complete t)); [intros []|].
  intros Hin. split; [reflexivity|].
  destruct (pingError (answers h (tabId t))) as [m|];
    [|destruct (sendError (answers h (tabId t))) as [m|]];
    try destruct (connectionError m);
    try destruct (injectOk (answers h (tabId t)));
    try destruct (resendOk (answers h (tabId t)));
    cbn in Hin; intuition (subst; auto).
Qed.

(** What one tab is sent, counted: one ping, the directive at most
    twice, at most one injection, and nothing to another tab. *)
Lemma forwardToTab_counts : forall h d t st id,
  d <> PING ->
  let effects := snd (forwardToTab h d t st) in
  let mine := if (tabId t =? id)%nat then 1 else 0 in
  List.length (filter (isPingTo id) effects) <= mine
  /\ List.length (filter (isDirectiveTo d id) effects) <= 2 * mine
  /\ List.length (filter (isInjectionInto id) effects) <= mine.
Proof.
  intros h d t st id Hd. cbv zeta. unfold forwardToTab.
  destruct ((tabId t =? 0)%nat || discarded t || negb (complete t));
    [cbn; destruct (tabId t =? id)%nat; lia|].
  destruct d as [| | |x b]; [contradiction| | |];
    (destruct (pingError (answers h (tabId t))) as [m|];
       [|destruct (sendError (answers h (tabId t))) as [m|]];
     try destruct (connectionError m);
     try destruct (injectOk (answers h (tabId t)));
     try destruct (resendOk (answers h (tabId t)));
     cbn [snd app filter isPingTo isDirectiveTo isInjectionInto directive_eqb andb];
     rewrite ?String.eqb_refl, ?Bool.eqb_reflx, ?andb_true_r, ?andb_false_r;
     destruct (tabId t =? id)%nat; cbn; lia).
Qed.

Lemma forwardToTabs_effects : forall h d tabs st e,
  In e (snd (forwardToTabs h d tabs st)) ->
  exists t, In t tabs /\ readyTab t = true
            /\ (e = TabsSendMessage (tabId t) PING \/ e = TabsSendMessage (tabId t) d
                \/ e = ExecuteScript (tabId t)).
Proof.
  intros h d tabs. induction tabs as [|t rest IH]; intros st e Hin; [destruct Hin|].
  cbn [forwardToTabs] in Hin.
  pose proof (forwardToTab_effects h d t st e) as H1.
  destruct (forwardToTab h d t st) as [st1 e1].
  pose proof (IH st1 e) as H2.
  destruct (forwardToTabs h d rest st1) as [st2 e2]. cbn [snd] in *.
  apply in_app_or in Hin. destruct Hin as [Hin|Hin].
  - exists t. split; [left; reflexivity | apply H1; exact Hin].
  - destruct (H2 Hin) as (t' & Ht' & Hrest). exists t'. split; [right; exact Ht' | exact Hrest].
Qed.

Lemma forwardToTabs_counts : forall h d tabs st id,
  d <> PING ->
  let effects := snd (forwardToTabs h d tabs st) in
  let mine := List.length (filter (fun t => (tabId t =? id)%nat) tabs) in
  List.length (filter (isPingTo id) effects) <= mine
  /\ List.length (filter (isDirectiveTo d id) effects) <= 2 * mine
  /\ List.length (filter (isInjectionInto id) effects) <= mine.
Proof.
  intros h d tabs st id Hd. cbv zeta. revert st.
  induction tabs as [|t rest IH]; intros st; [cbn; lia|].
  cbn [forwardToTabs filter].
  pose proof (forwardToTab_counts h d t st id Hd) as (H1 & H2 & H3).
  destruct (forwardToTab h d t st) as [st1 e1].
  pose proof (IH st1) as (I1 & I2 & I3).
  destruct (forwardToTabs h d rest st1) as [st2 e2]. cbn [snd] in *.
  rewrite !filter_app, !length_app.
  destruct (tabId t =? id)%nat; cbn [List.length] in *; lia.
Qed.

(** Tab ids are unique: at most one tab of the list has a given id. *)
Lemma unique_tab : forall (tabs : list tab) id,
  NoDup (map tabId tabs) ->
  List.length (filter (fun t => (tabId t =? id)%nat) tabs) <= 1.
Proof.
  induction tabs as [|t rest IH]; intros id Hnd; [cbn; lia|].
  cbn [map] in Hnd. inversion Hnd as [|? ? Hnotin Hrest]; subst.
  cbn [filter]. destruct (Nat.eqb_spec (tabId t) id) as [Heq|Hne].
  - cbn [List.length].
    assert (Hnone : filter (fun t0 => (tabId t0 =? id)%nat) rest = []).
    { destruct (filter (fun t0 => (tabId t0 =? id)%nat) rest) as [|t' l] eqn:E;
        [reflexivity|].
      exfalso. apply Hnotin.
      assert (Hin : In t' (filter (fun t0 => (tabId t0 =? id)%nat) rest))
        by (rewrite E; left; reflexivity).
      apply filter_In in Hin. destruct Hin as [Hin Hid].
      apply Nat.eqb_eq in Hid. rewrite Heq, <- Hid. apply in_map. exact Hin. }
    rewrite Hnone. cbn. lia.
  - apply IH. exact Hrest.
Qed.

Lemma forwardToTabs_responses : forall h d tabs st,
  responses (snd (forwardToTabs h d tabs st)) = [].
Proof.
  intros h d tabs st.
  destruct (responses (snd (forwardToTabs h d tabs st))) as [|r rs] eqn:E; [reflexivity|].
  exfalso.
  assert (Hin : In (SendResponse r) (snd (forwardToTabs h d tabs st))).
  { unfold responses in E.
    assert (Hr : In r (flat_map (fun e => match e with SendResponse r => [r] | _ => [] end)
                         (snd (forwardToTabs h d tabs st)))) by (rewrite E; left; reflexivity).
    apply in_flat_map in Hr. destruct Hr as (e & He & Hre).
    destruct e; cbn in Hre; try contradiction.
    destruct Hre as [<-|[]]. exact He. }
  destruct (forwardToTabs_effects h d tabs st _ Hin) as (t & _ & _ & [H|[H|H]]);
    discriminate H.
Qed.

End EffectFacts.

(** X14.  One call of [forwardToContentScript] with a directive other
    than [PING], on a query result in which every tab id occurs once:
    each tab is sent at most one ping and the directive at most twice,
    and gets the content script injected at most once; and every call
    made addresses a tab of the query result that has an id, is not
    discarded and is completely loaded, with a ping, the directive or the
    injection. *)
Theorem forwarding_is_bounded : forall h d st,
  d <> Background.PING ->
  NoDup (map Background.tabId (Background.feedTabs h)) ->
  let effects := snd (Background.forwardToContentScript h d st) in
  (forall id,
     List.length (filter (Frame.isPingTo id) effects) <= 1
     /\ List.length (filter (Frame.isDirectiveTo d id) effects) <= 2
     /\ List.length (filter (Frame.isInjectionInto id) effects) <= 1)
  /\ (forall e, In e effects ->
        exists t, In t (Background.feedTabs h) /\ Frame.readyTab t = true
                  /\ (e = Background.TabsSendMessage (Background.tabId t) Background.PING
                      \/ e = Background.TabsSendMessage (Background.tabId t) d
                      \/ e = Background.ExecuteScript (Background.tabId t))).
Proof.
  intros h d st Hd Hnd effects. unfold effects, Background.forwardToContentScript.
  split; [|apply forwardToTabs_effects].
  intros id.
  destruct (forwardToTabs_counts h d (Background.feedTabs h) st id Hd) as (H1 & H2 & H3).
  pose proof (unique_tab (Background.feedTabs h) id Hnd) as Hone.
  repeat split; lia.
Qed.

Lemma forwarding_is_bounded_witness :
  List.length
    (filter (Frame.isDirectiveTo Background.START 3)
       (snd (Background.forwardToContentScript Samples.onFeed Background.START
               Background.initial))) <= 2.
Proof.
  assert (Hd : Background.START <> Background.PING) by discriminate.
  assert (Hnd : NoDup (map Background.tabId (Background.feedTabs Samples.onFeed))).
  { cbn. constructor; [intros [] | constructor]. }
  apply (proj1 (forwarding_is_bounded Samples.onFeed Background.START Background.initial
                  Hd Hnd) 3).
Defined.

Section AnswerFacts.
Import JS Background Frame.

Lemma startCuration_responses : forall h st,
  responses (snd (fst (startCuration h st))) = []
  /\ (forall err, snd (startCuration h st) = Throw err -> storageFails h = true).
Proof.
  intros h st. unfold startCuration.
  destruct (isRunning st); [split; [reflexivity | discriminate]|].
  destruct (negb (eligible (activeTab h))); [split; [reflexivity | discriminate]|].
  set (id := match activeTab h with Some t => tabId t | None => 0 end).
  assert (Hgo : forall e0, responses e0 = [] ->
            let r :=
              (let st1 := setIsRunning true st in
               if storageFails h
               then (setIsRunning false st1, e0, @Throw unit storageError)
               else
                 let st2 := setKeepAlive true (setStoredIsRunning true st1) in
                 let '(st3, e3) :=
                   if aiReady st2 then startContentScript h st2 else initializeAI h st2 in
                 let '(st4, e4) := broadcastStatus h st3 in
                 (st4, (e0 ++ e3 ++ e4)%list, Return tt)) in
            responses (snd (fst r)) = []
            /\ (forall err, snd r = Throw err -> storageFails h = true)).
  { intros e0 He0. cbv zeta. destruct (storageFails h).
    - split; [exact He0 | reflexivity].
    - set (st2 := setKeepAlive true (setStoredIsRunning true (setIsRunning true st))).
      assert (H3 : responses (snd (if aiReady st2 then startContentScript h st2
                                   else initializeAI h st2)) = []).
      { destruct (aiReady st2);
          [apply (forwardToTabs_responses h START (feedTabs h) st2)
          | apply (initializeAI_responses h st2)]. }
      destruct (if aiReady st2 then startContentScript h st2 else initializeAI h st2)
        as [st3 e3]. cbn [snd] in H3.
      pose proof (broadcastStatus_responses h st3) as H4.
      destruct (broadcastStatus h st3) as [st4 e4]. cbn [fst snd] in *.
      split; [|discriminate]. rewrite !responses_app, He0, H3, H4. reflexivity. }
  destruct (pingError (answers h id)); [destruct (injectOk (answers h id))|].
  - apply Hgo. reflexivity.
  - split; [reflexivity | discriminate].
  - apply Hgo. reflexivity.
Qed.

Lemma stopCuration_responses : forall h st, responses (snd (stopCuration h st)) = [].
Proof.
  intros h st. unfold stopCuration.
  destruct (negb (isRunning st)); [reflexivity|].
  destruct (storageFails h); [reflexivity|].
  set (st2 := setKeepAlive false (setStoredIsRunning false (setIsRunning false st))).
  pose proof (forwardToTabs_responses h STOP (feedTabs h) st2) as H3.
  unfold stopContentScript, forwardToContentScript.
  destruct (forwardToTabs h STOP (feedTabs h) st2) as [st3 e3]. cbn [snd] in H3.
  pose proof (broadcastStatus_responses h st3) as H4.
  destruct (broadcastStatus h st3) as [st4 e4]. cbn [snd] in *.
  rewrite responses_app, H3, H4. reflexivity.
Qed.

Lemma report_responses : forall h id text hidden why st,
  responses (snd (report h id text hidden why st)) = [].
Proof.
  intros h id text hidden why st. unfold report.
  destruct hidden; [|reflexivity].
  unfold forwardToContentScript.
  match goal with
  | |- context [forwardToTabs h ?d ?tabs ?s] =>
      pose proof (forwardToTabs_responses h d tabs s) as H;
      destruct (forwardToTabs h d tabs s) as [st2 e2]
  end.
  cbn [snd] in *. rewrite responses_app, H. reflexivity.
Qed.

Lemma classifyTweet_responses : forall h id text st,
  responses (snd (classifyTweet h id text st)) = [].
Proof.
  intros h id text st. unfold classifyTweet.
  destruct (isModelReady st); [destruct (classifyReply h)|]; reflexivity.
Qed.

End AnswerFacts.

(** X15.  Every message is answered.  The answer is the single response
    [{success: true}], except that an unknown type and a manual retry
    while stopped get one failure response, and a start that fails on
    storage gets a failure response followed by a success response. *)
Theorem every_message_is_answered : forall h m st,
  let answers := Background.responses (snd (Background.handleMessage h m st)) in
  answers = [Background.ok]
  \/ (m = Background.UNKNOWN
      /\ answers = [Background.failed "Unknown message type"])
  \/ (m = Background.RETRY_AI_LOAD /\ Background.isRunning st = false
      /\ answers = [Background.failed "Extension not running"])
  \/ (m = Background.START_CURATION /\ Background.storageFails h = true
      /\ exists message, answers = [Background.failed message; Background.ok]).
Proof.
  intros h m st answers. unfold answers. destruct m; cbn [Background.handleMessage].
  - pose proof (startCuration_responses h st) as [Hr Hthrow].
    destruct (Background.startCuration h st) as [[st1 e1] [u|err]]; cbn [fst snd] in *.
    + left. rewrite responses_app, Hr. reflexivity.
    + right. right. right. split; [reflexivity|]. split; [apply (Hthrow err); reflexivity|].
      eexists. rewrite responses_app, Hr. reflexivity.
  - pose proof (stopCuration_responses h st) as Hr.
    destruct (Background.stopCuration h st) as [st1 e1]. cbn [snd] in *.
    left. rewrite responses_app, Hr. reflexivity.
  - left. reflexivity.
  - left. destruct (Background.isRunning st); [|reflexivity].
    pose proof (classifyTweet_responses h id text st) as H1.
    destruct (Background.classifyTweet h id text st) as [r e1].
    pose proof (report_responses h id text (isUninteresting r) (reason r) st) as H2.
    destruct (Background.report h id text (isUninteresting r) (reason r) st) as [st2 e2].
    cbn [snd] in *. rewrite !responses_app, H1, H2. reflexivity.
  - left.
    pose proof (broadcastStatus_responses h (Background.setAiReady true st)) as H2.
    destruct (Background.broadcastStatus h (Background.setAiReady true st)) as [st2 e2].
    cbn [snd] in H2.
    destruct (Background.isRunning st2).
    + pose proof (forwardToTabs_responses h Background.START (Background.feedTabs h) st2)
        as H3.
      unfold Background.startContentScript, Background.forwardToContentScript.
      destruct (Background.forwardToTabs h Background.START (Background.feedTabs h) st2)
        as [st3 e3].
      cbn [snd] in *. rewrite !responses_app, H2, H3. reflexivity.
    + cbn [snd]. rewrite !responses_app, H2. reflexivity.
  - left. destruct (Background.isRunning st); [|reflexivity].
    pose proof (report_responses h id text isUninteresting0 reason0 st) as H1.
    destruct (Background.report h id text isUninteresting0 reason0 st) as [st1 e1].
    cbn [snd] in *. rewrite responses_app, H1. reflexivity.
  - left. reflexivity.
  - left.
    match goal with
    | |- context [Background.broadcastStatus h ?s] =>
        pose proof (broadcastStatus_responses h s) as H3;
        destruct (Background.broadcastStatus h s) as [st3 e3]
    end.
    cbn [snd] in *. rewrite !responses_app, H3. reflexivity.
  - destruct (Background.isRunning st) eqn:Hrun.
    + left.
      pose proof (broadcastStatus_responses h (Background.setAiReady false st)) as H2.
      destruct (Background.broadcastStatus h (Background.setAiReady false st)) as [st2 e2].
      pose proof (initializeAI_responses h st2) as H3.
      destruct (Background.initializeAI h st2) as [st3 e3].
      cbn [snd] in *. rewrite !responses_app, H2, H3. reflexivity.
    + right. right. left. repeat split; reflexivity.
  - right. left. split; reflexivity.
Qed.


(** ** What reaches the content scripts *)

Section MarkFacts.
Import JS Background Frame.

Lemma existsb_isMark_app : forall l1 l2,
  existsb isMark (l1 ++ l2)%list = existsb isMark l1 || existsb isMark l2.
Proof. intros l1 l2. apply existsb_app. Qed.

Lemma isMark_absent : forall l tab id b,
  existsb isMark l = false -> ~ In (TabsSendMessage tab (MARK_TWEET id b)) l.
Proof.
  intros l tab id b H Hin.
  assert (Ht : existsb isMark l = true).
  { apply existsb_exists. eexists. split; [exact Hin | reflexivity]. }
  congruence.
Qed.

Lemma broadcastStatus_noMark : forall h st,
  existsb isMark (snd (broadcastStatus h st)) = false.
Proof.
  intros h st. unfold broadcastStatus.
  destruct (statusDelivered h && negb (storageFails h)); reflexivity.
Qed.

Lemma initializeAI_noMark : forall h st,
  existsb isMark (snd (initializeAI h st)) = false.
Proof.
  intros h st. unfold initializeAI.
  pose proof (broadcastStatus_noMark h st) as H1.
  destruct (broadcastStatus h st) as [st1 e1]. cbn [snd] in H1.
  pose proof (broadcastStatus_noMark h st1) as H2.
  destruct (broadcastStatus h st1) as [st2 e2]. cbn [snd] in H2.
  destruct (offscreenFails h), (offscreenExists h); cbn [snd];
    rewrite !existsb_isMark_app, H1, H2; reflexivity.
Qed.

Lemma forwardToTabs_noMark : forall h d tabs st,
  isMark (TabsSendMessage 0 d) = false ->
  existsb isMark (snd (forwardToTabs h d tabs st)) = false.
Proof.
  intros h d tabs st Hd.
  destruct (existsb isMark (snd (forwardToTabs h d tabs st))) eqn:E; [|reflexivity].
  apply existsb_exists in E. destruct E as (e & Hin & He).
  destruct (forwardToTabs_effects h d tabs st e Hin) as (t & _ & _ & [H|[H|H]]);
    subst e; cbn in He; try discriminate.
  cbn in Hd. congruence.
Qed.

Lemma startCuration_noMark : forall h st,
  existsb isMark (snd (fst (startCuration h st))) = false.
Proof.
  intros h st. unfold startCuration.
  destruct (isRunning st); [reflexivity|].
  destruct (negb (eligible (activeTab h))); [reflexivity|].
  set (id := match activeTab h with Some t => tabId t | None => 0 end).
  assert (Hgo : forall e0, existsb isMark e0 = false ->
            existsb isMark (snd (fst
              (let st1 := setIsRunning true st in
               if storageFails h
               then (setIsRunning false st1, e0, @Throw unit storageError)
               else
                 let st2 := setKeepAlive true (setStoredIsRunning true st1) in
                 let '(st3, e3) :=
                   if aiReady st2 then startContentScript h st2 else initializeAI h st2 in
                 let '(st4, e4) := broadcastStatus h st3 in
                 (st4, (e0 ++ e3 ++ e4)%list, Return tt)))) = false).
  { intros e0 He0. cbv zeta. destruct (storageFails h); [exact He0|].
    set (st2 := setKeepAlive true (setStoredIsRunning true (setIsRunning true st))).
    assert (H3 : existsb isMark (snd (if aiReady st2 then startContentScript h st2
                                      else initializeAI h st2)) = false).
    { destruct (aiReady st2);
        [apply (forwardToTabs_noMark h START (feedTabs h) st2); reflexivity
        | apply (initializeAI_noMark h st2)]. }
    destruct (if aiReady st2 then startContentScript h st2 else initializeAI h st2)
      as [st3 e3]. cbn [snd] in H3.
    pose proof (broadcastStatus_noMark h st3) as H4.
    destruct (broadcastStatus h st3) as [st4 e4]. cbn [fst snd] in *.
    rewrite !existsb_isMark_app, He0, H3, H4. reflexivity. }
  destruct (pingError (answers h id)); [destruct (injectOk (answers h id))|].
  - apply Hgo. reflexivity.
  - reflexivity.
  - apply Hgo. reflexivity.
Qed.

Lemma stopCuration_noMark : forall h st,
  existsb isMark (snd (stopCuration h st)) = false.
Proof.
  intros h st. unfold stopCuration.
  destruct (negb (isRunning st)); [reflexivity|].
  destruct (storageFails h); [reflexivity|].
  set (st2 := setKeepAlive false (setStoredIsRunning false (setIsRunning false st))).
  pose proof (forwardToTabs_noMark h STOP (feedTabs h) st2 eq_refl) as H3.
  unfold stopContentScript, forwardToContentScript.
  destruct (forwardToTabs h STOP (feedTabs h) st2) as [st3 e3]. cbn [snd] in H3.
  pose proof (broadcastStatus_noMark h st3) as H4.
  destruct (broadcastStatus h st3) as [st4 e4]. cbn [snd] in *.
  rewrite existsb_isMark_app, H3, H4. reflexivity.
Qed.

Lemma classifyTweet_noMark : forall h id text st,
  existsb isMark (snd (classifyTweet h id text st)) = false.
Proof.
  intros h id text st. unfold classifyTweet.
  destruct (isModelReady st); [destruct (classifyReply h)|]; reflexivity.
Qed.

(** The directives [report] sends: only for a tweet to hide, only about
    that tweet, and only to ready feed tabs. *)
Lemma report_marks : forall h id text hidden why st tab id' b,
  In (TabsSendMessage tab (MARK_TWEET id' b)) (snd (report h id text hidden why st)) ->
  hidden = true /\ id' = id /\ b = true
  /\ exists t, In t (feedTabs h) /\ readyTab t = true /\ tabId t = tab.
Proof.
  intros h id text hidden why st tab id' b. unfold report.
  destruct hidden.
  - unfold forwardToContentScript.
    match goal with
    | |- context [forwardToTabs h ?d ?tabs ?s] =>
        pose proof (forwardToTabs_effects h d tabs s) as H;
        destruct (forwardToTabs h d tabs s) as [st2 e2]
    end.
    cbn [snd] in *. intros [Hin|Hin]; [discriminate Hin|].
    destruct (H _ Hin) as (t & Ht & Hready & [He|[He|He]]); try discriminate He.
    injection He as Htab Hid. subst.
    repeat split; try reflexivity. exists t. repeat split; assumption.
  - intros [Hin|[]]. discriminate Hin.
Qed.

End MarkFacts.

(** The effects at hand hold no [MARK_TWEET] directive. *)
Ltac no_mark :=
  let Hin := fresh "Hin" in
  intros Hin; exfalso; refine (isMark_absent _ _ _ _ _ Hin);
  cbn [snd]; rewrite ?existsb_isMark_app;
  repeat match goal with
         | H : existsb Frame.isMark _ = false |- _ => rewrite H; clear H
         end;
  reflexivity.

(** X16.  A content script is told to hide a tweet only while curation
    runs, only with [isUninteresting: true], only for the tweet the
    message is about, and only when that tweet was classified as
    uninteresting (by the service worker for [EVALUATE_TWEET], by the
    sender for [CLASSIFICATION_RESULT]); the directive goes to ready feed
    tabs. *)
Theorem hide_directive_only_for_hidden : forall h m st tab id b,
  In (Background.TabsSendMessage tab (Background.MARK_TWEET id b))
     (snd (Background.handleMessage h m st)) ->
  b = true /\ Background.isRunning st = true
  /\ ((exists text, m = Background.EVALUATE_TWEET id text
         /\ isUninteresting (fst (Background.classifyTweet h id text st)) = true)
      \/ (exists why text, m = Background.CLASSIFICATION_RESULT id true why text))
  /\ exists t, In t (Background.feedTabs h) /\ Frame.readyTab t = true
               /\ Background.tabId t = tab.
Proof.
  intros h m st tab id b. destruct m; cbn [Background.handleMessage].
  - pose proof (startCuration_noMark h st) as Hn.
    destruct (Background.startCuration h st) as [[st1 e1] [u|err]]; cbn [fst snd] in *;
      no_mark.
  - pose proof (stopCuration_noMark h st) as Hn.
    destruct (Background.stopCuration h st) as [st1 e1]. cbn [snd] in *. no_mark.
  - no_mark.
  - destruct (Background.isRunning st) eqn:Hrun; [|no_mark].
    pose proof (classifyTweet_noMark h id0 text st) as Hn.
    destruct (Background.classifyTweet h id0 text st) as [r e1] eqn:Hc.
    pose proof (report_marks h id0 text (isUninteresting r) (reason r) st tab id b) as Hr.
    destruct (Background.report h id0 text (isUninteresting r) (reason r) st) as [st2 e2].
    cbn [fst snd] in *. intros Hin.
    apply in_app_or in Hin. destruct Hin as [Hin|Hin];
      [exfalso; apply (isMark_absent _ _ _ _ Hn Hin)|].
    apply in_app_or in Hin. destruct Hin as [Hin|Hin];
      [|cbn in Hin; exfalso; intuition discriminate].
    destruct (Hr Hin) as (Hh & Hid & Hb & Ht). subst id.
    split; [exact Hb|]. split; [reflexivity|]. split; [|exact Ht].
    left. exists text. split; [reflexivity|]. rewrite Hc. exact Hh.
  - pose proof (broadcastStatus_noMark h (Background.setAiReady true st)) as H2.
    destruct (Background.broadcastStatus h (Background.setAiReady true st)) as [st2 e2].
    cbn [snd] in H2.
    assert (H3 : existsb Frame.isMark
                   (snd (if Background.isRunning st2
                         then Background.startContentScript h st2 else (st2, []))) = false).
    { destruct (Background.isRunning st2); [|reflexivity].
      apply (forwardToTabs_noMark h Background.START (Background.feedTabs h) st2).
      reflexivity. }
    destruct (if Background.isRunning st2
              then Background.startContentScript h st2 else (st2, [])) as [st3 e3].
    cbn [snd] in *. no_mark.
  - destruct (Background.isRunning st) eqn:Hrun; [|no_mark].
    pose proof (report_marks h id0 text isUninteresting0 reason0 st tab id b) as Hr.
    destruct (Background.report h id0 text isUninteresting0 reason0 st) as [st1 e1].
    cbn [snd] in *. intros Hin.
    apply in_app_or in Hin. destruct Hin as [Hin|Hin];
      [|cbn in Hin; exfalso; intuition discriminate].
    destruct (Hr Hin) as (Hh & Hid & Hb & Ht). subst.
    split; [reflexivity|]. split; [reflexivity|]. split; [|exact Ht].
    right. exists reason0, text. reflexivity.
  - no_mark.
  - match goal with
    | |- context [Background.broadcastStatus h ?s] =>
        pose proof (broadcastStatus_noMark h s) as H3;
        destruct (Background.broadcastStatus h s) as [st3 e3]
    end.
    cbn [snd] in *. no_mark.
  - destruct (Background.isRunning st) eqn:Hrun; [|no_mark].
    pose proof (broadcastStatus_noMark h (Background.setAiReady false st)) as H2.
    destruct (Background.broadcastStatus h (Background.setAiReady false st)) as [st2 e2].
    pose proof (initializeAI_noMark h st2) as H3.
    destruct (Background.initializeAI h st2) as [st3 e3].
    cbn [snd] in *. no_mark.
  - no_mark.
Qed.

Lemma hide_directive_only_for_hidden_witness :
  Background.isRunning Samples.running = true
  /\ exists t, In t (Background.feedTabs Samples.onFeed) /\ Frame.readyTab t = true
               /\ Background.tabId t = 3.
Proof.
  assert (Hsent : In (Background.TabsSendMessage 3 (Background.MARK_TWEET "tweet-1" true))
                    (snd (Background.handleMessage Samples.onFeed
                            (Background.CLASSIFICATION_RESULT "tweet-1" true "Spam"
                               (JS.Str "Giveaway today"))
                            Samples.running))).
  { vm_compute. right. right. left. reflexivity. }
  destruct (hide_directive_only_for_hidden _ _ _ _ _ _ Hsent) as (_ & Hrun & _ & Ht).
  split; [exact Hrun | exact Ht].
Defined.

Section ReachFacts.
Import JS Background Frame.

Lemma forwardToTab_ping : forall h d t st,
  readyTab t = true ->
  In (TabsSendMessage (tabId t) PING) (snd (forwardToTab h d t st))
  /\ (pingError (answers h (tabId t)) = None ->
      In (TabsSendMessage (tabId t) d) (snd (forwardToTab h d t st))).
Proof.
  intros h d t st. unfold forwardToTab, readyTab.
  destruct ((tabId t =? 0)%nat || discarded t || negb (complete t)); [discriminate|].
  intros _.
  destruct (pingError (answers h (tabId t))) as [m|];
    [|destruct (sendError (answers h (tabId t))) as [m|]];
    try destruct (connectionError m);
    try destruct (injectOk (answers h (tabId t)));
    try destruct (resendOk (answers h (tabId t)));
    cbn; split; auto; try discriminate; auto.
Qed.

Lemma forwardToTabs_ping : forall h d tabs st t,
  In t tabs -> readyTab t = true ->
  In (TabsSendMessage (tabId t) PING) (snd (forwardToTabs h d tabs st))
  /\ (pingError (answers h (tabId t)) = None ->
      In (TabsSendMessage (tabId t) d) (snd (forwardToTabs h d tabs st))).
Proof.
  intros h d tabs. induction tabs as [|t0 rest IH]; intros st t Hin Hready;
    [destruct Hin|].
  cbn [forwardToTabs].
  pose proof (forwardToTab_ping h d t0 st) as H1.
  destruct (forwardToTab h d t0 st) as [st1 e1].
  pose proof (IH st1 t) as H2.
  destruct (forwardToTabs h d rest st1) as [st2 e2]. cbn [snd] in *.
  destruct Hin as [->|Hin].
  - destruct (H1 Hready) as [Ha Hb].
    split; [apply in_or_app; left; exact Ha|].
    intros Hp. apply in_or_app. left. exact (Hb Hp).
  - destruct (H2 Hin Hready) as [Ha Hb].
    split; [apply in_or_app; right; exact Ha|].
    intros Hp. apply in_or_app. right. exact (Hb Hp).
Qed.

Lemma in_addTab : forall x id l, In x (addTab id l) <-> x = id \/ In x l.
Proof.
  intros x id l. unfold addTab.
  destruct (existsb (Nat.eqb id) l) eqn:E.
  - split; [auto|]. intros [->|H]; [|exact H].
    apply existsb_exists in E. destruct E as (y & Hy & Heq).
    apply Nat.eqb_eq in Heq. subst y. exact Hy.
  - rewrite in_app_iff. cbn. split.
    + intros [H|[H|[]]]; auto.
    + intros [H|H]; auto.
Qed.

Lemma in_deleteTab : forall x id l, In x (deleteTab id l) <-> x <> id /\ In x l.
Proof.
  intros x id l. unfold deleteTab. rewrite filter_In.
  rewrite negb_true_iff, Nat.eqb_neq. split; intros [H1 H2]; split; auto.
Qed.

(** A tab that answers stays connected through the rest of the loop:
    only a tab with the same id, hence the same answers, touches its
    entry. *)
Lemma forwardToTab_keeps : forall h d t st x,
  pingError (answers h x) = None -> sendError (answers h x) = None ->
  In x (connectedTabs st) -> In x (connectedTabs (fst (forwardToTab h d t st))).
Proof.
  intros h d t st x Hp Hs Hin. unfold forwardToTab.
  destruct ((tabId t =? 0)%nat || discarded t || negb (complete t)); [exact Hin|].
  destruct (Nat.eq_dec (tabId t) x) as [Heq|Hne].
  - rewrite Heq, Hp, Hs. cbn. apply in_addTab. right. exact Hin.
  - destruct (pingError (answers h (tabId t))) as [m|];
      [|destruct (sendError (answers h (tabId t))) as [m|]];
      try destruct (connectionError m);
      try destruct (injectOk (answers h (tabId t)));
      try destruct (resendOk (answers h (tabId t)));
      cbn; try exact Hin;
      try (apply in_addTab; right; exact Hin);
      try (apply in_deleteTab; split; [congruence | exact Hin]).
Qed.

Lemma forwardToTabs_keeps : forall h d tabs st x,
  pingError (answers h x) = None -> sendError (answers h x) = None ->
  In x (connectedTabs st) -> In x (connectedTabs (fst (forwardToTabs h d tabs st))).
Proof.
  intros h d tabs. induction tabs as [|t rest IH]; intros st x Hp Hs Hin; [exact Hin|].
  cbn [forwardToTabs].
  pose proof (forwardToTab_keeps h d t st x Hp Hs Hin) as H1.
  destruct (forwardToTab h d t st) as [st1 e1]. cbn [fst] in H1.
  pose proof (IH st1 x Hp Hs H1) as H2.
  destruct (forwardToTabs h d rest st1) as [st2 e2]. exact H2.
Qed.

Lemma forwardToTabs_connects : forall h d tabs st t,
  In t tabs -> readyTab t = true ->
  pingError (answers h (tabId t)) = None -> sendError (answers h (tabId t)) = None ->
  In (tabId t) (connectedTabs (fst (forwardToTabs h d tabs st))).
Proof.
  intros h d tabs. induction tabs as [|t0 rest IH]; intros st t Hin Hready Hp Hs;
    [destruct Hin|].
  cbn [forwardToTabs].
  destruct Hin as [->|Hin].
  - assert (H1 : In (tabId t) (connectedTabs (fst (forwardToTab h d t st)))).
    { unfold forwardToTab. unfold readyTab in Hready.
      destruct ((tabId t =? 0)%nat || discarded t || negb (complete t)); [discriminate|].
      rewrite Hp, Hs. cbn. apply in_addTab. left. reflexivity. }
    destruct (forwardToTab h d t st) as [st1 e1]. cbn [fst] in H1.
    pose proof (forwardToTabs_keeps h d rest st1 (tabId t) Hp Hs H1) as H2.
    destruct (forwardToTabs h d rest st1) as [st2 e2]. exact H2.
  - destruct (forwardToTab h d t0 st) as [st1 e1].
    pose proof (IH st1 t Hin Hready Hp Hs) as H2.
    destruct (forwardToTabs h d rest st1) as [st2 e2]. exact H2.
Qed.

End ReachFacts.

(** X17.  [forwardToContentScript] reaches every feed tab that is loaded,
    not discarded and has an id: the tab is pinged; if the ping is
    answered the directive is sent to it; and if the directive is
    answered too the tab is among the connected tabs afterwards. *)
Theorem forwarding_reaches_ready_tabs : forall h d st t,
  In t (Background.feedTabs h) -> Frame.readyTab t = true ->
  let result := Background.forwardToContentScript h d st in
  let a := Background.answers h (Background.tabId t) in
  In (Background.TabsSendMessage (Background.tabId t) Background.PING) (snd result)
  /\ (Background.pingError a = None ->
      In (Background.TabsSendMessage (Background.tabId t) d) (snd result))
  /\ (Background.pingError a = None -> Background.sendError a = None ->
      In (Background.tabId t) (Background.connectedTabs (fst result))).
Proof.
  intros h d st t Hin Hready result a. unfold result, a, Background.forwardToContentScript.
  destruct (forwardToTabs_ping h d (Background.feedTabs h) st t Hin Hready) as [H1 H2].
  split; [exact H1|]. split; [exact H2|].
  apply forwardToTabs_connects; assumption.
Qed.

Lemma forwarding_reaches_ready_tabs_witness :
  In (Background.TabsSendMessage 3 Background.PING)
     (snd (Background.forwardToContentScript Samples.onFeed Background.STOP
             Background.initial))
  /\ In 3 (Background.connectedTabs
             (fst (Background.forwardToContentScript Samples.onFeed Background.STOP
                     Background.initial))).
Proof.
  pose proof (forwarding_reaches_ready_tabs Samples.onFeed Background.STOP
                Background.initial Samples.feedTab (or_introl eq_refl) eq_refl)
    as (H1 & _ & H3).
  split; [exact H1 | exact (H3 eq_refl eq_refl)].
Defined.

(** X18.  After [STOP_CURATION] curation is not running, whatever the
    storage does; the feed tabs are contacted exactly when curation was
    running and the stored flag could be written.  When the write fails,
    the alarm and the content scripts are left as they were, and the
    sender is still answered with success. *)
Theorem stop_curation_outcome : forall h st,
  let result := Background.handleMessage h Background.STOP_CURATION st in
  Background.isRunning (fst result) = false
  /\ Background.responses (snd result) = [Background.ok]
  /\ (forall t, In t (Background.feedTabs h) -> Frame.readyTab t = true ->
        (In (Background.TabsSendMessage (Background.tabId t) Background.PING) (snd result)
         <-> Background.isRunning st = true /\ Background.storageFails h = false))
  /\ (Background.storageFails h = true ->
        Background.keepAlive (fst result) = Background.keepAlive st
        /\ Background.storedIsRunning (fst result) = Background.storedIsRunning st
        /\ snd result = [Background.SendResponse Background.ok])
  /\ (Background.isRunning st = true -> Background.storageFails h = false ->
        Background.keepAlive (fst result) = false
        /\ Background.storedIsRunning (fst result) = Some false).
Proof.
  intros h st result. unfold result. cbn [Background.handleMessage].
  unfold Background.stopCuration.
  destruct (Background.isRunning st) eqn:Hrun; cbn [negb].
  - destruct (Background.storageFails h) eqn:Hst.
    + cbn. split; [reflexivity|]. split; [reflexivity|]. split.
      { intros t _ _. split; [intros [H|[]]; discriminate H | intros [_ H]; discriminate H]. }
      split; [intros _; repeat split | intros _ H; discriminate H].
    + set (st2 := Background.setKeepAlive false
                    (Background.setStoredIsRunning false
                       (Background.setIsRunning false st))).
      unfold Background.stopContentScript, Background.forwardToContentScript.
      pose proof (forwardToTabs_core h Background.STOP (Background.feedTabs h) st2) as Hc.
      pose proof (forwardToTabs_responses h Background.STOP (Background.feedTabs h) st2)
        as Hr.
      pose proof (forwardToTabs_ping h Background.STOP (Background.feedTabs h) st2) as Hp.
      destruct (Background.forwardToTabs h Background.STOP (Background.feedTabs h) st2)
        as [st3 e3].
      pose proof (broadcastStatus_core h st3) as Hc'.
      pose proof (broadcastStatus_responses h st3) as Hr'.
      destruct (Background.broadcastStatus h st3) as [st4 e4]. cbn [fst snd] in *.
      assert (Hcore : Frame.core st4 = Frame.core st2) by congruence.
      unfold Frame.core in Hcore. injection Hcore as E1 E2 E3 E4 E5 E6.
      split; [rewrite E1; reflexivity|].
      split; [rewrite !responses_app, Hr, Hr'; reflexivity|].
      split.
      { intros t Hin Hready. split; [intros _; split; reflexivity|].
        intros _. apply in_or_app. left. apply in_or_app. left.
        apply (Hp t Hin Hready). }
      split; [discriminate|].
      intros _ _. rewrite E4, E2. split; reflexivity.
  - cbn. split; [exact Hrun|]. split; [reflexivity|]. split.
    { intros t _ _. split; [intros [H|[]]; discriminate H | intros [H _]; discriminate H]. }
    split; [intros _; repeat split | intros H; discriminate H].
Qed.

Lemma stop_curation_outcome_witness :
  Background.keepAlive
    (fst (Background.handleMessage Samples.onFeed Background.STOP_CURATION Samples.running))
  = false
  /\ Background.storedIsRunning
       (fst (Background.handleMessage Samples.onFeed Background.STOP_CURATION
               Samples.running))
     = Some false.
Proof.
  apply (proj2 (proj2 (proj2 (proj2
           (stop_curation_outcome Samples.onFeed Samples.running)))));
    reflexivity.
Defined.

Section InterestFacts.
Import JS.

Lemma classify_empty_spam_list : forall toFixed2 s tweet,
  Offscreen.spamList s = [] ->
  snd (Offscreen.classify toFixed2 s tweet) <> Return (mkResult true "Spam").
Proof.
  intros toFixed2 s tweet Hs. unfold Offscreen.classify. rewrite Hs.
  destruct tweet; cbn; try discriminate.
  destruct (Offscreen.interestEmbeddings s); [discriminate|].
  destruct (Offscreen.classifier s) as [c|]; [|discriminate].
  destruct (c s0); cbn; discriminate.
Qed.

End InterestFacts.

(** X19.  When the stored interests change, the offscreen document is
    sent a [SET_INTERESTS] message only if the model was reported ready,
    and that message carries the new interests but neither the spam
    keywords nor the threshold.  Handling it therefore empties the spam
    list and resets the threshold to 0.35: from then on [classify] never
    answers "Spam". *)
Theorem interest_change_drops_spam_list : forall newValue st m,
  In (Background.SendMessage (Background.SET_INTERESTS m))
     (snd (Background.onInterestsChanged newValue st)) ->
  Background.aiReady st = true
  /\ Offscreen.msgInterests m = Some (Offscreen.orElse newValue [])
  /\ Background.cachedInterests (fst (Background.onInterestsChanged newValue st))
     = Offscreen.orElse newValue []
  /\ forall s s', Offscreen.onSetInterests m s = JS.Return s' ->
       Offscreen.spamList s' = []
       /\ Offscreen.threshold s' = Offscreen.defaultThreshold
       /\ forall toFixed2 tweet,
            snd (Offscreen.classify toFixed2 s' tweet) <> JS.Return (mkResult true "Spam").
Proof.
  intros newValue st m. unfold Background.onInterestsChanged. cbn [Background.aiReady].
  destruct (Background.aiReady st) eqn:Hready; cbn [fst snd]; [|intros []].
  intros [Hin|[]]. injection Hin as <-. cbn [Offscreen.msgInterests].
  split; [reflexivity|]. split; [reflexivity|]. split; [reflexivity|].
  intros s s' H. unfold Offscreen.onSetInterests in H.
  destruct (Offscreen.recalcEmbeddings _ s) as [s1|e]; [|discriminate].
  injection H as <-. cbn [Offscreen.spamList Offscreen.threshold Offscreen.msgSpamKeywords
                          Offscreen.msgThreshold Offscreen.orElse].
  split; [reflexivity|]. split; [reflexivity|].
  intros toFixed2 tweet. apply classify_empty_spam_list. reflexivity.
Qed.

Lemma interest_change_drops_spam_list_witness :
  Background.aiReady (Background.setAiReady true Background.initial) = true
  /\ Offscreen.msgInterests (Offscreen.mkSetInterests (Some ["music"]) None None)
     = Some (Offscreen.orElse (Some ["music"]) []).
Proof.
  pose proof (interest_change_drops_spam_list (Some ["music"])
                (Background.setAiReady true Background.initial)
                (Offscreen.mkSetInterests (Some ["music"]) None None)
                (or_introl eq_refl)) as (H1 & H2 & _).
  split; [exact H1 | exact H2].
Defined.

(** ** The two tiers, the log and the handshake *)

Section TierFacts.
Import JS Background Frame.

Lemma core_modelManager : forall st st',
  core st' = core st -> modelManager st' = modelManager st.
Proof.
  intros st st' H. unfold core in H. injection H as _ _ _ _ H5 _. exact H5.
Qed.

Lemma onStartup_modelManager : forall h read st,
  modelManager (fst (Lifecycle.onStartup h read st)) = modelManager st.
Proof.
  intros h read st. unfold Lifecycle.onStartup.
  destruct (storageFails h); [reflexivity|].
  rewrite (core_modelManager _ _ (broadcastStatus_core h _)). reflexivity.
Qed.

Lemma lifecycle_model_never_ready : forall st,
  Lifecycle.reachable st -> isModelReady st = false.
Proof.
  intros st Hreach. unfold isModelReady.
  induction Hreach as [|h m st Hreach IH|h cb st Hreach IH|v st Hreach IH
                       |h read st Hreach IH|h read st Hreach IH
                       |tabId st Hreach IH|tabId loading st Hreach IH].
  - reflexivity.
  - rewrite handleMessage_modelManager. exact IH.
  - destruct cb. unfold runCallback.
    destruct (isRunning st && negb (aiReady st)); [|exact IH].
    pose proof (core_modelManager _ _ (initializeAI_core h st)) as H.
    destruct (initializeAI h st) as [st1 e1]. cbn [fst] in *. congruence.
  - unfold onInterestsChanged. cbn. destruct (aiReady st); exact IH.
  - rewrite onStartup_modelManager. exact IH.
  - unfold Lifecycle.onInstalled. rewrite onStartup_modelManager. exact IH.
  - exact IH.
  - unfold Lifecycle.onTabUpdated. destruct loading; exact IH.
Qed.

Lemma forwardToTab_aiReady : forall h d t st,
  aiReady (fst (forwardToTab h d t st)) = aiReady st.
Proof.
  intros h d t st. unfold forwardToTab.
  destruct ((tabId t =? 0)%nat || discarded t || negb (complete t)); [reflexivity|].
  destruct (pingError (answers h (tabId t))) as [m|];
    [|destruct (sendError (answers h (tabId t))) as [m|]; [|reflexivity]];
    destruct (connectionError m); try reflexivity;
    destruct (injectOk (answers h (tabId t)) && resendOk (answers h (tabId t)));
    try reflexivity;
    destruct (injectOk (answers h (tabId t))); reflexivity.
Qed.

Lemma forwardToTabs_aiReady : forall h d tabs st,
  aiReady (fst (forwardToTabs h d tabs st)) = aiReady st.
Proof.
  intros h d tabs. induction tabs as [|t rest IH]; intros st; [reflexivity|].
  cbn [forwardToTabs].
  pose proof (forwardToTab_aiReady h d t st) as H1.
  destruct (forwardToTab h d t st) as [st1 e1]. cbn [fst] in H1.
  pose proof (IH st1) as H2.
  destruct (forwardToTabs h d rest st1) as [st2 e2]. cbn [fst] in *. congruence.
Qed.

Lemma embedAll_throw : forall c interests e,
  Offscreen.embedAll c interests = Throw e ->
  exists x, In x interests /\ c x = Throw e.
Proof.
  intros c interests e. induction interests as [|x rest IH]; cbn; [discriminate|].
  destruct (c x) as [v|e1] eqn:Ec.
  - destruct (Offscreen.embedAll c rest) as [l|e2]; [discriminate|].
    intros H. injection H as <-. destruct (IH eq_refl) as (y & Hy & Hc).
    exists y. split; [right; exact Hy | exact Hc].
  - intros H. injection H as <-. exists x. split; [left; reflexivity | exact Ec].
Qed.

(** The stored log after a call that goes through ends with the new
    entry. *)
Lemma logLine_appends : forall h id text decision reason s,
  DecisionLog.falsy id = false -> DecisionLog.falsy decision = false ->
  DecisionLog.falsy reason = false ->
  DecisionLog.getFails h = false -> DecisionLog.setFails h = false ->
  exists older,
    DecisionLog.contents (DecisionLog.logLine h id text decision reason s)
    = (older ++ [DecisionLog.mkLogEntry (DecisionLog.now h) id decision reason text])%list.
Proof.
  intros h id text decision reason s Hi Hd Hr Hg Hs. unfold DecisionLog.logLine.
  rewrite Hi, Hd, Hr, Hg, Hs. cbn [orb DecisionLog.contents].
  destruct (DecisionLog.capacity <? _)%nat eqn:E.
  - destruct (DecisionLog.contents s) as [|a l] eqn:Ec.
    + cbn in E. discriminate.
    + exists l. reflexivity.
  - eexists. reflexivity.
Qed.

Lemma orString_not_falsy : forall x d,
  DecisionLog.falsy d = false -> DecisionLog.falsy (orString x d) = false.
Proof.
  intros [s|] d Hd; unfold orString; [|exact Hd].
  destruct (String.eqb s "") eqn:E; [exact Hd | exact E].
Qed.

Lemma report_logs : forall h id text hidden why st,
  DecisionLog.getFails (logHost h) = false -> DecisionLog.setFails (logHost h) = false ->
  exists older,
    DecisionLog.contents (curationLog (fst (report h id text hidden why st)))
    = (older ++ [DecisionLog.mkLogEntry (DecisionLog.now (logHost h))
                   (orString (Some id) "unknown")
                   (if hidden then "hide" else "keep")
                   (orString (Some why) "unknown") (textOr text "")])%list.
Proof.
  intros h id text hidden why st Hg Hs.
  destruct (logLine_appends (logHost h) (orString (Some id) "unknown") (textOr text "")
              (if hidden then "hide" else "keep") (orString (Some why) "unknown")
              (curationLog st)) as (older & Holder);
    try assumption;
    try (apply orString_not_falsy; reflexivity);
    try (destruct hidden; reflexivity).
  exists older. unfold report.
  set (st1 := setCurationLog _ st).
  pose proof Holder as H1.
  change (DecisionLog.logLine (logHost h) (orString (Some id) "unknown") (textOr text "")
            (if hidden then "hide" else "keep") (orString (Some why) "unknown")
            (curationLog st))
    with (curationLog st1) in H1.
  destruct hidden; [|exact H1].
  unfold forwardToContentScript.
  pose proof (forwardToTabs_core h (MARK_TWEET id true) (feedTabs h) st1) as H2.
  destruct (forwardToTabs h (MARK_TWEET id true) (feedTabs h) st1) as [st2 e2].
  cbn [fst] in *. unfold core in H2. injection H2 as _ _ H3 _ _ _.
  rewrite H3. exact H1.
Qed.

Lemma report_activity : forall h id text (hidden : bool) why st,
  In (SendMessage (ACTIVITY_LOG (if truthy text then text else Str "No text available")
                     (if hidden then "hidden" else "kept") why))
     (snd (report h id text hidden why st)).
Proof.
  intros h id text hidden why st. unfold report. destruct hidden.
  - destruct (forwardToContentScript h (MARK_TWEET id true) _) as [st2 e2].
    left. reflexivity.
  - left. reflexivity.
Qed.

Lemma report_reaches : forall h id text why st t,
  In t (feedTabs h) -> readyTab t = true -> pingError (answers h (tabId t)) = None ->
  In (TabsSendMessage (tabId t) (MARK_TWEET id true)) (snd (report h id text true why st)).
Proof.
  intros h id text why st t Hin Hready Hp. unfold report, forwardToContentScript.
  match goal with
  | |- context [forwardToTabs h ?d ?tabs ?s] =>
      pose proof (forwardToTabs_ping h d tabs s t Hin Hready) as [_ H];
      destruct (forwardToTabs h d tabs s) as [st2 e2]
  end.
  cbn [snd] in *. right. exact (H Hp).
Qed.

End TierFacts.

(** X20.  The service worker never consults the model: in every state it
    can reach, [isModelReady()] of its own instance of modelManager.js is
    false, so an [EVALUATE_TWEET] is decided by [fallbackClassification]
    on the cached interests and no [CLASSIFY] request is sent for it. *)
Theorem orchestrator_decides_by_fallback : forall st,
  Lifecycle.reachable st ->
  forall h id text,
    Background.isModelReady st = false
    /\ Background.classifyTweet h id text st
       = (Fallback.fallbackClassification text (Background.cachedInterests st), [])
    /\ Background.handleMessage h (Background.EVALUATE_TWEET id text) st
       = if Background.isRunning st then
           let r := Fallback.fallbackClassification text (Background.cachedInterests st) in
           let '(st2, e2) :=
             Background.report h id text (isUninteresting r) (reason r) st in
           (st2, (e2 ++ [Background.SendResponse Background.ok])%list)
         else (st, [Background.SendResponse Background.ok]).
Proof.
  intros st Hreach h id text.
  pose proof (lifecycle_model_never_ready st Hreach) as Hready.
  assert (Hc : Background.classifyTweet h id text st
               = (Fallback.fallbackClassification text (Background.cachedInterests st), [])).
  { unfold Background.classifyTweet. rewrite Hready. reflexivity. }
  split; [exact Hready|]. split; [exact Hc|].
  cbn [Background.handleMessage]. rewrite Hc.
  destruct (Background.isRunning st); reflexivity.
Qed.

Lemma orchestrator_decides_by_fallback_witness :
  Background.isModelReady
    (fst (Background.handleMessage Samples.onFeed Background.AI_READY Background.initial))
  = false.
Proof.
  apply (proj1 (orchestrator_decides_by_fallback _
                  (Lifecycle.reach_message Samples.onFeed Background.AI_READY
                     Background.initial Lifecycle.reach_initial)
                  Samples.onFeed "tweet-1" (JS.Str "hello"))).
Defined.

(** X21.  The [AI_READY] handshake: the service worker marks the model
    ready and first sends [SET_INTERESTS] with the cached interests, its
    spam keywords and its threshold.  An offscreen document that has its
    classifier and handles this message ends up with exactly these: one
    embedding per cached interest, in order and computed by the
    classifier, the four spam keywords and the threshold 0.35.  If the
    classifier throws on an interest, the message fails with that error. *)
Theorem ready_handshake_configures_classifier : forall h bg,
  exists m rest,
    snd (Background.handleMessage h Background.AI_READY bg)
    = Background.SendMessage (Background.SET_INTERESTS m) :: rest
    /\ Background.aiReady (fst (Background.handleMessage h Background.AI_READY bg)) = true
    /\ forall s c, Offscreen.classifier s = Some c ->
         match Offscreen.onSetInterests m s with
         | JS.Return s' =>
             Offscreen.classifier s' = Some c
             /\ map Offscreen.t (Offscreen.interestEmbeddings s')
                = Background.cachedInterests bg
             /\ Forall (fun i => c (Offscreen.t i) = JS.Return (Offscreen.emb i))
                  (Offscreen.interestEmbeddings s')
             /\ Offscreen.spamList s' = Background.spamKeywords
             /\ Offscreen.threshold s' = Background.SIM_THRESHOLD
         | JS.Throw e =>
             exists x, In x (Background.cachedInterests bg) /\ c x = JS.Throw e
         end.
Proof.
  intros h bg.
  destruct (ai_ready_sends_interests h bg) as (rest & Hrest).
  eexists. exists rest. split; [exact Hrest|]. split.
  - cbn [Background.handleMessage].
    pose proof (broadcastStatus_frame h (Background.setAiReady true bg)) as Hb.
    destruct (Background.broadcastStatus h (Background.setAiReady true bg)) as [st2 e2].
    cbn [fst] in Hb. destruct Hb as (_ & Hb & _).
    destruct (Background.isRunning st2) eqn:Hrun.
    + unfold Background.startContentScript, Background.forwardToContentScript.
      pose proof (forwardToTabs_aiReady h Background.START (Background.feedTabs h) st2)
        as Hf.
      destruct (Background.forwardToTabs h Background.START (Background.feedTabs h) st2)
        as [st3 e3].
      cbn [fst] in *. rewrite Hf, Hb. reflexivity.
    + cbn [fst]. rewrite Hb. reflexivity.
  - intros s c Hc. unfold Offscreen.onSetInterests, Offscreen.recalcEmbeddings.
    cbn [Offscreen.msgInterests Offscreen.msgSpamKeywords Offscreen.msgThreshold
         Offscreen.orElse].
    rewrite Hc.
    destruct (Offscreen.embedAll c (Background.cachedInterests bg)) as [l|e] eqn:El.
    + destruct (embedAll_return c _ l El) as [Hmap Hall].
      cbn. repeat split; try assumption.
    + apply embedAll_throw. exact El.
Qed.

Lemma ready_handshake_configures_classifier_witness :
  exists m rest,
    snd (Background.handleMessage Samples.onFeed Background.AI_READY Background.initial)
    = Background.SendMessage (Background.SET_INTERESTS m) :: rest
    /\ match Offscreen.onSetInterests m Samples.configured with
       | JS.Return s' => Offscreen.spamList s' = Background.spamKeywords
       | JS.Throw _ => True
       end.
Proof.
  destruct (ready_handshake_configures_classifier Samples.onFeed Background.initial)
    as (m & rest & H1 & _ & H3).
  exists m, rest. split; [exact H1|].
  specialize (H3 Samples.configured Samples.pipe eq_refl).
  destruct (Offscreen.onSetInterests m Samples.configured); [apply H3 | exact I].
Defined.

(** X22.  While curation runs, a decision about a tweet (taken by the
    service worker for [EVALUATE_TWEET], received with
    [CLASSIFICATION_RESULT]) is recorded consistently: the popup is sent
    an activity entry with "hidden" or "kept"; a tweet to hide is marked
    in every ready feed tab that answers the ping; and, when the storage
    answers, the stored log ends with an entry for this tweet with "hide"
    or "keep", an empty id or reason being logged as "unknown". *)
Theorem decision_is_recorded : forall h m st id text (hidden : bool) why,
  Background.isRunning st = true ->
  (m = Background.CLASSIFICATION_RESULT id hidden why text
   \/ (m = Background.EVALUATE_TWEET id text
       /\ fst (Background.classifyTweet h id text st) = mkResult hidden why)) ->
  let result := Background.handleMessage h m st in
  In (Background.SendMessage
        (Background.ACTIVITY_LOG
           (if Background.truthy text then text else JS.Str "No text available")
           (if hidden then "hidden" else "kept") why))
     (snd result)
  /\ (hidden = true ->
      forall t, In t (Background.feedTabs h) -> Frame.readyTab t = true ->
        Background.pingError (Background.answers h (Background.tabId t)) = None ->
        In (Background.TabsSendMessage (Background.tabId t) (Background.MARK_TWEET id true))
           (snd result))
  /\ (DecisionLog.getFails (Background.logHost h) = false ->
      DecisionLog.setFails (Background.logHost h) = false ->
      exists older,
        DecisionLog.contents (Background.curationLog (fst result))
        = (older ++ [DecisionLog.mkLogEntry (DecisionLog.now (Background.logHost h))
                       (Background.orString (Some id) "unknown")
                       (if hidden then "hide" else "keep")
                       (Background.orString (Some why) "unknown")
                       (Background.textOr text "")])%list).
Proof.
  intros h m st id text hidden why Hrun Hm result.
  assert (Hshape : exists before,
            result = (fst (Background.report h id text hidden why st),
                      (before ++ snd (Background.report h id text hidden why st)
                       ++ [Background.SendResponse Background.ok])%list)).
  { unfold result. destruct Hm as [->|[-> Hc]]; cbn [Background.handleMessage]; rewrite Hrun.
    - exists []. destruct (Background.report h id text hidden why st). reflexivity.
    - destruct (Background.classifyTweet h id text st) as [r e1]. cbn [fst] in Hc.
      subst r. cbn [isUninteresting reason].
      exists e1. destruct (Background.report h id text hidden why st). reflexivity. }
  destruct Hshape as (before & ->). cbn [fst snd].
  split; [|split].
  - apply in_or_app. right. apply in_or_app. left. apply report_activity.
  - intros -> t Hin Hready Hp.
    apply in_or_app. right. apply in_or_app. left.
    apply report_reaches; assumption.
  - intros Hg Hs. apply report_logs; assumption.
Qed.

Lemma decision_is_recorded_witness :
  exists older,
    DecisionLog.contents
      (Background.curationLog
         (fst (Background.handleMessage Samples.onFeed
                 (Background.CLASSIFICATION_RESULT "tweet-1" true "Spam"
                    (JS.Str "Giveaway today"))
                 Samples.running)))
    = (older ++ [DecisionLog.mkLogEntry 0 "tweet-1" "hide" "Spam" "Giveaway today"])%list.
Proof.
  apply (proj2 (proj2 (decision_is_recorded Samples.onFeed
                         (Background.CLASSIFICATION_RESULT "tweet-1" true "Spam"
                            (JS.Str "Giveaway today"))
                         Samples.running "tweet-1" (JS.Str "Giveaway today") true "Spam"
                         eq_refl (or_introl eq_refl))));
    reflexivity.
Defined.

(** ** The popup *)

Section PopupFacts.
Import JS Popup.

Lemma split_nonempty : forall sep s, split sep s <> [].
Proof.
  intros sep s. destruct s as [|c s']; cbn; [discriminate|].
  destruct (Ascii.eqb c sep); [discriminate|].
  destruct (split sep s'); discriminate.
Qed.

Lemma split_noComma : forall s, Forall (fun p => noComma p = true) (split "," s).
Proof.
  induction s as [|c s' IH]; cbn [split].
  - constructor; [reflexivity | constructor].
  - destruct (Ascii.eqb c ",") eqn:E.
    + constructor; [reflexivity | exact IH].
    + destruct (split "," s') as [|piece rest]; [constructor; [|constructor]|].
      * unfold noComma. cbn. rewrite E. reflexivity.
      * inversion IH as [|? ? Hp Hrest]; subst. constructor; [|exact Hrest].
        unfold noComma in *. cbn. rewrite E. exact Hp.
Qed.

Lemma split_single : forall x, noComma x = true -> split "," x = [x].
Proof.
  induction x as [|c x IH]; intros H; [reflexivity|].
  unfold noComma in H. cbn in H. apply andb_prop in H. destruct H as [Hc Hx].
  cbn [split]. apply negb_true_iff in Hc. rewrite Hc, (IH Hx). reflexivity.
Qed.

Lemma split_app : forall x t,
  noComma x = true -> split "," (x ++ String "," t) = x :: split "," t.
Proof.
  induction x as [|c x IH]; intros t H; [reflexivity|].
  unfold noComma in H. cbn in H. apply andb_prop in H. destruct H as [Hc Hx].
  cbn [append split]. apply negb_true_iff in Hc. rewrite Hc, (IH t Hx). reflexivity.
Qed.

Lemma concat_space : forall y r,
  String " " (String.concat ", " (y :: r)) = String.concat ", " (String " " y :: r).
Proof. intros y [|z r]; reflexivity. Qed.

Lemma split_join : forall l x,
  noComma x = true -> Forall (fun p => noComma p = true) l ->
  split "," (join ", " (x :: l)) = x :: map (String " ") l.
Proof.
  unfold join. induction l as [|y r IH]; intros x Hx Hl.
  - cbn. apply split_single. exact Hx.
  - inversion Hl as [|? ? Hy Hr]; subst.
    change (String.concat ", " (x :: y :: r))
      with (x ++ String "," (String " " (String.concat ", " (y :: r)))).
    rewrite (split_app _ _ Hx), concat_space, IH; [reflexivity | exact Hy | exact Hr].
Qed.

Lemma isSpace_lowerChar : forall c, isSpace (lowerChar c) = isSpace c.
Proof. intros c. destruct c as [[] [] [] [] [] [] [] []]; reflexivity. Qed.

Lemma lowerChar_comma : forall c,
  Ascii.eqb (lowerChar c) "," = Ascii.eqb c ",".
Proof. intros c. destruct c as [[] [] [] [] [] [] [] []]; reflexivity. Qed.

Lemma noComma_toLowerCase : forall s, noComma (toLowerCase s) = noComma s.
Proof.
  unfold noComma. induction s as [|c s IH]; [reflexivity|].
  cbn. rewrite lowerChar_comma, IH. reflexivity.
Qed.

Lemma noComma_trimStart : forall s, noComma s = true -> noComma (trimStart s) = true.
Proof.
  induction s as [|c s IH]; intros H; [reflexivity|].
  cbn [trimStart]. destruct (isSpace c); [|exact H].
  unfold noComma in H. cbn in H. apply andb_prop in H. apply IH, H.
Qed.

Lemma noComma_trimEnd : forall s, noComma s = true -> noComma (trimEnd s) = true.
Proof.
  induction s as [|c s IH]; intros H; [reflexivity|].
  unfold noComma in H. cbn in H. apply andb_prop in H. destruct H as [Hc Hs].
  pose proof (IH Hs) as IH'. cbn [trimEnd].
  destruct (trimEnd s) as [|d r].
  - destruct (isSpace c); [reflexivity|]. unfold noComma. cbn. rewrite Hc. reflexivity.
  - unfold noComma in *. cbn [list_ascii_of_string forallb]. rewrite Hc. exact IH'.
Qed.

Lemma trimStart_toLowerCase : forall s,
  trimStart (toLowerCase s) = toLowerCase (trimStart s).
Proof.
  induction s as [|c s IH]; [reflexivity|].
  cbn [toLowerCase trimStart]. rewrite isSpace_lowerChar.
  destruct (isSpace c); [exact IH | reflexivity].
Qed.

Lemma trimEnd_toLowerCase : forall s,
  trimEnd (toLowerCase s) = toLowerCase (trimEnd s).
Proof.
  induction s as [|c s IH]; [reflexivity|].
  cbn [toLowerCase trimEnd]. rewrite IH, isSpace_lowerChar.
  destruct (trimEnd s) as [|d r]; cbn [toLowerCase].
  - destruct (isSpace c); reflexivity.
  - reflexivity.
Qed.

Lemma trim_toLowerCase : forall s, trim (toLowerCase s) = toLowerCase (trim s).
Proof.
  intros s. unfold trim. rewrite trimStart_toLowerCase, trimEnd_toLowerCase. reflexivity.
Qed.

Lemma trimEnd_idempotent : forall s, trimEnd (trimEnd s) = trimEnd s.
Proof.
  induction s as [|c s IH]; [reflexivity|].
  cbn [trimEnd]. destruct (trimEnd s) as [|d r] eqn:E.
  - destruct (isSpace c) eqn:Hc; [reflexivity|]. cbn. rewrite Hc. reflexivity.
  - cbn [trimEnd]. cbn [trimEnd] in IH. rewrite IH. reflexivity.
Qed.

Lemma startsClean_trimStart : forall s, startsClean (trimStart s) = true.
Proof.
  induction s as [|c s IH]; [reflexivity|].
  cbn [trimStart]. destruct (isSpace c) eqn:E; [exact IH|]. cbn. rewrite E. reflexivity.
Qed.

Lemma startsClean_trimEnd : forall s, startsClean s = true -> startsClean (trimEnd s) = true.
Proof.
  intros [|c s] H; [reflexivity|]. cbn in H. cbn [trimEnd].
  destruct (trimEnd s); [|exact H].
  apply negb_true_iff in H. rewrite H. cbn. rewrite H. reflexivity.
Qed.

Lemma trimStart_clean : forall s, startsClean s = true -> trimStart s = s.
Proof.
  intros [|c s] H; [reflexivity|]. cbn in H. apply negb_true_iff in H.
  cbn. rewrite H. reflexivity.
Qed.

Lemma trim_idempotent : forall s, trim (trim s) = trim s.
Proof.
  intros s. unfold trim.
  rewrite (trimStart_clean (trimEnd (trimStart s))).
  - apply trimEnd_idempotent.
  - apply startsClean_trimEnd, startsClean_trimStart.
Qed.

Lemma trim_space : forall s, trim (String " " s) = trim s.
Proof. reflexivity. Qed.

Lemma parseInterests_all_normal : forall value, Forall normal (parseInterests value).
Proof.
  intros value. apply Forall_forall. intros s Hin.
  unfold parseInterests in Hin. apply filter_In in Hin. destruct Hin as [Hin Hne].
  apply in_map_iff in Hin. destruct Hin as (p & <- & Hp).
  pose proof (split_noComma value) as Hall. rewrite Forall_forall in Hall.
  specialize (Hall p Hp).
  split; [|split; [|split]].
  - intros E. rewrite E in Hne. discriminate.
  - rewrite <- trim_toLowerCase, trim_idempotent. reflexivity.
  - apply toLowerCase_idempotent.
  - rewrite noComma_toLowerCase. unfold trim.
    apply noComma_trimEnd, noComma_trimStart, Hall.
Qed.

Lemma parseInterests_join : forall l,
  Forall normal l -> parseInterests (join ", " l) = l.
Proof.
  intros [|x l] H; [reflexivity|].
  inversion H as [|? ? Hx Hl]; subst.
  unfold parseInterests. rewrite split_join.
  - cbn [map filter].
    destruct Hx as (Hne & Htrim & Hlow & _). rewrite Htrim, Hlow.
    destruct (String.eqb_spec x ""); [contradiction|]. cbn [negb]. f_equal.
    clear -Hl. induction Hl as [|y r Hy Hr IH]; [reflexivity|].
    cbn [map filter]. rewrite trim_space.
    destruct Hy as (Hne & Htrim & Hlow & _). rewrite Htrim, Hlow.
    destruct (String.eqb_spec y ""); [contradiction|]. cbn [negb]. f_equal. exact IH.
  - apply Hx.
  - eapply Forall_impl; [|exact Hl]. intros a Ha. apply Ha.
Qed.

Lemma truncate_length : forall t, String.length (truncate t) <= 43.
Proof.
  intros t. unfold truncate. destruct (Nat.ltb_spec 40 (String.length t)) as [H|H]; [|lia].
  assert (Happ : forall a b, String.length (a ++ b) = String.length a + String.length b).
  { induction a as [|c a IH]; intros b; [reflexivity|]. cbn. rewrite IH. reflexivity. }
  assert (Hsub : forall m s, String.length (substring 0 m s) <= m).
  { induction m as [|m IH]; intros [|c s]; cbn; try lia.
    specialize (IH s). lia. }
  rewrite Happ. specialize (Hsub 40 t). cbn [String.length]. lia.
Qed.

Lemma insertItem_firstn : forall (x : item) l,
  List.length l <= limit -> insertItem x l = firstn limit (x :: l).
Proof.
  intros x l Hlen. unfold insertItem.
  destruct (Nat.ltb_spec limit (List.length (x :: l))) as [H|H].
  - rewrite removelast_firstn_len. f_equal. cbn [List.length] in *. lia.
  - symmetry. apply firstn_all2. exact H.
Qed.

Lemma firstn_cons_firstn : forall (x : item) n l,
  firstn n (x :: firstn n l) = firstn n (x :: l).
Proof.
  intros x [|n] l; [reflexivity|].
  rewrite !firstn_cons. f_equal. rewrite firstn_firstn. f_equal. lia.
Qed.

Lemma addActivityEntry_items : forall t d a,
  items (addActivityEntry t d a)
  = match items a with
    | Some l => if includes t "<" then None else Some (insertItem (itemOf t d) l)
    | None => None
    end.
Proof. intros t d a. unfold addActivityEntry. destruct (String.eqb d "hidden"); reflexivity. Qed.

Lemma addAll_items : forall entries a all,
  Forall (fun e => includes (fst e) "<" = false) entries ->
  items a = Some (firstn limit all) ->
  items (addAll entries a)
  = Some (firstn limit
            (rev (map (fun e => itemOf (fst e) (snd e)) entries) ++ all)%list).
Proof.
  induction entries as [|[t d] rest IH]; intros a all Hplain Ha; [exact Ha|].
  inversion Hplain as [|? ? Ht Hrest]; subst. cbn [fst] in Ht.
  cbn [addAll fold_left map rev fst snd].
  change (fold_left _ rest ?x) with (addAll rest x).
  rewrite (IH _ (itemOf t d :: all) Hrest).
  - rewrite <- app_assoc. reflexivity.
  - rewrite addActivityEntry_items, Ha, Ht. f_equal.
    rewrite insertItem_firstn by apply firstn_le_length.
    apply firstn_cons_firstn.
Qed.

Lemma addAll_stats : forall entries a,
  processed (addAll entries a) = processed a + List.length entries
  /\ hidden (addAll entries a)
     = hidden a + List.length (filter (fun e => String.eqb (snd e) "hidden") entries)
  /\ kept (addAll entries a)
     = kept a + List.length (filter (fun e => negb (String.eqb (snd e) "hidden")) entries).
Proof.
  induction entries as [|[t d] rest IH]; intros a; [cbn; lia|].
  cbn [addAll fold_left fst snd].
  change (fold_left _ rest ?x) with (addAll rest x).
  destruct (IH (addActivityEntry t d a)) as (H1 & H2 & H3).
  rewrite H1, H2, H3. unfold addActivityEntry. cbn [filter snd].
  destruct (String.eqb d "hidden"); cbn; lia.
Qed.

End PopupFacts.

(** X23.  Every interest the save button stores is non-empty, has no
    white space around it, no capital letter and no comma; and nothing is
    stored when no such entry is left. *)
Theorem saved_interests_are_normalised : forall value,
  match Popup.save value with
  | Some interests =>
      interests <> []
      /\ Forall (fun s => s <> "" /\ Popup.trim s = s /\ JS.toLowerCase s = s
                          /\ Popup.noComma s = true) interests
  | None => Popup.parseInterests value = []
  end.
Proof.
  intros value. unfold Popup.save.
  pose proof (parseInterests_all_normal value) as H.
  destruct (Popup.parseInterests value) as [|x l]; [reflexivity|].
  split; [discriminate | exact H].
Qed.

(** X24.  When the save button stores a list, reopening the popup shows
    [interests.join(', ')] of it, and that text parses back to exactly
    the stored list: saving again without editing stores the same
    interests. *)
Theorem saved_interests_round_trip : forall value interests,
  Popup.save value = Some interests ->
  Popup.parseInterests (Popup.showInterests (Some interests)) = interests
  /\ Popup.save (Popup.showInterests (Some interests)) = Some interests.
Proof.
  intros value interests Hsave. unfold Popup.save in Hsave.
  pose proof (parseInterests_all_normal value) as H.
  destruct (Popup.parseInterests value) as [|x l] eqn:E; [discriminate|].
  injection Hsave as <-.
  assert (Hparse : Popup.parseInterests (Popup.showInterests (Some (x :: l))) = x :: l).
  { cbn [Popup.showInterests]. apply parseInterests_join. exact H. }
  split; [exact Hparse|]. unfold Popup.save. rewrite Hparse. reflexivity.
Qed.

Lemma saved_interests_round_trip_witness :
  Popup.parseInterests (Popup.showInterests (Some ["ai"; "venture capital"]))
  = ["ai"; "venture capital"].
Proof.
  apply (proj1 (saved_interests_round_trip " AI,, Venture Capital ,"
                  ["ai"; "venture capital"] eq_refl)).
Defined.

(** X25.  After any series of [ACTIVITY_LOG] messages [processed] is
    the number of messages and equals [hidden + kept], [hidden] counting
    the "hidden" decisions, and the text put into an item has at most 43
    code units.  If no tweet text holds the character "<" (which the HTML
    parser would not keep as text) and the list started with at most 50
    items, the activity list is the first 50 of the new items, newest
    first, followed by the old ones: it never has more than 50 items. *)
Theorem activity_list_is_capped : forall initialItems entries,
  let a := Popup.addAll entries (Popup.opened initialItems) in
  Popup.processed a = List.length entries
  /\ Popup.hidden a + Popup.kept a = Popup.processed a
  /\ Popup.hidden a
     = List.length (filter (fun e => String.eqb (snd e) "hidden") entries)
  /\ (forall e, String.length (Popup.shown (Popup.itemOf (fst e) (snd e))) <= 43)
  /\ (List.length initialItems <= 50 ->
      Forall (fun e => JS.includes (fst e) "<" = false) entries ->
      exists items,
        Popup.items a = Some items
        /\ items
           = firstn 50 (rev (map (fun e => Popup.itemOf (fst e) (snd e)) entries)
                        ++ initialItems)%list
        /\ List.length items <= 50).
Proof.
  intros initialItems entries a.
  destruct (addAll_stats entries (Popup.opened initialItems)) as (H1 & H2 & H3).
  fold a in H1, H2, H3.
  cbn [Popup.opened Popup.processed Popup.hidden Popup.kept Nat.add] in H1, H2, H3.
  split; [exact H1|]. split.
  { rewrite H1, H2, H3.
    clear. induction entries as [|[t d] rest IH]; [reflexivity|].
    cbn [filter snd List.length]. destruct (String.eqb d "hidden"); cbn; lia. }
  split; [exact H2|]. split; [intros e; apply truncate_length|].
  intros Hlen Hplain. change 50 with Popup.limit in *.
  eexists. split; [|split; [reflexivity | apply firstn_le_length]].
  unfold a. apply addAll_items; [exact Hplain|].
  unfold Popup.opened. cbn [Popup.items]. f_equal.
  symmetry. apply firstn_all2. exact Hlen.
Qed.

Lemma activity_list_is_capped_witness :
  exists items,
    Popup.items (Popup.addAll [("Giveaway today", "hidden"); ("A new GPU", "kept")]
                   (Popup.opened []))
    = Some items
    /\ items
       = firstn 50 (rev (map (fun e => Popup.itemOf (fst e) (snd e))
                          [("Giveaway today", "hidden"); ("A new GPU", "kept")])
                    ++ [])%list
    /\ List.length items <= 50.
Proof.
  apply (proj2 (proj2 (proj2 (proj2
           (activity_list_is_capped [] [("Giveaway today", "hidden"); ("A new GPU", "kept")])))));
    [apply Nat.le_0_l | repeat constructor].
Defined.

(** ** The content script *)

Section ContentFacts.
Import JS ContentScript.

Lemma includes_nonempty : forall s sub,
  sub <> "" -> includes s sub = true -> s <> "".
Proof.
  intros s sub Hsub H E. subst s. destruct sub; [contradiction | discriminate].
Qed.

Lemma afterPrefix_some : forall p s r, afterPrefix p s = Some r -> s = p ++ r.
Proof.
  induction p as [|a p IH]; intros s r H.
  - cbn in H. destruct s; injection H as <-; reflexivity.
  - destruct s as [|b s]; [discriminate|]. cbn in H.
    destruct (Ascii.eqb_spec a b) as [->|]; [|discriminate].
    cbn. f_equal. apply IH. exact H.
Qed.

Lemma afterPrefix_app : forall p r, afterPrefix p (p ++ r) = Some r.
Proof.
  induction p as [|a p IH]; intros r; [destruct r; reflexivity|].
  cbn. rewrite Ascii.eqb_refl. apply IH.
Qed.

Lemma digits_split : forall s,
  exists rest, s = digits s ++ rest
               /\ match rest with
                  | EmptyString => True
                  | String c _ => isDigit c = false
                  end.
Proof.
  induction s as [|c s IH].
  - exists "". split; [reflexivity | exact I].
  - cbn [digits]. destruct (isDigit c) eqn:E.
    + destruct IH as (rest & Hs & Hrest). exists rest.
      split; [cbn; f_equal; exact Hs | exact Hrest].
    + exists (String c s). split; [reflexivity | exact E].
Qed.

Lemma digits_all : forall s, forallb isDigit (list_ascii_of_string (digits s)) = true.
Proof.
  induction s as [|c s IH]; [reflexivity|].
  cbn [digits]. destruct (isDigit c) eqn:E; [|reflexivity].
  cbn. rewrite E. exact IH.
Qed.

Lemma matchStatus_some : forall s number,
  matchStatus s = Some number ->
  number <> ""
  /\ forallb isDigit (list_ascii_of_string number) = true
  /\ exists before rest,
       s = before ++ "/status/" ++ number ++ rest
       /\ match rest with
          | EmptyString => True
          | String c _ => isDigit c = false
          end.
Proof.
  induction s as [|c s IH]; intros number H.
  - cbn in H. discriminate.
  - cbn [matchStatus] in H.
    destruct (afterPrefix "/status/" (String c s)) as [r|] eqn:E.
    + destruct (String.eqb_spec (digits r) "") as [Hd|Hd]; cbn [negb] in H.
      * destruct (IH number H) as (Hne & Hall & before & rest & Hs & Hrest).
        split; [exact Hne|]. split; [exact Hall|].
        exists (String c before), rest. split; [cbn; f_equal; exact Hs | exact Hrest].
      * injection H as <-. split; [exact Hd|]. split; [apply digits_all|].
        destruct (digits_split r) as (rest & Hr & Hrest).
        exists "", rest. split; [|exact Hrest].
        rewrite (afterPrefix_some _ _ _ E). cbn [append]. rewrite <- Hr. reflexivity.
    + cbn in H.
      destruct (IH number H) as (Hne & Hall & before & rest & Hs & Hrest).
      split; [exact Hne|]. split; [exact Hall|].
      exists (String c before), rest. split; [cbn; f_equal; exact Hs | exact Hrest].
Qed.

Lemma matchStatus_none : forall s,
  matchStatus s = None ->
  forall before c rest, isDigit c = true -> s <> before ++ "/status/" ++ String c rest.
Proof.
  induction s as [|x s IH]; intros H before c rest Hc Hs.
  - destruct before; discriminate.
  - cbn [matchStatus] in H.
    destruct before as [|b before].
    + cbn [append] in Hs.
      change (String "/" (String "s" (String "t" (String "a" (String "t"
               (String "u" (String "s" (String "/" (String c rest)))))))))
        with ("/status/" ++ String c rest) in Hs.
      rewrite Hs, afterPrefix_app in H. cbn [digits] in H. rewrite Hc in H.
      cbn in H. discriminate.
    + cbn [append] in Hs. injection Hs as _ Hs.
      destruct (negb _); [discriminate|].
      exact (IH H before c rest Hc Hs).
Qed.

Lemma toInt32_range : forall z, (- 2 ^ 31 <= toInt32 z < 2 ^ 31)%Z.
Proof.
  intros z. unfold toInt32.
  pose proof (Z.mod_pos_bound (z + 2 ^ 31) (2 ^ 32) ltac:(lia))%Z. lia.
Qed.

Lemma toInt32_congruent : forall a b,
  (a mod 2 ^ 32 = b mod 2 ^ 32)%Z -> toInt32 a = toInt32 b.
Proof.
  intros a b H. unfold toInt32. f_equal.
  rewrite (Z.add_mod a), (Z.add_mod b), H by lia. reflexivity.
Qed.

Lemma toInt32_mod : forall z, (toInt32 z mod 2 ^ 32 = z mod 2 ^ 32)%Z.
Proof.
  intros z. unfold toInt32.
  rewrite Zminus_mod, Z.mod_mod by lia.
  rewrite <- Zminus_mod. f_equal. lia.
Qed.

Lemma hashStep_polynomial : forall p c,
  hashStep (toInt32 p) c = toInt32 (31 * p + Z.of_nat (nat_of_ascii c))%Z.
Proof.
  intros p c. unfold hashStep. apply toInt32_congruent.
  rewrite Z.shiftl_mul_pow2 by lia.
  set (h := toInt32 p). set (n := Z.of_nat (nat_of_ascii c)).
  rewrite Z.add_mod, Zminus_mod, toInt32_mod by lia.
  rewrite <- Zminus_mod, <- Z.add_mod by lia.
  replace (h * 2 ^ 5 - h + n)%Z with (31 * h + n)%Z by lia.
  rewrite Z.add_mod, Z.mul_mod by lia. unfold h. rewrite toInt32_mod.
  rewrite <- Z.mul_mod, <- Z.add_mod by lia. reflexivity.
Qed.

Lemma hashLoop_polynomial : forall l p,
  fold_left hashStep l (toInt32 p)
  = toInt32 (fold_left (fun h c => (31 * h + Z.of_nat (nat_of_ascii c))%Z) l p).
Proof.
  induction l as [|c l IH]; intros p; [reflexivity|].
  cbn [fold_left]. rewrite hashStep_polynomial. apply IH.
Qed.

Lemma tracked_stop : forall st, tracked st -> tracked (stop st) /\ intervals (stop st) = [].
Proof.
  intros st H. unfold stop, tracked in *.
  destruct (mainLoopInterval st) as [id|] eqn:E.
  - cbn. rewrite H. cbn. rewrite Nat.eqb_refl. split; reflexivity.
  - rewrite E. split; exact H.
Qed.

Lemma tracked_start : forall url st,
  tracked st -> loadListeners st = 0 ->
  tracked (start url true st) /\ loadListeners (start url true st) = 0.
Proof.
  intros url st H H0. unfold start, tracked in *.
  destruct (mainLoopInterval st) as [id|] eqn:E.
  - rewrite E. split; assumption.
  - destruct (negb (checkIfTwitterFeed url)).
    + rewrite E. split; assumption.
    + cbn. rewrite H. split; [reflexivity | exact H0].
Qed.

Lemma tracked_observe : forall url lastUrl st,
  tracked st -> loadListeners st = 0 ->
  tracked (snd (observe url true lastUrl st))
  /\ loadListeners (snd (observe url true lastUrl st)) = 0.
Proof.
  intros url lastUrl st H H0. unfold observe.
  destruct (String.eqb url lastUrl); [split; assumption|].
  destruct (negb (checkIfTwitterFeed url) && _).
  - cbn [snd]. split; [apply tracked_stop; exact H|].
    unfold stop. destruct (mainLoopInterval st); exact H0.
  - destruct (checkIfTwitterFeed url && _); cbn [snd].
    + apply tracked_start; assumption.
    + split; assumption.
Qed.

Lemma tracked_notify : forall url existing st,
  tracked st -> loadListeners st = 0 ->
  tracked (snd (notify url true existing st))
  /\ loadListeners (snd (notify url true existing st)) = 0.
Proof.
  intros url existing. induction existing as [|lastUrl rest IH]; intros st H H0.
  - split; assumption.
  - cbn [notify].
    destruct (tracked_observe url lastUrl st H H0) as [H1 H1'].
    destruct (observe url true lastUrl st) as [lastUrl1 st1]. cbn [snd] in *.
    destruct (IH st1 H1 H1') as [H2 H2'].
    destruct (notify url true rest st1) as [rest1 st2]. cbn [snd] in *.
    split; assumption.
Qed.

Lemma tracked_step : forall url e st,
  tracked st -> loadListeners st = 0 ->
  tracked (step url true e st) /\ loadListeners (step url true e st) = 0.
Proof.
  intros url e st H H0. destruct e as [d| |]; cbn [step].
  - destruct d; try (split; assumption).
    + apply tracked_start; assumption.
    + split; [apply tracked_stop; exact H|].
      unfold stop. destruct (mainLoopInterval st); exact H0.
  - unfold onLoad. rewrite H0. cbn. split; [exact H | reflexivity].
  - unfold onMutation.
    destruct (tracked_notify url (observers st) (setObservers [] st) H H0) as [H1 H1'].
    destruct (notify url true (observers st) (setObservers [] st)) as [existing st1].
    cbn [snd] in *. split; [exact H1 | exact H1'].
Qed.

Lemma tracked_run : forall events st,
  tracked st -> loadListeners st = 0 ->
  tracked (run true events st) /\ loadListeners (run true events st) = 0.
Proof.
  induction events as [|[url e] rest IH]; intros st H H0; [split; assumption|].
  cbn [run fold_left fst snd].
  destruct (tracked_step url e st H H0) as [H1 H1'].
  exact (IH _ H1 H1').
Qed.

(** [n] calls of [start] on a feed page that is still loading. *)
Lemma start_loading : forall url n,
  checkIfTwitterFeed url = true ->
  let st := Nat.iter n (start url false) initial in
  mainLoopInterval st = None /\ intervals st = [] /\ nextInterval st = 1
  /\ loadListeners st = n.
Proof.
  intros url n Hfeed. cbv zeta. induction n as [|n IH]; [repeat split|].
  rewrite Nat.iter_succ. destruct IH as (H1 & H2 & H3 & H4).
  set (s0 := Nat.iter n (start url false) initial) in *.
  unfold start. rewrite H1, Hfeed. cbn. repeat split; try assumption.
  rewrite H4. reflexivity.
Qed.

(** [n] runs of a [load] listener on a feed page. *)
Lemma load_listeners_run : forall n st,
  let st' := Nat.iter n setMainLoop st in
  intervals st' = (intervals st ++ seq (nextInterval st) n)%list
  /\ nextInterval st' = nextInterval st + n
  /\ (0 < n -> mainLoopInterval st' = Some (nextInterval st + n - 1)).
Proof.
  induction n as [|n IH]; intros st; cbv zeta.
  - cbn. rewrite app_nil_r. repeat split; try lia.
  - rewrite Nat.iter_succ. destruct (IH st) as (H1 & H2 & H3).
    set (s0 := Nat.iter n setMainLoop st) in *.
    unfold setMainLoop. cbn [intervals nextInterval mainLoopInterval].
    rewrite H1, H2. split; [|split].
    + rewrite <- app_assoc. f_equal. rewrite seq_S. reflexivity.
    + lia.
    + intros _. f_equal. lia.
Qed.

Lemma onLoad_feed : forall url st,
  checkIfTwitterFeed url = true ->
  onLoad url st
  = let st1 := Nat.iter (loadListeners st) setMainLoop st in
    mkState (mainLoopInterval st1) (intervals st1) (nextInterval st1) 0 (observers st1).
Proof.
  intros url st Hfeed. unfold onLoad.
  assert (H : forall n,
            Nat.iter n (fun st => if checkIfTwitterFeed url then setMainLoop st else st) st
            = Nat.iter n setMainLoop st).
  { induction n as [|n IH]; [reflexivity|].
    rewrite !Nat.iter_succ, IH, Hfeed. reflexivity. }
  rewrite H. reflexivity.
Qed.

End ContentFacts.

(** X26.  The two exact-URL comparisons of [checkIfTwitterFeed] never
    decide: a page counts as the feed exactly when its address contains
    [x.com] or [twitter.com] and contains [/home] or [/timeline] or no
    [/status/].  Every such page passes the test [startCuration] applies
    to the active tab; the pages that pass that test but are no feed are
    status pages. *)
Theorem feed_check_simplified : forall url t,
  Background.url t = Some url ->
  ContentScript.checkIfTwitterFeed url
  = ((JS.includes url "x.com" || JS.includes url "twitter.com")
     && (JS.includes url "/home" || JS.includes url "/timeline"
         || negb (JS.includes url "/status/")))
  /\ (ContentScript.checkIfTwitterFeed url = true -> Background.eligible (Some t) = true)
  /\ (Background.eligible (Some t) = true -> ContentScript.checkIfTwitterFeed url = false ->
      JS.includes url "/status/" = true).
Proof.
  intros url t Hurl.
  assert (Hsimp : ContentScript.checkIfTwitterFeed url
                  = ((JS.includes url "x.com" || JS.includes url "twitter.com")
                     && (JS.includes url "/home" || JS.includes url "/timeline"
                         || negb (JS.includes url "/status/")))).
  { unfold ContentScript.checkIfTwitterFeed. f_equal.
    destruct (String.eqb_spec url "https://x.com/") as [->|_]; [reflexivity|].
    destruct (String.eqb_spec url "https://twitter.com/") as [->|_]; [reflexivity|].
    destruct (JS.includes url "/home"); reflexivity. }
  split; [exact Hsimp|].
  assert (Hel : Background.eligible (Some t)
                = negb (String.eqb url "")
                  && (JS.includes url "x.com" || JS.includes url "twitter.com")).
  { unfold Background.eligible. rewrite Hurl. reflexivity. }
  split.
  - rewrite Hsimp, Hel. intros H. apply andb_prop in H. destruct H as [H _].
    rewrite H, andb_true_r. apply negb_true_iff, String.eqb_neq.
    apply orb_prop in H.
    destruct H as [H|H];
      [apply (includes_nonempty url "x.com") | apply (includes_nonempty url "twitter.com")];
      try discriminate; exact H.
  - rewrite Hsimp, Hel. intros H1 H2. apply andb_prop in H1. destruct H1 as [_ H1].
    rewrite H1 in H2. cbn [andb] in H2.
    destruct (JS.includes url "/status/"); [reflexivity|].
    rewrite !orb_true_r in H2. discriminate.
Qed.

Lemma feed_check_simplified_witness :
  Background.eligible (Some Samples.feedTab) = true.
Proof.
  apply (proj1 (proj2 (feed_check_simplified "https://x.com/home" Samples.feedTab eq_refl))).
  reflexivity.
Defined.

(** X27.  The hash of [getTweetId] is the 32-bit two's-complement
    reading of the content taken as a number in base 31 (the hash of
    Java's [String.hashCode]), hence between -2^31 and 2^31 - 1; a tweet
    without a status link gets the id [tweet-] followed by that number. *)
Theorem tweet_hash_is_polynomial : forall content,
  ContentScript.hashLoop content
  = ContentScript.toInt32 (ContentScript.polynomial content)
  /\ (- 2 ^ 31 <= ContentScript.hashLoop content < 2 ^ 31)%Z
  /\ forall tweet text imageUrls,
       ContentScript.statusHref tweet = None ->
       content = ContentScript.stableContent tweet text imageUrls ->
       ContentScript.getTweetId tweet text imageUrls
       = "tweet-" ++ JS.showZ (ContentScript.toInt32 (ContentScript.polynomial content)).
Proof.
  intros content.
  assert (H : ContentScript.hashLoop content
              = ContentScript.toInt32 (ContentScript.polynomial content)).
  { unfold ContentScript.hashLoop, ContentScript.polynomial.
    change 0%Z with (ContentScript.toInt32 0) at 1. apply hashLoop_polynomial. }
  split; [exact H|]. split; [rewrite H; apply toInt32_range|].
  intros tweet text imageUrls Hhref ->.
  unfold ContentScript.getTweetId. rewrite Hhref, H. reflexivity.
Qed.

Lemma tweet_hash_is_polynomial_witness :
  ContentScript.getTweetId (ContentScript.mkTweetElement None (Some "ada")) "hello" []
  = "tweet-" ++ JS.showZ (ContentScript.toInt32 (ContentScript.polynomial "adahello")).
Proof.
  apply (proj2 (proj2 (tweet_hash_is_polynomial "adahello"))
           (ContentScript.mkTweetElement None (Some "ada")) "hello" []);
    reflexivity.
Defined.

(** X28.  When the tweet's time stamp is inside a link, the id is
    [tweet-] followed by the digits after the first [/status/] of the
    link's address that is followed by a digit, all of them; only if the
    address has no such place is the hash used. *)
Theorem tweet_id_from_status_link : forall tweet text imageUrls href,
  ContentScript.statusHref tweet = Some href ->
  (exists number before rest,
     ContentScript.getTweetId tweet text imageUrls = "tweet-" ++ number
     /\ number <> ""
     /\ forallb ContentScript.isDigit (list_ascii_of_string number) = true
     /\ href = before ++ "/status/" ++ number ++ rest
     /\ match rest with
        | EmptyString => True
        | String c _ => ContentScript.isDigit c = false
        end)
  \/ (ContentScript.getTweetId tweet text imageUrls
      = "tweet-" ++ JS.showZ (ContentScript.hashLoop
                                (ContentScript.stableContent tweet text imageUrls))
      /\ forall before c rest,
           ContentScript.isDigit c = true -> href <> before ++ "/status/" ++ String c rest).
Proof.
  intros tweet text imageUrls href Hhref.
  unfold ContentScript.getTweetId. rewrite Hhref.
  destruct (ContentScript.matchStatus href) as [number|] eqn:E.
  - left. destruct (matchStatus_some href number E) as (Hne & Hall & before & rest & Hs & Hr).
    exists number, before, rest. repeat split; assumption.
  - right. split; [reflexivity|]. apply matchStatus_none. exact E.
Qed.

Lemma tweet_id_from_status_link_witness :
  exists number,
    ContentScript.getTweetId
      (ContentScript.mkTweetElement (Some "https://x.com/ada/status/1815?s=20") None)
      "hello" []
    = "tweet-" ++ number
    /\ forallb ContentScript.isDigit (list_ascii_of_string number) = true.
Proof.
  destruct (tweet_id_from_status_link
              (ContentScript.mkTweetElement (Some "https://x.com/ada/status/1815?s=20") None)
              "hello" [] "https://x.com/ada/status/1815?s=20" eq_refl)
    as [(number & before & rest & Hid & _ & Hdigits & _)|[_ Hnone]].
  - exists number. split; [exact Hid | exact Hdigits].
  - exfalso. apply (Hnone "https://x.com/ada" "1"%char "815?s=20"); reflexivity.
Defined.

(** X29.  On a page that is completely loaded, whatever messages and
    document changes arrive, at most one [processFeed] interval is
    running and it is the one [mainLoopInterval] names; after [STOP] none
    is running. *)
Theorem content_script_single_timer : forall events,
  let st := ContentScript.run true events ContentScript.initial in
  ContentScript.intervals st
  = match ContentScript.mainLoopInterval st with Some id => [id] | None => [] end
  /\ List.length (ContentScript.intervals st) <= 1
  /\ forall url,
       ContentScript.intervals
         (ContentScript.step url true (ContentScript.Message Background.STOP) st) = [].
Proof.
  intros events st.
  destruct (tracked_run events ContentScript.initial eq_refl eq_refl) as [H _].
  fold st in H. unfold ContentScript.tracked in H.
  split; [exact H|]. split.
  - rewrite H. destruct (ContentScript.mainLoopInterval st); cbn; lia.
  - intros url. cbn [ContentScript.step]. apply tracked_stop. exact H.
Qed.

(** X30.  On a feed page that is still loading, every [START] adds a
    [load] listener, and each of them sets an interval of its own when
    the page has loaded: after [n] such messages [n] intervals run, and
    [STOP] clears only the last one. *)
Theorem content_script_timers_while_loading : forall url n,
  ContentScript.checkIfTwitterFeed url = true ->
  let st := ContentScript.onLoad url
              (Nat.iter n (ContentScript.start url false) ContentScript.initial) in
  ContentScript.intervals st = seq 1 n
  /\ ContentScript.intervals (ContentScript.stop st) = seq 1 (n - 1).
Proof.
  intros url n Hfeed st.
  destruct (start_loading url n Hfeed) as (H1 & H2 & H3 & H4).
  set (st0 := Nat.iter n (ContentScript.start url false) ContentScript.initial) in *.
  destruct (load_listeners_run n st0) as (L1 & L2 & L3).
  assert (Hst : ContentScript.intervals st = seq 1 n
                /\ ContentScript.mainLoopInterval st
                   = ContentScript.mainLoopInterval
                       (Nat.iter n ContentScript.setMainLoop st0)).
  { unfold st. rewrite (onLoad_feed url st0 Hfeed), H4. cbv zeta.
    cbn [ContentScript.intervals ContentScript.mainLoopInterval].
    rewrite L1, H2, H3. split; reflexivity. }
  destruct Hst as [Hi Hm]. split; [exact Hi|].
  unfold ContentScript.stop. rewrite Hm.
  destruct n as [|n].
  - cbn. unfold st0 in *. cbn. exact Hi.
  - rewrite (L3 ltac:(lia)), H3.
    cbn [ContentScript.intervals]. rewrite Hi.
    replace (1 + S n - 1) with (S n) by lia. replace (S n - 1) with n by lia.
    rewrite seq_S, filter_app. cbn [filter Nat.add]. rewrite Nat.eqb_refl. cbn [negb].
    rewrite app_nil_r.
    apply forallb_filter_id. apply forallb_forall. intros i Hin.
    apply in_seq in Hin. apply negb_true_iff, Nat.eqb_neq. lia.
Qed.

Lemma content_script_timers_while_loading_witness :
  ContentScript.intervals
    (ContentScript.stop
       (ContentScript.onLoad "https://x.com/home"
          (Nat.iter 2 (ContentScript.start "https://x.com/home" false)
             ContentScript.initial)))
  = seq 1 (2 - 1).
Proof.
  apply (proj2 (content_script_timers_while_loading "https://x.com/home" 2 eq_refl)).
Defined.
